(** * Selenium MCP server and its OpenAI client: a shallow embedding

    The development follows [src/server.py] (the browser tool server) and
    [src/openai_client.py] (the agent loop).  Python values are kept as the
    code has them: [int] is [Z], [str] is [string], a [dict] that is only
    used as a map is a [gmap], a [dict] that is returned to the caller keeps
    its insertion order as an association list.  External collaborators
    (the live browser, the model endpoint, the tool transport) are type
    classes over the state of the outside world, which the calls thread
    through. *)

From stdpp Require Import gmap strings list pretty.
From Stdlib Require Import ZArith QArith Lia Permutation Sorted Ascii.

Set Warnings "-register-all".

Close Scope Q_scope.
Open Scope string_scope.
Open Scope list_scope.

(** ** Python values *)

Module Py.

(** The values that reach [json.dump], a tool result or a summary entry. *)
Inductive pyval :=
| PyNone
| PyBool (b : bool)
| PyInt (z : Z)
| PyStr (s : string)
| PyList (l : list pyval)
| PyTuple (l : list pyval)
| PyDict (d : list (string * pyval)).

Abbreviation dict := (list (string * pyval)).

(** [d.get(k)] *)
Fixpoint dict_get (k : string) (d : dict) : option pyval :=
  match d with
  | [] => None
  | (k', v) :: d' => if decide (k = k') then Some v else dict_get k d'
  end.

(** [d[k] = v]: an existing key keeps its place, a new key goes last. *)
Fixpoint dict_set (k : string) (v : pyval) (d : dict) : dict :=
  match d with
  | [] => [(k, v)]
  | (k', v') :: d' =>
      if decide (k = k') then (k, v) :: d' else (k', v') :: dict_set k v d'
  end.

(** [d.update(e)] *)
Definition dict_update (d e : dict) : dict :=
  foldl (fun acc kv => dict_set kv.1 kv.2 acc) d e.

(** [sep.join(parts)] *)
Definition join (sep : string) (parts : list string) : string :=
  String.concat sep parts.

(** [s.startswith(p)] *)
Definition startswith (s p : string) : bool := String.prefix p s.

(** [s.endswith(suffix)] *)
Fixpoint endswith (s suffix : string) : bool :=
  String.eqb s suffix
  || match s with
     | String _ s' => endswith s' suffix
     | EmptyString => false
     end.

(** [os.path.join(a, b)], with [/] between the parts: a second part that
    starts at the root stands alone. *)
Definition path_join (a b : string) : string :=
  if startswith b "/" then b
  else if String.eqb a "" || endswith a "/" then a +:+ b
  else a +:+ "/" +:+ b.

(** Bounds of [l[start:stop]] for a list of length [len]: a negative bound
    counts from the end, and both are clamped to [0, len]. *)
Definition slice_bound (len i : Z) : Z :=
  let i := if (i <? 0)%Z then (i + len)%Z else i in
  Z.max 0 (Z.min len i).

(** [l[start:stop]] *)
Definition slice {A} (l : list A) (start stop : Z) : list A :=
  let len := Z.of_nat (length l) in
  let lo := slice_bound len start in
  let hi := slice_bound len stop in
  take (Z.to_nat (hi - lo)) (drop (Z.to_nat lo) l).

(** [str.strip()] on the ASCII white space characters. *)
Definition is_space (c : Ascii.ascii) : bool :=
  let n := Ascii.nat_of_ascii c in
  (((9 <=? n) && (n <=? 13)) || ((28 <=? n) && (n <=? 32)))%nat.

Fixpoint lstrip (s : string) : string :=
  match s with
  | String c s' => if is_space c then lstrip s' else s
  | EmptyString => EmptyString
  end.

Fixpoint rstrip (s : string) : string :=
  match s with
  | String c s' =>
      match rstrip s' with
      | EmptyString => if is_space c then EmptyString else String c EmptyString
      | r => String c r
      end
  | EmptyString => EmptyString
  end.

Definition strip (s : string) : string := rstrip (lstrip s).

(** [s.replace("-", "_")] *)
Fixpoint replace_dash (s : string) : string :=
  match s with
  | String c s' =>
      String (if decide (c = "-"%char) then "_"%char else c) (replace_dash s')
  | EmptyString => EmptyString
  end.

(** [" ".join(s)] for a [str] argument iterates its characters. *)
Fixpoint chars (s : string) : list string :=
  match s with
  | String c s' => String c EmptyString :: chars s'
  | EmptyString => []
  end.

(** [s.capitalize()] on the ASCII letters: first character upper case, the
    rest lower case. *)
Definition upper (c : Ascii.ascii) : Ascii.ascii :=
  let n := Ascii.nat_of_ascii c in
  if ((97 <=? n) && (n <=? 122))%nat then Ascii.ascii_of_nat (n - 32) else c.

Definition lower (c : Ascii.ascii) : Ascii.ascii :=
  let n := Ascii.nat_of_ascii c in
  if ((65 <=? n) && (n <=? 90))%nat then Ascii.ascii_of_nat (n + 32) else c.

Fixpoint lowercase (s : string) : string :=
  match s with
  | String c s' => String (lower c) (lowercase s')
  | EmptyString => EmptyString
  end.

Definition capitalize (s : string) : string :=
  match s with
  | String c s' => String (upper c) (lowercase s')
  | EmptyString => EmptyString
  end.

(** Exceptions that leave a function. *)
Inductive exn :=
| AttributeError (msg : string)
| TypeError (msg : string)
| ValueError (msg : string)
| RuntimeError (msg : string)
| OtherException (msg : string).   (* raised by a library or a remote party *)

(** [str(e)] *)
Definition exn_str (e : exn) : string :=
  match e with
  | AttributeError m | TypeError m | ValueError m | RuntimeError m
  | OtherException m => m
  end.

(** What a call produced: a returned value or an exception. *)
Inductive outcome (A : Type) :=
| Returned (a : A)
| Raised (e : exn).
Arguments Returned {A} a.
Arguments Raised {A} e.

(** What a [for] loop iterates over, for the values that can be iterated. *)
Definition iterate (v : pyval) : option (list pyval) :=
  match v with
  | PyList l | PyTuple l => Some l
  | PyStr s => Some (PyStr <$> chars s)
  | PyDict d => Some ((fun kv => PyStr kv.1) <$> d)
  | _ => None
  end.

(** [str(v)] and the [{v}] of an f-string, for the values whose text is
    Python's own affair (tuples, dicts, lists). *)
Class Show := str : pyval -> string.

(** [" ".join(v)] on a value taken from a tag: a list of strings, or a
    string, whose characters are then the parts. *)
Definition join_space (v : pyval) : pyval :=
  match v with
  | PyList l =>
      PyStr (join " " (omap (fun x => match x with PyStr s => Some s | _ => None end) l))
  | PyStr s => PyStr (join " " (chars s))
  | _ => v
  end.

(** The values that [json] hands back as they were given: no tuple
    anywhere, and the keys of every dict different from one another (as
    they are in a Python dict). *)
Fixpoint plain (v : pyval) : Prop :=
  match v with
  | PyNone | PyBool _ | PyInt _ | PyStr _ => True
  | PyList l => foldr (fun x rest => plain x /\ rest) True l
  | PyTuple _ => False
  | PyDict d =>
      NoDup d.*1
      /\ foldr (fun kv rest => match kv with (_, x) => plain x /\ rest end) True d
  end.

End Py.

(** ** The BeautifulSoup tree *)

Module Dom.
Import Py.

(** An attribute value: [class] and the other multi-valued attributes are
    lists of tokens, the rest are strings. *)
Inductive attrval :=
| AStr (s : string)
| AList (l : list string).

Abbreviation attrs := (list (string * attrval)).

Inductive node :=
| Tag (name : string) (a : attrs) (children : list node)
| NavigableString (s : string).

(** The [BeautifulSoup] object is itself a tag, named ["[document]"]. *)
Definition document_name : string := "[document]".
Definition BeautifulSoup (contents : list node) : node :=
  Tag document_name [] contents.

(** Where an element sits among its siblings: the siblings before it
    (nearest first), those after it, and the head of its parent. *)
Record crumb := Crumb {
  before : list node;
  after : list node;
  above : string * attrs;
}.

(** A tag inside a tree: its own head and children, and the way up
    (innermost first; empty for a tag without parent). *)
Record element := Element {
  el_name : string;
  el_attrs : attrs;
  el_children : list node;
  el_crumbs : list crumb;
}.

Definition node_name (n : node) : option string :=
  match n with
  | Tag name _ _ => Some name
  | NavigableString _ => None
  end.

(** [tag.get(attr)] *)
Fixpoint get (attr : string) (a : attrs) : option attrval :=
  match a with
  | [] => None
  | (k, v) :: a' => if decide (k = attr) then Some v else get attr a'
  end.

(** Truth value of an attribute value. *)
Definition truthy (v : attrval) : bool :=
  match v with
  | AStr s => negb (String.eqb s "")
  | AList l => negb (Nat.eqb (length l) 0)
  end.

Definition attr_value (v : attrval) : pyval :=
  match v with
  | AStr s => PyStr s
  | AList l => PyList (PyStr <$> l)
  end.

(** [" ".join(value)] *)
Definition join_value (v : attrval) : string :=
  match v with
  | AStr s => join " " (chars s)
  | AList l => join " " l
  end.

(** [el.find_previous_siblings(name)]: the tags of that name before [el]. *)
Definition find_previous_siblings (name : string) (c : crumb) : list node :=
  filter (fun n => node_name n = Some name) (before c).

(** All tags below [n], in document order, each with its way up. *)
Fixpoint descendants (n : node) (up : list crumb) : list element :=
  match n with
  | NavigableString _ => []
  | Tag name a children =>
      (fix walk (prev rest : list node) : list element :=
         match rest with
         | [] => []
         | child :: next =>
             let here := Crumb prev next (name, a) :: up in
             match child with
             | Tag cn ca cc => [Element cn ca cc here]
             | NavigableString _ => []
             end ++ descendants child here ++ walk (child :: prev) next
         end) [] children
  end.

(** [tag.find_all(names)] *)
Definition find_all (names : list string) (el : element) : list element :=
  filter (fun e => el_name e ∈ names)
    (descendants (Tag (el_name el) (el_attrs el) (el_children el)) (el_crumbs el)).

Definition soup_root (contents : list node) : element :=
  Element document_name [] contents [].

(** The strings below a node, in document order. *)
Fixpoint all_strings (n : node) : list string :=
  match n with
  | NavigableString s => [s]
  | Tag _ _ children => concat (map all_strings children)
  end.

(** [tag.get_text(strip=True)] *)
Definition get_text_strip (children : list node) : string :=
  join "" (filter (fun s => s ≠ "") (strip <$> concat (map all_strings children))).

(** *** [build_xpath] and [get_depth] (local functions of
    [get_page_summary]) *)

(** One turn of the [while] loop of [build_xpath] per level; [path] is the
    list under construction. *)
Fixpoint build_xpath_loop (name : string) (up : list crumb) (path : list string)
  : list string :=
  if decide (name = document_name) then path
  else match up with
       | [] => name :: path
       | c :: up' =>
           let sibs := find_previous_siblings name c in
           let index :=
             match sibs with
             | [] => ""
             | _ => "[" +:+ pretty (length sibs + 1) +:+ "]"
             end in
           build_xpath_loop (above c).1 up' ((name +:+ index) :: path)
       end.

Definition build_xpath (el : element) : string :=
  "/" +:+ join "/" (build_xpath_loop (el_name el) (el_crumbs el) []).

Fixpoint get_depth_loop (name : string) (up : list crumb) (depth : Z) : Z :=
  if decide (name = document_name) then depth
  else match up with
       | [] => (depth + 1)%Z
       | c :: up' => get_depth_loop (above c).1 up' (depth + 1)%Z
       end.

Definition get_depth (el : element) : Z :=
  get_depth_loop (el_name el) (el_crumbs el) 0.

(** *** Depth-limited extraction *)

(** [clone_tag_shallow]: name and attributes, no children. *)
Definition clone_tag_shallow (name : string) (a : attrs) : node :=
  Tag name a [].

(** Truth value of what [trim_html_tag_to_depth] returns: [None] and the
    empty string are false, a tag is always true. *)
Definition is_true (t : option node) : bool :=
  match t with
  | None => false
  | Some (NavigableString s) => negb (String.eqb s "")
  | Some (Tag _ _ _) => true
  end.

Section Children.
Variable trim_child : node -> option node.

(** The loop [for child in tag.children: ... new_tag.append(trimmed_child)].
    A trimmed tag is a fresh clone.  A string comes back as the very
    object of the source tree, and [append] first detaches what it is
    given from its current parent: the string leaves [tag.contents]
    while the loop iterates over that list, so the iterator steps over
    the child that followed it. *)
Fixpoint append_children (children : list node) : list node :=
  match children with
  | [] => []
  | child :: rest =>
      match trim_child child with
      | Some (NavigableString s) =>
          if String.eqb s "" then append_children rest
          else NavigableString s ::
               match rest with
               | [] => []
               | _ :: rest' => append_children rest'
               end
      | Some t => t :: append_children rest
      | None => append_children rest
      end
  end.
End Children.

Fixpoint trim_html_tag_to_depth (tag : node) (depth : Z) : option node :=
  if (depth <=? 0)%Z then None
  else match tag with
       | NavigableString _ => Some tag
       | Tag name a children =>
           let new_tag := clone_tag_shallow name a in
           Some (if (1 <? depth)%Z
                 then Tag name a
                        (append_children
                           (fun child => trim_html_tag_to_depth child (depth - 1))
                           children)
                 else new_tag)
       end.

(** How a piece of the result string is produced. *)
Inductive piece :=
| Str (n : node)         (* [str(trimmed)] *)
| Prettify (n : node).   (* [trimmed.prettify()] *)

Definition piece_node (p : piece) : node :=
  match p with Str n | Prettify n => n end.

(** What [extract_html_to_depth] returns: the concatenation of the pieces,
    [str(soup)], or the bound method [soup.prettify] itself. *)
Inductive extracted :=
| Pieces (ps : list piece)
| StrSoup (contents : list node)
| PrettifyMethod (contents : list node).

Definition is_tag (n : node) : bool :=
  match n with Tag _ _ _ => true | NavigableString _ => false end.

(** [html] is given as the contents of the soup parsed from it. *)
Definition extract_html_to_depth (soup : list node) (depth : option Z)
    (prettify : bool) : extracted :=
  match depth with
  | None => if prettify then PrettifyMethod soup else StrSoup soup
  | Some depth =>
      Pieces
        (omap (fun child =>
                 let trimmed := trim_html_tag_to_depth child depth in
                 if is_true trimmed then
                   (fun t => if prettify && is_tag t then Prettify t else Str t)
                     <$> trimmed
                 else None)
              soup)
  end.

(** The number of nesting levels of a node: one for a string or an empty
    tag, one more than its deepest child otherwise. *)
Fixpoint levels (n : node) : nat :=
  match n with
  | NavigableString _ => 1
  | Tag _ _ children => S (foldr (fun child m => Nat.max (levels child) m) 0 children)
  end.

(** The [i]-th child of a tag, with its way up: what [descendants] hands
    out for that child. *)
Definition child_element (parent : string * attrs) (up : list crumb)
    (children : list node) (i : nat) : option element :=
  match children !! i with
  | Some (Tag name a cc) =>
      Some (Element name a cc
              (Crumb (reverse (take i children)) (drop (S i) children) parent :: up))
  | _ => None
  end.

(** The last segment of the path of an element, the one for the element
    itself. *)
Definition own_segment (el : element) : option string :=
  last (build_xpath_loop (el_name el) (el_crumbs el) []).

(** A path segment for a tag with [preceding] siblings of its name before
    it. *)
Definition segment (name : string) (preceding : nat) : string :=
  match preceding with
  | O => name
  | _ => name +:+ "[" +:+ pretty (preceding + 1) +:+ "]"
  end.

(** The tags of that name among the first [i] children. *)
Definition preceding (name : string) (children : list node) (i : nat) : nat :=
  length (filter (fun n => node_name n = Some name) (take i children)).

(** Whether another child than the [i]-th is a tag of that name. *)
Definition has_sibling (name : string) (children : list node) (i : nat) : Prop :=
  exists j, j <> i /\ node_name <$> children !! j = Some (Some name).

End Dom.

(** ** The tool server ([SeleniumMCPServer]) *)

Module Server.
Import Py Dom.

(** [Browser] and [BROWSER_OPTIONS] *)
Definition CHROME : string := "chrome".
Definition EDGE : string := "edge".
Definition FIREFOX : string := "firefox".
Definition IE : string := "ie".
Definition SAFARI : string := "safari".
Definition BROWSER_OPTIONS : list string := [CHROME; EDGE; FIREFOX; IE; SAFARI].

(** Modelled from the spec: the values of selenium's [By] class, which is
    not part of the repository; [BY_OPTIONS] collects them.  The spec lists
    id, css selector, xpath, tag name, class name, link text, partial link
    text and name. *)
Definition BY_OPTIONS : list string :=
  ["id"; "xpath"; "link text"; "partial link text"; "name"; "tag name";
   "class name"; "css selector"].

(** The live browser session, as far as the server looks at it.  Each
    [try_...] field is the [try] block of the method of that name, run
    against the session once the strategy is accepted: it yields the next
    state of the session and the value the method returns. *)
Class WebDriver (driver : Type) := {
  (* the constructor for that browser (with the undetected flag for
     chrome): the session, or what the constructor raises when the
     browser cannot be started *)
  launch : string -> bool -> outcome driver;
  (* [driver.maximize_window()] *)
  maximize_window : driver -> outcome driver;
  (* [driver.quit()]: [None] when it returns *)
  quit_ : driver -> option exn;
  (* [BeautifulSoup(driver.page_source, "html.parser").contents] *)
  page_source : driver -> list node;
  (* [driver.find_element(By.XPATH, xpath).is_displayed()];
     [None] stands for [NoSuchElementException] *)
  is_displayed : driver -> string -> option bool;
  (* [driver.get(url)], [driver.back()], [driver.forward()]: not inside a
     [try], so what they raise leaves the method *)
  get_ : string -> driver -> outcome driver;
  back_ : driver -> outcome driver;
  forward_ : driver -> outcome driver;
  current_url : driver -> string;
  try_click : Z -> string -> string -> driver -> driver * string;
  try_type_text :
    Z -> bool -> string -> string -> bool -> bool -> string -> driver ->
    driver * string;
  try_clear_text : Z -> string -> string -> driver -> driver * string;
  try_get_element_text : Z -> string -> string -> driver -> driver * string;
  try_get_element_attribute :
    Z -> string -> string -> string -> driver -> driver * string;
  try_find_elements :
    Z -> string -> string -> Z -> Z -> driver -> driver * list dict;
  try_count_elements : string -> string -> driver -> Z;
  (* [NoSuchElementException] is the only exception caught *)
  try_element_exists : string -> string -> driver -> outcome bool;
}.

(** JSON documents, as [json.dump] writes and [json.load] reads them. *)
Inductive json :=
| JNull
| JBool (b : bool)
| JNum (z : Z)
| JStr (s : string)
| JArr (l : list json)
| JObj (members : list (string * json)).

(** What the server did to the outside world, latest last. *)
Inductive effect :=
| Launched (browser : string) (undetected : bool)
| Quit
| RandomSleep                    (* [time.sleep(offset + variance * random())] *)
| Sleep (seconds : Q)
| Wrote (filename : string).

Section Server.
Context {driver : Type} `{WebDriver driver} `{Show}.

Record server := {
  browser : string;
  driver_ : option driver;           (* [self.driver] *)
  undetected : bool;
  timeout : Z;
  advanced_tools_enabled : bool;
  sequence_recorded : list pyval;
  last_action : pyval;               (* [None] or [(func_name, args_dict)] *)
  recordings_dir : string;           (* [self.recordings_dir] *)
  (* the files of [recordings_dir] that hold a JSON array, as
     [save_recording] writes them, under their names *)
  recordings : gmap string (list json);
  effects : list effect;
}.

Definition set_browser (b : string) (s : server) : server :=
  {| browser := b; driver_ := driver_ s; undetected := undetected s;
     timeout := timeout s; advanced_tools_enabled := advanced_tools_enabled s;
     sequence_recorded := sequence_recorded s; last_action := last_action s;
     recordings_dir := recordings_dir s;
     recordings := recordings s; effects := effects s |}.

Definition set_driver (d : option driver) (s : server) : server :=
  {| browser := browser s; driver_ := d; undetected := undetected s;
     timeout := timeout s; advanced_tools_enabled := advanced_tools_enabled s;
     sequence_recorded := sequence_recorded s; last_action := last_action s;
     recordings_dir := recordings_dir s;
     recordings := recordings s; effects := effects s |}.

Definition set_timeout_field (t : Z) (s : server) : server :=
  {| browser := browser s; driver_ := driver_ s; undetected := undetected s;
     timeout := t; advanced_tools_enabled := advanced_tools_enabled s;
     sequence_recorded := sequence_recorded s; last_action := last_action s;
     recordings_dir := recordings_dir s;
     recordings := recordings s; effects := effects s |}.

Definition set_sequence_recorded (l : list pyval) (s : server) : server :=
  {| browser := browser s; driver_ := driver_ s; undetected := undetected s;
     timeout := timeout s; advanced_tools_enabled := advanced_tools_enabled s;
     sequence_recorded := l; last_action := last_action s;
     recordings_dir := recordings_dir s;
     recordings := recordings s; effects := effects s |}.

Definition set_last_action (a : pyval) (s : server) : server :=
  {| browser := browser s; driver_ := driver_ s; undetected := undetected s;
     timeout := timeout s; advanced_tools_enabled := advanced_tools_enabled s;
     sequence_recorded := sequence_recorded s; last_action := a;
     recordings_dir := recordings_dir s;
     recordings := recordings s; effects := effects s |}.

Definition set_recordings (fs : gmap string (list json)) (s : server) : server :=
  {| browser := browser s; driver_ := driver_ s; undetected := undetected s;
     timeout := timeout s; advanced_tools_enabled := advanced_tools_enabled s;
     sequence_recorded := sequence_recorded s; last_action := last_action s;
     recordings_dir := recordings_dir s;
     recordings := fs; effects := effects s |}.

Definition emit (e : effect) (s : server) : server :=
  {| browser := browser s; driver_ := driver_ s; undetected := undetected s;
     timeout := timeout s; advanced_tools_enabled := advanced_tools_enabled s;
     sequence_recorded := sequence_recorded s; last_action := last_action s;
     recordings_dir := recordings_dir s;
     recordings := recordings s; effects := effects s ++ [e] |}.

(** [__init__]; [cwd] is [os.getcwd()] at that time, and the directory of
    the recordings is taken to be empty. *)
Definition init (cwd b : string) (t : Z) : server :=
  {| browser := b; driver_ := None; undetected := false; timeout := t;
     advanced_tools_enabled := false; sequence_recorded := [];
     last_action := PyNone; recordings_dir := path_join cwd "recordings";
     recordings := ∅; effects := [] |}.

(** [_remember_action]: the caller's name and its arguments, [self]
    left out. *)
Definition _remember_action (func_name : string) (args_dict : dict)
    (s : server) : server :=
  set_last_action (PyTuple [PyStr func_name; PyDict args_dict]) s.

(** [start_browser].  The constructor and [maximize_window] are outside
    any [try]: what they raise leaves the method, the session being
    assigned already when it is [maximize_window] that raises. *)
Definition start_browser (s : server) : server * outcome string :=
  match driver_ s with
  | None =>
      if decide (browser s ∈ BROWSER_OPTIONS) then
        match launch (browser s)
                (undetected s && bool_decide (browser s = CHROME)) with
        | Raised e => (s, Raised e)
        | Returned d =>
            let s :=
              emit (Launched (browser s) (undetected s)) (set_driver (Some d) s) in
            match maximize_window d with
            | Raised e => (s, Raised e)
            | Returned d' =>
                (set_driver (Some d') s,
                 Returned ("Started " +:+ browser s +:+ " browser"))
            end
        end
      else (s, Returned ("Unknown browser " +:+ browser s))
  | Some _ =>
      (s, Returned (capitalize (browser s) +:+ " browser already running"))
  end.

(** [quit_browser]; when [driver.quit()] raises, the session stays
    assigned. *)
Definition quit_browser (s : server) : server * outcome string :=
  match driver_ s with
  | Some d =>
      match quit_ d with
      | Some e => (s, Raised e)
      | None =>
          (set_driver None (emit Quit s),
           Returned (capitalize (browser s) +:+ " browser closed successfully"))
      end
  | None => (s, Returned "No browser running")
  end.

(** [_ensure_browser_started]: the state it leaves, and what it raises. *)
Definition _ensure_browser_started (s : server) : server * option exn :=
  match driver_ s with
  | None =>
      match start_browser s with
      | (s, Raised e) => (s, Some e)
      | (s, Returned _) => (s, None)
      end
  | Some _ => (s, None)
  end.

(** The first step of the operations: what [_ensure_browser_started]
    raises leaves the operation, which otherwise goes on. *)
Definition started {A} (s : server) (rest : server -> server * outcome A)
    : server * outcome A :=
  match _ensure_browser_started s with
  | (s, Some e) => (s, Raised e)
  | (s, None) => rest s
  end.

(** A value that a method returns. *)
Definition returned {A} (r : server * A) : server * outcome A :=
  (r.1, Returned r.2).

Definition _wait_if_undetected (s : server) : server :=
  if undetected s then emit RandomSleep s else s.

Definition set_timeout (seconds : Z) (s : server) : server * string :=
  let s := _remember_action "set_timeout" [("seconds", PyInt seconds)] s in
  (set_timeout_field seconds s,
   "Default timeout set to " +:+ pretty seconds +:+ " seconds").

Definition change_browser (b : string) (s : server) : server * outcome string :=
  if decide (b ∈ BROWSER_OPTIONS) then
    match quit_browser s with
    | (s, Raised e) => (s, Raised e)
    | (s, Returned _) => (set_browser b s, Returned ("Browser set to " +:+ b))
    end
  else
    (s, Returned ("Invalid browser: " +:+ b +:+ ". Must be one of: "
                    +:+ join ", " BROWSER_OPTIONS)).

(** The message of a rejected strategy. *)
Definition invalid_by (by_ : string) : string :=
  "Invalid by: " +:+ by_ +:+ ". Must be one of: " +:+ join ", " BY_OPTIONS.

(** [str(e)] of the [AttributeError] met when [self.driver] is [None] and
    the attribute [attr] of it is asked for. *)
Definition none_msg (attr : string) : string :=
  "'NoneType' object has no attribute '" +:+ attr +:+ "'".

(** A [try] block whose handlers catch every exception, run against the
    session the server holds; without a session it ends in the
    [except Exception] handler, [attr] being the first attribute of the
    session that the block asks for. *)
Definition attempt {A} (attr : string) (s : server) (body : driver -> driver * A)
    (handler : string -> A) : server * A :=
  match driver_ s with
  | Some d => let (d', r) := body d in (set_driver (Some d') s, r)
  | None => (s, handler (none_msg attr))
  end.

(** A call of the method [attr] of the session outside any [try]. *)
Definition call_driver (attr : string) (s : server) (f : driver -> outcome driver)
    : server * outcome driver :=
  match driver_ s with
  | Some d =>
      match f d with
      | Returned d' => (set_driver (Some d') s, Returned d')
      | Raised e => (s, Raised e)
      end
  | None => (s, Raised (AttributeError (none_msg attr)))
  end.

Definition go_to (url : string) (s : server) : server * outcome string :=
  let s := _remember_action "go_to" [("url", PyStr url)] s in
  started s (fun s =>
  let s := _wait_if_undetected s in
  let url := if startswith url "http" then url else "http://" +:+ url in
  match call_driver "get" s (get_ url) with
  | (s, Returned d) => (s, Returned ("Navigated to " +:+ current_url d))
  | (s, Raised e) => (s, Raised e)
  end).

Definition back (s : server) : server * outcome string :=
  let s := _remember_action "back" [] s in
  started s (fun s =>
  let s := _wait_if_undetected s in
  match call_driver "back" s back_ with
  | (s, Returned d) => (s, Returned ("Navigated back to " +:+ current_url d))
  | (s, Raised e) => (s, Raised e)
  end).

Definition forward (s : server) : server * outcome string :=
  let s := _remember_action "forward" [] s in
  started s (fun s =>
  let s := _wait_if_undetected s in
  match call_driver "forward" s forward_ with
  | (s, Returned d) => (s, Returned ("Navigated forward to " +:+ current_url d))
  | (s, Raised e) => (s, Raised e)
  end).

(** *** Element interaction and element queries *)

Definition click (locator by_ : string) (s : server) : server * outcome string :=
  let s := _remember_action "click"
             [("locator", PyStr locator); ("by", PyStr by_)] s in
  started s (fun s =>
  let s := _wait_if_undetected s in
  if decide (by_ ∉ BY_OPTIONS) then (s, Returned (invalid_by by_))
  else returned
         (attempt "find_element" s (try_click (timeout s) by_ locator)
            (fun e => "Error clicking element: " +:+ e))).

Definition type_text (locator text : string)
    (clear press_enter is_password : bool) (by_ : string) (s : server)
    : server * outcome string :=
  let s := _remember_action "type_text"
             [("locator", PyStr locator); ("text", PyStr text);
              ("clear", PyBool clear); ("press_enter", PyBool press_enter);
              ("is_password", PyBool is_password); ("by", PyStr by_)] s in
  started s (fun s =>
  let s := _wait_if_undetected s in
  if decide (by_ ∉ BY_OPTIONS) then (s, Returned (invalid_by by_))
  else returned
         (attempt "find_element" s
            (try_type_text (timeout s) (undetected s) by_ locator clear
               press_enter text)
            (fun e => "Error typing text: " +:+ e))).

Definition clear_text (locator by_ : string) (s : server)
    : server * outcome string :=
  let s := _remember_action "clear_text"
             [("locator", PyStr locator); ("by", PyStr by_)] s in
  started s (fun s =>
  let s := _wait_if_undetected s in
  if decide (by_ ∉ BY_OPTIONS) then (s, Returned (invalid_by by_))
  else returned
         (attempt "find_element" s (try_clear_text (timeout s) by_ locator)
            (fun e => "Error clearing text: " +:+ e))).

Definition get_element_text (locator by_ : string) (s : server)
    : server * outcome string :=
  started s (fun s =>
  if decide (by_ ∉ BY_OPTIONS) then (s, Returned (invalid_by by_))
  else returned
         (attempt "find_element" s (try_get_element_text (timeout s) by_ locator)
            (fun e => "Error getting text: " +:+ e))).

Definition get_element_attribute (locator attribute by_ : string)
    (s : server) : server * outcome string :=
  started s (fun s =>
  if decide (by_ ∉ BY_OPTIONS) then (s, Returned (invalid_by by_))
  else returned
         (attempt "find_element" s
            (try_get_element_attribute (timeout s) by_ locator attribute)
            (fun e => "Error getting attribute: " +:+ e))).

Definition find_elements (locator by_ : string) (max_elements skip_elements : Z)
    (s : server) : server * outcome (list dict) :=
  started s (fun s =>
  if decide (by_ ∉ BY_OPTIONS) then
    (s, Returned [[("error", PyStr (invalid_by by_))]])
  else returned
         (attempt "find_elements" s
            (try_find_elements (timeout s) by_ locator max_elements skip_elements)
            (fun e => [[("error", PyStr e)]]))).

Definition count_elements (locator by_ : string) (s : server)
    : server * outcome Z :=
  started s (fun s =>
  if decide (by_ ∉ BY_OPTIONS) then (s, Returned (-1)%Z)
  else returned
         (attempt "find_elements" s (fun d => (d, try_count_elements by_ locator d))
            (fun _ => 0%Z))).

Definition element_exists (locator by_ : string) (s : server)
    : server * outcome bool :=
  started s (fun s =>
  if decide (by_ ∉ BY_OPTIONS) then (s, Returned false)
  else match driver_ s with
       | Some d => (s, try_element_exists by_ locator d)
       | None => (s, Raised (AttributeError (none_msg "find_element")))
       end).

(** *** [get_page_summary] *)

(** [is_element_visible_by_xpath]: the answer and the cache after it. *)
Definition is_element_visible_by_xpath (d : driver) (xpath : string)
    (visibility_cache : gmap string bool) : bool * gmap string bool :=
  match visibility_cache !! xpath with
  | Some visible => (visible, visibility_cache)
  | None =>
      match is_displayed d xpath with
      | None => (false, visibility_cache)
      | Some visible => (visible, <[xpath := visible]> visibility_cache)
      end
  end.

Definition clean_attrs (a : attrs) (names : list string) : dict :=
  foldl (fun data attr =>
           match get attr a with
           | Some value =>
               if truthy value
               then dict_set (replace_dash attr) (attr_value value) data
               else data
           | None => data
           end) [] names.

(** The tail shared by the loops over inputs, buttons and page tags: the
    visibility check, the [visible] key, and the [continue] that drops
    an invisible element. *)
Definition gate (d : driver) (only_visible_elements detailed : bool)
    (xpath : string) (data : dict) (cache : gmap string bool)
    : option dict * gmap string bool :=
  let (visible, cache) := is_element_visible_by_xpath d xpath cache in
  if negb only_visible_elements then
    (Some (if detailed then dict_set "visible" (PyBool visible) data else data),
     cache)
  else if negb visible then (None, cache)
  else (Some data, cache).

Definition extract_inputs (d : driver) (only_visible_elements detailed : bool)
    (form : element) (cache : gmap string bool)
    : list pyval * gmap string bool :=
  foldl (fun '(inputs, cache) inp =>
           let inp_data :=
             clean_attrs (el_attrs inp)
               ["name"; "placeholder"; "type"; "class"; "id"] in
           let inp_data :=
             match dict_get "class" inp_data with
             | Some c =>
                 dict_set "class" (if detailed then c else join_space c) inp_data
             | None => inp_data
             end in
           match inp_data with
           | [] => (inputs, cache)
           | _ =>
               let xpath := build_xpath inp in
               let inp_data :=
                 if detailed then dict_set "xpath" (PyStr xpath) inp_data
                 else inp_data in
               match gate d only_visible_elements detailed xpath inp_data cache with
               | (Some inp_data, cache) => (inputs ++ [PyDict inp_data], cache)
               | (None, cache) => (inputs, cache)
               end
           end)
        ([], cache) (find_all ["input"; "textarea"; "select"] form).

Definition set_text (children : list node) (data : dict) : dict :=
  let text := get_text_strip children in
  if decide (text = "") then data else dict_set "text" (PyStr text) data.

Definition set_class (a : attrs) (detailed : bool) (data : dict) : dict :=
  match get "class" a with
  | Some classes =>
      if truthy classes
      then dict_set "class"
             (if detailed then attr_value classes else PyStr (join_value classes))
             data
      else data
  | None => data
  end.

Definition extract_buttons (d : driver) (only_visible_elements detailed : bool)
    (form : element) (cache : gmap string bool)
    : list pyval * gmap string bool :=
  foldl (fun '(buttons, cache) btn =>
           let btn_data := set_text (el_children btn) [] in
           let btn_data :=
             dict_update btn_data
               (clean_attrs (el_attrs btn)
                  (if detailed then ["aria-label"; "role"; "class"; "id"]
                   else ["class"; "id"])) in
           let btn_data := set_class (el_attrs btn) detailed btn_data in
           let xpath := build_xpath btn in
           let btn_data :=
             if detailed then dict_set "xpath" (PyStr xpath) btn_data
             else btn_data in
           match gate d only_visible_elements detailed xpath btn_data cache with
           | (Some [], cache) => (buttons, cache)
           | (Some btn_data, cache) => (buttons ++ [PyDict btn_data], cache)
           | (None, cache) => (buttons, cache)
           end)
        ([], cache) (find_all ["button"] form).

Definition summary_tags : list string :=
  ["form"; "button"; "a"; "h1"; "h2"; "h3"; "p"; "span"].

Definition type_of (name : string) : string :=
  if decide (name = "form") then "form"
  else if decide (name = "button") then "button"
  else if decide (name = "a") then "link"
  else "text".

(** [parent_info], with the empty values filtered out. *)
Definition parent_info (parent : string * attrs) : dict :=
  let keep (k : string) (v : option attrval) (info : dict) :=
    match v with
    | Some v => if truthy v then info ++ [(k, attr_value v)] else info
    | None => info
    end in
  keep "class" (get "class" parent.2)
    (keep "id" (get "id" parent.2)
       (keep "tag" (Some (AStr parent.1)) [])).

(** The body of the loop over the page tags: the entry of one tag, or
    nothing when a [continue] is taken. *)
Definition summarize_tag (d : driver) (filter_type : string)
    (only_visible_elements detailed : bool) (tag : element)
    (cache : gmap string bool) : option dict * gmap string bool :=
  let xpath := build_xpath tag in
  let type := type_of (el_name tag) in
  let data := [("index", PyNone); ("type", PyStr type)] in
  if decide (filter_type ≠ "" ∧ filter_type ≠ type) then (None, cache)
  else
    let data :=
      if detailed
      then dict_set "depth" (PyInt (get_depth tag))
             (dict_set "xpath" (PyStr xpath) data)
      else data in
    match gate d only_visible_elements detailed xpath data cache with
    | (None, cache) => (None, cache)
    | (Some data, cache) =>
        let data := set_text (el_children tag) data in
        let '(data, cache) :=
          if decide (type = "link") then
            (match get "href" (el_attrs tag) with
             | Some href =>
                 if truthy href then dict_set "href" (attr_value href) data
                 else data
             | None => data
             end, cache)
          else if decide (type = "form") then
            let '(inputs, cache) :=
              extract_inputs d only_visible_elements detailed tag cache in
            let data :=
              match inputs with
              | [] => data
              | _ => dict_set "inputs" (PyList inputs) data
              end in
            let '(buttons, cache) :=
              extract_buttons d only_visible_elements detailed tag cache in
            (match buttons with
             | [] => data
             | _ => dict_set "buttons" (PyList buttons) data
             end, cache)
          else (data, cache) in
        let data :=
          if detailed
          then dict_update data (clean_attrs (el_attrs tag) ["aria-label"; "role"])
          else data in
        let data := set_class (el_attrs tag) detailed data in
        let data :=
          match get "id" (el_attrs tag) with
          | Some id => if truthy id then dict_set "id" (attr_value id) data else data
          | None => data
          end in
        let data :=
          if detailed then
            match el_crumbs tag with
            | c :: _ =>
                if decide ((above c).1 ≠ document_name) then
                  match parent_info (above c) with
                  | [] => data
                  | info => dict_set "parent" (PyDict info) data
                  end
                else data
            | [] => data
            end
          else data in
        (Some data, cache)
    end.

(** [order.get(x["type"], float("inf"))]; [None] is the infinity. *)
Definition order (data : dict) : option nat :=
  match dict_get "type" data with
  | Some (PyStr "button") => Some 0
  | Some (PyStr "link") => Some 1
  | Some (PyStr "form") => Some 2
  | Some (PyStr "text") => Some 3
  | _ => None
  end.

Definition key_le (a b : option nat) : bool :=
  match a, b with
  | Some x, Some y => (x <=? y)%nat
  | _, None => true
  | None, Some _ => false
  end.

(** [sorted(summary, key=...)]: a stable sort, here by insertion from
    the right, an element going in front of the equal keys that followed
    it in the input. *)
Fixpoint insert_by_key (x : dict) (l : list dict) : list dict :=
  match l with
  | [] => [x]
  | y :: l' =>
      if key_le (order x) (order y) then x :: y :: l' else y :: insert_by_key x l'
  end.

Definition sorted (l : list dict) : list dict := foldr insert_by_key [] l.

Definition index_of (i total : nat) : string :=
  pretty (i + 1) +:+ "/" +:+ pretty total.

Definition summarize_forms_buttons_links_and_text (d : driver)
    (filter_type : string) (only_visible_elements detailed : bool)
    : list dict :=
  let soup := soup_root (page_source d) in
  let summary :=
    (foldl (fun '(summary, cache) tag =>
              match summarize_tag d filter_type only_visible_elements detailed
                      tag cache with
              | (Some data, cache) => (summary ++ [data], cache)
              | (None, cache) => (summary, cache)
              end)
           ([], ∅) (find_all summary_tags soup)).1 in
  let summary := sorted summary in
  imap (fun i data => dict_set "index" (PyStr (index_of i (length summary))) data)
    summary.

(** Without a session [self.driver.page_source] raises. *)
Definition get_page_summary (skip_elements max_elements : Z)
    (filter_type : string) (only_visible_elements detailed : bool)
    (s : server) : outcome (list dict) :=
  match driver_ s with
  | None =>
      Raised (AttributeError "'NoneType' object has no attribute 'page_source'")
  | Some d =>
      let summary :=
        summarize_forms_buttons_links_and_text d filter_type
          only_visible_elements detailed in
      Returned (slice summary skip_elements (skip_elements + max_elements))
  end.

(** *** Recording and replay *)

(** [json.dump]: lists and tuples both become arrays. *)
Fixpoint to_json (v : pyval) : json :=
  match v with
  | PyNone => JNull
  | PyBool b => JBool b
  | PyInt z => JNum z
  | PyStr s => JStr s
  | PyList l | PyTuple l => JArr (map to_json l)
  | PyDict d => JObj (map (fun kv => match kv with (k, x) => (k, to_json x) end) d)
  end.

(** [json.load]: an array becomes a list, an object a dict filled member
    by member. *)
Fixpoint of_json (j : json) : pyval :=
  match j with
  | JNull => PyNone
  | JBool b => PyBool b
  | JNum z => PyInt z
  | JStr s => PyStr s
  | JArr l => PyList (map of_json l)
  | JObj members =>
      PyDict (foldl (fun acc kv => dict_set kv.1 kv.2 acc) []
                (map (fun kv => match kv with (k, x) => (k, of_json x) end)
                   members))
  end.

(** [_get_filename]; [stamp] is the local time as [%Y%m%d_%H%M%S]. *)
Definition _get_filename (prefix stamp extension : string) : string :=
  prefix +:+ "_" +:+ stamp +:+ "." +:+ extension.

(** [_get_filepath], for a directory that can be made. *)
Definition _get_filepath (filename directory : string) : string :=
  path_join directory filename.

Definition get_last_action (s : server) : string :=
  "Last action: " +:+ str (last_action s).

Definition get_recording (s : server) : string :=
  "Last action: " +:+ str (PyList (sequence_recorded s)).

Definition record_last_action (s : server) : server * string :=
  match last_action s with
  | PyNone => (s, "Last action does not exist")
  | a =>
      (set_sequence_recorded (sequence_recorded s ++ [a]) s,
       "Action recorded: " +:+ str a)
  end.

Definition reset_recording (s : server) : server * string :=
  (set_sequence_recorded [] (set_last_action PyNone s),
   "Recording has been reset").

(** [save_recording], for a directory that can be made and written to:
    the [try] block then runs to its end. *)
Definition save_recording (stamp : string) (reset : bool) (s : server)
    : server * string :=
  let filename := _get_filename "recording" stamp "txt" in
  let filepath := _get_filepath filename (recordings_dir s) in
  let num_actions := length (sequence_recorded s) in
  let s :=
    emit (Wrote filename)
      (set_recordings
         (<[filename := to_json <$> sequence_recorded s]> (recordings s)) s) in
  let s := if reset then (reset_recording s).1 else s in
  (s, "Recording (" +:+ pretty num_actions +:+ " actions) saved to " +:+ filepath).

(** [load_recording], for a directory that can be made: a file of
    [recordings] is read and parsed, and a name that is not there ends in
    the handler with the [FileNotFoundError] of [open]. *)
Definition load_recording (filename : string) (s : server) : server * string :=
  let filepath := _get_filepath filename (recordings_dir s) in
  match recordings s !! filename with
  | Some document =>
      let s := set_sequence_recorded (of_json <$> document) s in
      (s, "Recording loaded (" +:+ pretty (length (sequence_recorded s))
            +:+ " actions) from " +:+ filepath)
  | None =>
      (s, "Error loading recording: [Errno 2] No such file or directory: '"
            +:+ filepath +:+ "'")
  end.

Section Replay.
(** [getattr(self, action_name)] called with [arguments] as its keyword
    arguments: the state the call leaves and how it ended. *)
Variable getattr_call : string -> dict -> server -> server * outcome pyval.

(** [for action_name, arguments in ...] takes apart an iterable of two
    elements. *)
Definition unpack (action : pyval) : outcome (pyval * pyval) :=
  match iterate action with
  | Some [action_name; arguments] => Returned (action_name, arguments)
  | Some l =>
      Raised (ValueError
                (if (length l <? 2)%nat
                 then "not enough values to unpack (expected 2, got "
                        +:+ pretty (length l) +:+ ")"
                 else "too many values to unpack (expected 2)"))
  | None => Raised (TypeError "cannot unpack non-iterable object")
  end.

(** One turn of the loop of [play_recording], the [sleep] left out. *)
Definition play_step (action : pyval) (s : server) : server * outcome pyval :=
  match unpack action with
  | Raised e => (s, Raised e)
  | Returned (PyStr action_name, PyDict arguments) =>
      getattr_call action_name arguments s
  | Returned (PyStr _, _) =>
      (s, Raised (TypeError "argument after ** must be a mapping"))
  | Returned _ => (s, Raised (TypeError "attribute name must be string"))
  end.

Definition sleep_between (delay : Q) (s : server) : server :=
  if Qlt_le_dec 0 delay then emit (Sleep delay) s else s.

(** The loop of [play_recording] over the list it started with.  The
    methods that remember an action leave that list alone; a step that
    would extend it ([record_last_action] replayed by name) is outside
    this loop. *)
Fixpoint play_loop (delay : Q) (actions : list pyval) (s : server)
    : server * option exn :=
  match actions with
  | [] => (s, None)
  | action :: rest =>
      match play_step action s with
      | (s, Raised e) => (s, Some e)
      | (s, Returned _) => play_loop delay rest (sleep_between delay s)
      end
  end.

Definition play_recording (delay : Q) (s : server) : server * string :=
  match play_loop delay (sequence_recorded s) s with
  | (s, None) => (s, "Recording has been played")
  | (s, Some e) => (s, "Error playing recording: " +:+ exn_str e)
  end.
End Replay.

(** *** The operations as the caller sees them *)

(** A tool call with its arguments bound. *)
Inductive operation :=
| GoTo (url : string)
| Back
| Forward
| SetTimeout (seconds : Z)
| Click (locator by_ : string)
| TypeText (locator text : string) (clear press_enter is_password : bool)
    (by_ : string)
| ClearText (locator by_ : string)
| GetElementText (locator by_ : string)
| GetElementAttribute (locator attribute by_ : string)
| FindElements (locator by_ : string) (max_elements skip_elements : Z)
| CountElements (locator by_ : string)
| ElementExists (locator by_ : string).

(** The value handed back to the caller, whatever its Python type. *)
Definition run (op : operation) (s : server) : server * outcome pyval :=
  let as_value {A} (value : A -> pyval) (r : server * outcome A) :=
    (r.1, match r.2 with
          | Returned x => Returned (value x)
          | Raised e => Raised e
          end) in
  match op with
  | GoTo url => as_value PyStr (go_to url s)
  | Back => as_value PyStr (back s)
  | Forward => as_value PyStr (forward s)
  | SetTimeout seconds => as_value PyStr (returned (set_timeout seconds s))
  | Click locator by_ => as_value PyStr (click locator by_ s)
  | TypeText locator t clear press_enter is_password by_ =>
      as_value PyStr (type_text locator t clear press_enter is_password by_ s)
  | ClearText locator by_ => as_value PyStr (clear_text locator by_ s)
  | GetElementText locator by_ => as_value PyStr (get_element_text locator by_ s)
  | GetElementAttribute locator attribute by_ =>
      as_value PyStr (get_element_attribute locator attribute by_ s)
  | FindElements locator by_ max_elements skip_elements =>
      as_value (fun l => PyList (PyDict <$> l))
        (find_elements locator by_ max_elements skip_elements s)
  | CountElements locator by_ => as_value PyInt (count_elements locator by_ s)
  | ElementExists locator by_ => as_value PyBool (element_exists locator by_ s)
  end.

(** The element operations that take a strategy, and the strategy. *)
Definition strategy (op : operation) : option string :=
  match op with
  | Click _ by_ | TypeText _ _ _ _ _ by_ | ClearText _ by_
  | GetElementText _ by_ | GetElementAttribute _ _ by_
  | FindElements _ by_ _ _ | CountElements _ by_ | ElementExists _ by_ =>
      Some by_
  | GoTo _ | Back | Forward | SetTimeout _ => None
  end.

(** What stays as it was across a call that only looked at its
    arguments: the configuration, the recording and the files. *)
Definition same_settings (s s' : server) : Prop :=
  browser s' = browser s /\ undetected s' = undetected s /\
  timeout s' = timeout s /\
  advanced_tools_enabled s' = advanced_tools_enabled s /\
  sequence_recorded s' = sequence_recorded s /\
  recordings_dir s' = recordings_dir s /\
  recordings s' = recordings s.

(** Binding of keyword arguments for the twelve methods of [operation],
    with their defaults.  An unexpected or missing keyword fails as in
    Python.  A value of another type than the annotated one is not
    represented by [operation]: it is answered with [TypeError] here, where
    Python would go on with it.  A name that is none of the twelve is
    answered as a name that the server does not have; the other methods of
    the server are not in this table. *)
Definition keyword_str (k : string) (default : option string) (a : dict)
    : outcome string :=
  match dict_get k a, default with
  | Some (PyStr v), _ => Returned v
  | Some _, _ => Raised (TypeError ("argument '" +:+ k +:+ "' is not a str"))
  | None, Some v => Returned v
  | None, None =>
      Raised (TypeError ("missing 1 required positional argument: '" +:+ k +:+ "'"))
  end.

Definition keyword_bool (k : string) (default : bool) (a : dict) : outcome bool :=
  match dict_get k a with
  | Some (PyBool v) => Returned v
  | Some _ => Raised (TypeError ("argument '" +:+ k +:+ "' is not a bool"))
  | None => Returned default
  end.

Definition keyword_int (k : string) (default : option Z) (a : dict) : outcome Z :=
  match dict_get k a, default with
  | Some (PyInt v), _ => Returned v
  | Some _, _ => Raised (TypeError ("argument '" +:+ k +:+ "' is not an int"))
  | None, Some v => Returned v
  | None, None =>
      Raised (TypeError ("missing 1 required positional argument: '" +:+ k +:+ "'"))
  end.

Definition keywords_known (known : list string) (a : dict) : option exn :=
  match filter (fun kv => kv.1 ∉ known) a with
  | [] => None
  | (k, _) :: _ =>
      Some (TypeError ("got an unexpected keyword argument '" +:+ k +:+ "'"))
  end.

Definition bind (action_name : string) (a : dict) : outcome operation :=
  let checked (known : list string) (op : outcome operation) :=
    match keywords_known known a with
    | Some e => Raised e
    | None => op
    end in
  if decide (action_name = "back") then checked [] (Returned Back)
  else if decide (action_name = "forward") then checked [] (Returned Forward)
  else if decide (action_name = "go_to") then
    checked ["url"]
      match keyword_str "url" None a with
      | Returned url => Returned (GoTo url)
      | Raised e => Raised e
      end
  else if decide (action_name = "set_timeout") then
    checked ["seconds"]
      match keyword_int "seconds" None a with
      | Returned seconds => Returned (SetTimeout seconds)
      | Raised e => Raised e
      end
  else if decide (action_name = "click") then
    checked ["locator"; "by"]
      match keyword_str "locator" None a,
            keyword_str "by" (Some "css selector") a with
      | Returned locator, Returned by_ => Returned (Click locator by_)
      | Raised e, _ | _, Raised e => Raised e
      end
  else if decide (action_name = "clear_text") then
    checked ["locator"; "by"]
      match keyword_str "locator" None a,
            keyword_str "by" (Some "css selector") a with
      | Returned locator, Returned by_ => Returned (ClearText locator by_)
      | Raised e, _ | _, Raised e => Raised e
      end
  else if decide (action_name = "type_text") then
    checked ["locator"; "text"; "clear"; "press_enter"; "is_password"; "by"]
      match keyword_str "locator" None a, keyword_str "text" None a,
            keyword_bool "clear" true a, keyword_bool "press_enter" false a,
            keyword_bool "is_password" false a,
            keyword_str "by" (Some "css selector") a with
      | Returned locator, Returned text, Returned clear, Returned press_enter,
        Returned is_password, Returned by_ =>
          Returned (TypeText locator text clear press_enter is_password by_)
      | Raised e, _, _, _, _, _ | _, Raised e, _, _, _, _
      | _, _, Raised e, _, _, _ | _, _, _, Raised e, _, _
      | _, _, _, _, Raised e, _ | _, _, _, _, _, Raised e => Raised e
      end
  else if decide (action_name = "get_element_text") then
    checked ["locator"; "by"]
      match keyword_str "locator" None a,
            keyword_str "by" (Some "css selector") a with
      | Returned locator, Returned by_ => Returned (GetElementText locator by_)
      | Raised e, _ | _, Raised e => Raised e
      end
  else if decide (action_name = "get_element_attribute") then
    checked ["locator"; "attribute"; "by"]
      match keyword_str "locator" None a, keyword_str "attribute" None a,
            keyword_str "by" (Some "css selector") a with
      | Returned locator, Returned attribute, Returned by_ =>
          Returned (GetElementAttribute locator attribute by_)
      | Raised e, _, _ | _, Raised e, _ | _, _, Raised e => Raised e
      end
  else if decide (action_name = "find_elements") then
    checked ["locator"; "by"; "max_elements"; "skip_elements"]
      match keyword_str "locator" None a,
            keyword_str "by" (Some "css selector") a,
            keyword_int "max_elements" (Some 10%Z) a,
            keyword_int "skip_elements" (Some 0%Z) a with
      | Returned locator, Returned by_, Returned max_elements,
        Returned skip_elements =>
          Returned (FindElements locator by_ max_elements skip_elements)
      | Raised e, _, _, _ | _, Raised e, _, _ | _, _, Raised e, _
      | _, _, _, Raised e => Raised e
      end
  else if decide (action_name = "count_elements") then
    checked ["locator"; "by"]
      match keyword_str "locator" None a,
            keyword_str "by" (Some "css selector") a with
      | Returned locator, Returned by_ => Returned (CountElements locator by_)
      | Raised e, _ | _, Raised e => Raised e
      end
  else if decide (action_name = "element_exists") then
    checked ["locator"; "by"]
      match keyword_str "locator" None a,
            keyword_str "by" (Some "css selector") a with
      | Returned locator, Returned by_ => Returned (ElementExists locator by_)
      | Raised e, _ | _, Raised e => Raised e
      end
  else
    Raised (AttributeError
              ("'SeleniumMCPServer' object has no attribute '"
                 +:+ action_name +:+ "'")).

Definition getattr_call (action_name : string) (a : dict) (s : server)
    : server * outcome pyval :=
  match bind action_name a with
  | Returned op => run op s
  | Raised e => (s, Raised e)
  end.

End Server.
Arguments server : clear implicits.
End Server.

(** ** The agent loop ([MCPOpenAIClient]) *)

Module Client.
Import Py.

(** An item of [assistant_output.content]. *)
Inductive content_part :=
| OutputText (text : string)
| OtherContent (type_ : string).

(** An item of [response.output]. *)
Inductive assistant_output :=
| FunctionCall (call_id name arguments : string)
| Message (content : list content_part)
| OtherOutput (type_ : string).

(** An entry of [self.context] or [self.messages]. *)
Inductive message :=
| System (content : string)
| User (content : string)
| Assistant (content : string)
| AssistantContent (content : list content_part)
| FunctionCallItem (call_id name arguments : string)
| Raw (output : assistant_output)
| FunctionCallOutput (call_id output : string)
| UserImage (input_text image_url : string).

(** The model endpoint and the tool session, over the state [world] of
    everything outside the client. *)
Class Endpoint (world : Type) := {
  (* [get_mcp_tools]: [session.list_tools()] turned into OpenAI format *)
  get_mcp_tools : world -> world * outcome (list pyval);
  (* [openai_client.responses.create(input=..., tools=...)] *)
  responses_create :
    list message -> list pyval -> world -> world * outcome (list assistant_output);
  (* [session.call_tool(name, arguments=json.loads(arguments))] and the
     texts of [result.content] *)
  call_tool : string -> string -> world -> world * outcome (list string);
  (* [str(message)] of an entry without a plain text [content] *)
  str_message : message -> string;
}.

(** The calls that left the client, latest last. *)
Inductive event :=
| ModelCall
| ToolCall (name arguments : string).

Definition is_model_call (e : event) : bool :=
  match e with ModelCall => true | ToolCall _ _ => false end.

(** The turns appended for one tool result. *)
Definition tool_output_messages (call_id : string) (content : list string)
    : list message :=
  let output :=
    match content with
    | [text] => text
    | _ => "[" +:+ join ", " content +:+ "]"
    end in
  if startswith output "base64," then
    [FunctionCallOutput call_id "Image passed in the next message as an input_image";
     UserImage ("Image returned by function with call id " +:+ call_id)
       ("data:image/png;" +:+ output)]
  else [FunctionCallOutput call_id output].

(** The turn appended for one output item. *)
Definition output_message (o : assistant_output) : message :=
  match o with
  | FunctionCall call_id name arguments => FunctionCallItem call_id name arguments
  | Message [OutputText text] => Assistant text
  | Message content => AssistantContent content
  | OtherOutput _ => Raw o
  end.

Definition is_function_call (m : message) : bool :=
  match m with FunctionCallItem _ _ _ => true | _ => false end.

Section Client.
Context {world : Type} `{Endpoint world}.

Record client := {
  tools : list pyval;
  context : list message;
  messages : list message;
  outside : world;
  events : list event;
}.

Definition set_tools (t : list pyval) (c : client) : client :=
  {| tools := t; context := context c; messages := messages c;
     outside := outside c; events := events c |}.

Definition set_messages (m : list message) (c : client) : client :=
  {| tools := tools c; context := context c; messages := m;
     outside := outside c; events := events c |}.

(** A call to the outside: the world moves on and the call is noted. *)
Definition went_out (w : world) (e : event) (c : client) : client :=
  {| tools := tools c; context := context c; messages := messages c;
     outside := w; events := events c ++ [e] |}.

Definition append (m : list message) (c : client) : client :=
  set_messages (messages c ++ m) c.

(** [set_instructions] *)
Definition set_instructions (instructions : option string) (c : client) : client :=
  {| tools := tools c;
     context := match instructions with
                | None => []
                | Some i => [System i]
                end;
     messages := messages c; outside := outside c; events := events c |}.

(** The loop over [function_calls]: every call is dispatched in turn and
    its turns appended; an exception ends the loop. *)
Fixpoint call_functions (function_calls : list message) (c : client)
    : client * option exn :=
  match function_calls with
  | FunctionCallItem call_id name arguments :: rest =>
      match call_tool name arguments (outside c) with
      | (w, Returned content) =>
          call_functions rest
            (append (tool_output_messages call_id content)
               (went_out w (ToolCall name arguments) c))
      | (w, Raised e) => (went_out w (ToolCall name arguments) c, Some e)
      end
  | _ :: rest => call_functions rest c
  | [] => (c, None)
  end.

(** How one pass of the [while] body ends, after the iteration check. *)
Inductive round_end :=
| Again (c : client)       (* function calls were dispatched *)
| Break (c : client)       (* no function call: the loop is left *)
| Fails (c : client) (e : exn).

Definition round (c : client) : round_end :=
  match responses_create (context c ++ messages c) (tools c) (outside c) with
  | (w, Raised e) => Fails (went_out w ModelCall c) e
  | (w, Returned output) =>
      let c := went_out w ModelCall c in
      let new_messages := output_message <$> output in
      let function_calls := filter (fun m => is_function_call m = true) new_messages in
      let c := append new_messages c in
      match function_calls with
      | [] => Break c
      | _ =>
          match call_functions function_calls c with
          | (c, None) => Again c
          | (c, Some e) => Fails c e
          end
      end
  end.

(** How [process_query] ends; [OutOfFuel] belongs to this embedding, for
    a loop cut short by [fuel]. *)
Inductive result :=
| Answer (text : string)
| Error (e : exn)
| OutOfFuel.

Definition max_iterations_error (max_iterations : Z) : exn :=
  RuntimeError ("Max iterations " +:+ pretty max_iterations +:+ " reached)").

Definition last_text (c : client) : string :=
  match last (messages c) with
  | Some (System text) | Some (User text) | Some (Assistant text) => text
  | Some m => str_message m
  | None => ""
  end.

(** The [while True] loop. *)
Fixpoint loop (fuel : nat) (max_iterations : option Z) (iterations : Z)
    (c : client) : client * result :=
  match fuel with
  | O => (c, OutOfFuel)
  | S fuel =>
      let iterations := (iterations + 1)%Z in
      match max_iterations with
      | None =>
          (c, Error (TypeError
                       "'>' not supported between instances of 'int' and 'NoneType'"))
      | Some max =>
          if (max <? iterations)%Z then (c, Error (max_iterations_error max))
          else match round c with
               | Again c => loop fuel max_iterations iterations c
               | Break c => (c, Answer (last_text c))
               | Fails c e => (c, Error e)
               end
      end
  end.

(** The check [iterations > max_iterations] ends the loop at the latest
    in pass [max_iterations + 1]. *)
Definition enough_fuel (max_iterations : option Z) : nat :=
  match max_iterations with
  | Some max => S (Z.to_nat max)
  | None => 1
  end.

(** The state the loop starts from: tools refreshed, history reset when
    asked for, the query appended. *)
Definition start (query : string) (reset_messages : bool) (c : client)
    : client * option exn :=
  match get_mcp_tools (outside c) with
  | (w, Raised e) =>
      ({| tools := tools c; context := context c; messages := messages c;
          outside := w; events := events c |}, Some e)
  | (w, Returned t) =>
      let c := {| tools := t; context := context c; messages := messages c;
                  outside := w; events := events c |} in
      let c := if reset_messages then set_messages [] c else c in
      (append [User query] c, None)
  end.

Definition process_query (query : string) (reset_messages : bool)
    (max_iterations : option Z) (c : client) : client * result :=
  match start query reset_messages c with
  | (c, Some e) => (c, Error e)
  | (c, None) => loop (enough_fuel max_iterations) max_iterations 0 c
  end.

(** The client after [n] passes that each dispatched function calls, if
    the first [n] passes all do. *)
Fixpoint after_rounds (n : nat) (c : client) : option client :=
  match n with
  | O => Some c
  | S n =>
      match round c with
      | Again c => after_rounds n c
      | _ => None
      end
  end.

Definition model_calls (c : client) : nat :=
  length (filter (fun e => is_model_call e = true) (events c)).

End Client.
Arguments client : clear implicits.
End Client.

(** ** Sample environments *)

Module Examples.
Import Py Client.

Definition screenshot_call : assistant_output :=
  FunctionCall "call_1" "take_screenshot_as_base64" "{}".

Definition summary_call : assistant_output :=
  FunctionCall "call_2" "get_page_summary" "{}".

(** A scripted model: the world is the list of responses still to come;
    after the script the model answers with a text.  The screenshot tool
    returns an image, [find_elements] two parts, every other tool a text. *)
Definition scripted : Endpoint (list (list assistant_output)) := {|
  get_mcp_tools w := (w, Returned []);
  responses_create _ _ w :=
    match w with
    | r :: w' => (w', Returned r)
    | [] => ([], Returned [Message [OutputText "done"]])
    end;
  call_tool name _ w :=
    (w, Returned (if decide (name = "take_screenshot_as_base64")
                  then ["base64,AAAA"]
                  else if decide (name = "find_elements")
                       then ["first part"; "base64,AAAA"]
                       else ["hello"]));
  str_message _ := "";
|}.

Definition fresh (script : list (list assistant_output))
    : client (list (list assistant_output)) :=
  {| tools := []; context := []; messages := []; outside := script; events := [] |}.

(** A browser reduced to what the server asks of it: the page it shows,
    the XPaths of the elements that are not displayed, and whether it
    still answers. *)
Record sample_driver := {
  shown : list Dom.node;
  hidden : list string;
  reachable : bool;
}.

Definition navigate (d : sample_driver) : outcome sample_driver :=
  if reachable d then Returned d
  else Raised (OtherException "chrome not reachable").

Definition sample_webdriver : Server.WebDriver sample_driver := {|
  Server.launch b _ :=
    if decide (b = "safari")
    then Raised (OtherException "Could not create a session")
    else Returned {| shown := []; hidden := []; reachable := true |};
  Server.maximize_window := Returned;
  Server.quit_ d :=
    if reachable d then None else Some (OtherException "chrome not reachable");
  Server.page_source := shown;
  Server.is_displayed d xpath := Some (bool_decide (xpath ∉ hidden d));
  Server.get_ _ := navigate;
  Server.back_ := navigate;
  Server.forward_ := navigate;
  Server.current_url _ := "about:blank";
  Server.try_click _ _ locator d := (d, "Clicked element: " +:+ locator);
  Server.try_type_text _ _ _ locator _ _ text d :=
    (d, "Typed '" +:+ text +:+ "' into " +:+ locator);
  Server.try_clear_text _ _ locator d := (d, "Cleared text from " +:+ locator);
  Server.try_get_element_text _ _ _ d := (d, "");
  Server.try_get_element_attribute _ _ _ _ d := (d, "");
  Server.try_find_elements _ _ _ _ _ d := (d, []);
  Server.try_count_elements _ _ _ := 0%Z;
  Server.try_element_exists _ _ _ := Returned false;
|}.

Definition sample_show : Show := fun _ => "".

(** A server as [__init__] leaves it, and one with a session. *)
Definition idle : Server.server sample_driver := Server.init "/srv" "chrome" 10.

Definition browsing (d : sample_driver) : Server.server sample_driver :=
  Server.set_driver (Some d) idle.

(** [<div><p>a</p><p>b</p></div>] at the top of a document. *)
Definition two_paragraphs : list Dom.node :=
  [Dom.Tag "p" [] [Dom.NavigableString "a"];
   Dom.Tag "p" [] [Dom.NavigableString "b"]].

Definition in_div : list Dom.crumb :=
  [Dom.Crumb [] [] (Dom.document_name, [])].

(** A page with a paragraph, a link, a button, a span that is not
    displayed and a search form. *)
Definition sample_page : list Dom.node :=
  [Dom.Tag "html" []
     [Dom.Tag "body" []
        [Dom.Tag "p" [] [Dom.NavigableString " Hello "];
         Dom.Tag "a" [("href", Dom.AStr "/next")] [Dom.NavigableString "Next"];
         Dom.Tag "button" [("id", Dom.AStr "ok")] [Dom.NavigableString "OK"];
         Dom.Tag "span" [] [Dom.NavigableString "secret"];
         Dom.Tag "form" [("class", Dom.AList ["search"; "wide"])]
           [Dom.Tag "input" [("name", Dom.AStr "q")] [];
            Dom.Tag "button" [] [Dom.NavigableString "Search"]]]]].

Definition sample_session : sample_driver :=
  {| shown := sample_page; hidden := ["/html/body/span"]; reachable := true |}.

(** Three operations, each recorded after it was called. *)
Definition recorded_three : Server.server sample_driver :=
  let record s := (@Server.record_last_action _ sample_show s).1 in
  let s := browsing sample_session in
  let s := record (@Server.go_to _ sample_webdriver "example.org" s).1 in
  let s := record (@Server.click _ sample_webdriver "#ok" "css selector" s).1 in
  record (@Server.type_text _ sample_webdriver "input[name=q]" "rocq" true true
            false "css selector" s).1.

Definition three_actions : list (string * dict) :=
  [("go_to", [("url", PyStr "example.org")]);
   ("click", [("locator", PyStr "#ok"); ("by", PyStr "css selector")]);
   ("type_text",
    [("locator", PyStr "input[name=q]"); ("text", PyStr "rocq");
     ("clear", PyBool true); ("press_enter", PyBool true);
     ("is_password", PyBool false); ("by", PyStr "css selector")])].

(** A session whose browser no longer answers, with two recordings. *)
Definition unreachable : sample_driver :=
  {| shown := []; hidden := []; reachable := false |}.

Definition back_only : Server.server sample_driver :=
  Server.set_sequence_recorded [PyTuple [PyStr "back"; PyDict []]]
    (browsing unreachable).

Definition timeout_then_forward : Server.server sample_driver :=
  Server.set_sequence_recorded
    [PyTuple [PyStr "set_timeout"; PyDict [("seconds", PyInt 5)]];
     PyTuple [PyStr "forward"; PyDict []];
     PyTuple [PyStr "click"; PyDict [("locator", PyStr "#ok")]]]
    (browsing unreachable).

Definition replay := @Server.play_recording _ (@Server.getattr_call _ sample_webdriver).

End Examples.

(** ** Views on a conversation *)

Module Conversation.
Import Py Client.

(** The [call_id] of a [function_call] turn. *)
Definition call_id_of (m : message) : option string :=
  match m with
  | FunctionCallItem call_id _ _ => Some call_id
  | _ => None
  end.

(** The [call_id] of a [function_call_output] turn. *)
Definition output_id_of (m : message) : option string :=
  match m with
  | FunctionCallOutput call_id _ => Some call_id
  | _ => None
  end.

(** The dispatch a [function_call] turn asks for. *)
Definition dispatch_of (m : message) : option event :=
  match m with
  | FunctionCallItem _ name arguments => Some (ToolCall name arguments)
  | _ => None
  end.

End Conversation.

(** ** More sample environments *)

Module Examples2.
Import Py Client Examples.

(** The scripted model of [Examples], with a [click] tool that the
    session fails to run. *)
Definition failing_click : Endpoint (list (list assistant_output)) := {|
  get_mcp_tools w := (w, Returned []);
  responses_create _ _ w :=
    match w with
    | r :: w' => (w', Returned r)
    | [] => ([], Returned [Message [OutputText "done"]])
    end;
  call_tool name _ w :=
    if decide (name = "click")
    then (w, Raised (OtherException "Connection closed"))
    else (w, Returned ["hello"]);
  str_message _ := "";
|}.

Definition click_call : assistant_output := FunctionCall "call_4" "click" "{}".

End Examples2.

(** ** Views on the server *)

Module ServerViews.
Import Py Dom Server.

(** What [_remember_action] stores for an operation, for the operations
    that call it. *)
Definition remembered (op : operation) : option pyval :=
  let action (name : string) (args : dict) :=
    Some (PyTuple [PyStr name; PyDict args]) in
  match op with
  | GoTo url => action "go_to" [("url", PyStr url)]
  | Back => action "back" []
  | Forward => action "forward" []
  | SetTimeout seconds => action "set_timeout" [("seconds", PyInt seconds)]
  | Click locator by_ =>
      action "click" [("locator", PyStr locator); ("by", PyStr by_)]
  | TypeText locator text clear press_enter is_password by_ =>
      action "type_text"
        [("locator", PyStr locator); ("text", PyStr text);
         ("clear", PyBool clear); ("press_enter", PyBool press_enter);
         ("is_password", PyBool is_password); ("by", PyStr by_)]
  | ClearText locator by_ =>
      action "clear_text" [("locator", PyStr locator); ("by", PyStr by_)]
  | GetElementText _ _ | GetElementAttribute _ _ _ | FindElements _ _ _ _
  | CountElements _ _ | ElementExists _ _ => None
  end.

(** The effects a closed session leaves: one [Quit] when a session was
    open, none otherwise. *)
Definition closing {driver} (s : server driver) : list effect :=
  match driver_ s with
  | Some _ => [Quit]
  | None => []
  end.

End ServerViews.

(** ** Sample recordings *)

Module Examples3.
Import Py Dom Server Examples.

(** A recording whose first step names a strategy that does not exist. *)
Definition rejected_then_timeout : server sample_driver :=
  set_sequence_recorded
    [PyTuple [PyStr "click";
              PyDict [("locator", PyStr "#ok"); ("by", PyStr "colour")]];
     PyTuple [PyStr "set_timeout"; PyDict [("seconds", PyInt 5)]]]
    (browsing sample_session).


End Examples3.

(** ** Views of the page summary *)

Module SummaryViews.
Import Py Dom Server.

Section Views.
Context {driver : Type} `{WebDriver driver}.

(** The entry of a tag as the loop of
    [_summarize_forms_buttons_links_and_text] starts it, up to the
    visibility check. *)
Definition entry_base (detailed : bool) (tag : element) : dict :=
  let data := [("index", PyNone); ("type", PyStr (type_of (el_name tag)))] in
  if detailed
  then dict_set "depth" (PyInt (get_depth tag))
         (dict_set "xpath" (PyStr (build_xpath tag)) data)
  else data.

(** The loop itself, before [sorted]: the entries in the order of the
    page, and the visibility cache it leaves. *)
Definition collect (d : driver) (filter_type : string)
    (only_visible_elements detailed : bool) : list dict * gmap string bool :=
  foldl (fun '(summary, cache) tag =>
           match summarize_tag d filter_type only_visible_elements detailed
                   tag cache with
           | (Some data, cache) => (summary ++ [data], cache)
           | (None, cache) => (summary, cache)
           end)
        ([], ∅) (find_all summary_tags (soup_root (page_source d))).

(** The four values of [type]. *)
Definition entry_types : list string := ["button"; "link"; "form"; "text"].

Definition has_type (t : string) (data : dict) : bool :=
  match dict_get "type" data with
  | Some (PyStr s) => bool_decide (s = t)
  | _ => false
  end.

(** What the browser says of an xpath: found and displayed. *)
Definition displayed (d : driver) (xpath : string) : bool :=
  match is_displayed d xpath with
  | Some visible => visible
  | None => false
  end.

(** A cache that holds answers of the browser only. *)
Definition sound (d : driver) (cache : gmap string bool) : Prop :=
  forall xpath visible,
    cache !! xpath = Some visible -> is_displayed d xpath = Some visible.

(** Where an entry of the summary comes from: a tag of the page that
    passed the filter and the visibility check, the keys written up to
    that check being those of the entry. *)
Definition entry_of (d : driver) (filter_type : string)
    (only_visible_elements detailed : bool) (data : dict) : Prop :=
  exists tag,
    tag ∈ find_all summary_tags (soup_root (page_source d))
    /\ (filter_type = "" \/ filter_type = type_of (el_name tag))
    /\ (only_visible_elements = true -> displayed d (build_xpath tag) = true)
    /\ forall k,
         k ∉ ["text"; "href"; "inputs"; "buttons"; "aria_label"; "role";
              "class"; "id"; "parent"] ->
         dict_get k data
         = dict_get k
             (if negb only_visible_elements && detailed
              then dict_set "visible" (PyBool (displayed d (build_xpath tag)))
                     (entry_base detailed tag)
              else entry_base detailed tag).

End Views.
End SummaryViews.

(** ** Screenshots ([take_screenshot_as_base64]) *)

Module Screenshots.
Import Py Dom Server.

(** What a screenshot needs from outside the server. *)
Class Camera (driver : Type) := {
  (* [os.getcwd()] *)
  getcwd : string;
  (* [driver.get_screenshot_as_base64()] *)
  get_screenshot_as_base64 : driver -> outcome string;
  (* [base64.b64decode(s)] *)
  b64decode : string -> outcome string;
  (* [compress_base64_image(s)]: the image decoded, resized and encoded
     again by PIL, or what any of the three raises *)
  compress_base64_image : string -> outcome string;
  (* [os.makedirs(directory, exist_ok=True)] *)
  makedirs : string -> outcome unit;
  (* [open(filepath, "wb")] and [file.write(image_data)] *)
  write_file : string -> string -> outcome unit;
}.

(** [s.replace(old, new)] for an [old] that is not empty: the occurrences
    of [old] are replaced from the left, [skip] being what is left to pass
    over of the occurrence just replaced. *)
Fixpoint replace_from (old new : string) (skip : nat) (s : string) : string :=
  match s with
  | EmptyString => EmptyString
  | String c s' =>
      match skip with
      | S skip' => replace_from old new skip' s'
      | O =>
          if String.prefix old s
          then new +:+ replace_from old new (String.length old - 1) s'
          else String c (replace_from old new 0 s')
      end
  end.

Definition replace (s old new : string) : string := replace_from old new 0 s.

Section Screenshots.
Context {driver : Type} `{WebDriver driver} `{Camera driver}.

(** [self.screenshots_dir] *)
Definition screenshots_dir : string := path_join getcwd "screenshots".

(** The [except Exception] handler. *)
Definition error_text (e : exn) : string :=
  "Error taking screenshot: " +:+ exn_str e.

(** A step of the [try] block: its value goes on, what it raises ends the
    call with the text of the handler. *)
Definition or_error {A} (s : server driver) (step : outcome A)
    (rest : A -> server driver * string) : server driver * string :=
  match step with
  | Returned a => rest a
  | Raised e => (s, error_text e)
  end.

(** [take_screenshot_as_base64]; [stamp] is the local time as
    [%Y%m%d_%H%M%S]. *)
Definition take_screenshot_as_base64 (stamp : string) (compress : bool)
    (s : server driver) : server driver * outcome string :=
  let s :=
    _remember_action "take_screenshot_as_base64" [("compress", PyBool compress)] s in
  let filename := _get_filename "screenshot" stamp "png" in
  started s (fun s => returned (
  or_error s
    match driver_ s with
    | Some d => get_screenshot_as_base64 d
    | None =>
        Raised (AttributeError
          "'NoneType' object has no attribute 'get_screenshot_as_base64'")
    end
    (fun base64_string =>
  or_error s (makedirs screenshots_dir) (fun _ =>
  let filepath := _get_filepath filename screenshots_dir in
  or_error s (b64decode base64_string) (fun image_data =>
  or_error s (write_file filepath image_data) (fun _ =>
  let s := emit (Wrote filepath) s in
  if compress then
    or_error s (compress_base64_image base64_string) (fun base64_string =>
    or_error s (b64decode base64_string) (fun image_data =>
    let filepath := replace filepath ".png" "_compressed.png" in
    or_error s (write_file filepath image_data) (fun _ =>
    (emit (Wrote filepath) s, "base64," +:+ base64_string))))
  else (s, "base64," +:+ base64_string))))))).

(** The state in which the [try] block is entered. *)
Definition ready (compress : bool) (s : server driver) : server driver :=
  (_ensure_browser_started
     (_remember_action "take_screenshot_as_base64"
        [("compress", PyBool compress)] s)).1.

(** The two files of a screenshot. *)
Definition screenshot_path (stamp : string) : string :=
  _get_filepath (_get_filename "screenshot" stamp "png") screenshots_dir.

Definition compressed_path (stamp : string) : string :=
  replace (screenshot_path stamp) ".png" "_compressed.png".

End Screenshots.

(** A camera for the sample sessions: a session that answers gives a
    picture, and compression fails for a picture that is empty. *)
Definition sample_camera : Camera Examples.sample_driver := {|
  getcwd := "/srv";
  get_screenshot_as_base64 d :=
    if Examples.reachable d then Returned "iVBORw0KGgo="
    else Raised (OtherException "Connection closed");
  b64decode s := Returned s;
  compress_base64_image s :=
    if String.eqb s "" then Raised (OtherException "cannot identify image file")
    else Returned "iVBORw==";
  makedirs _ := Returned tt;
  write_file _ _ := Returned tt;
|}.

End Screenshots.

(** ** The tool list in OpenAI format ([MCPOpenAIClient.get_mcp_tools]) *)

Module ToolSchemas.
Import Py.

(** An item of [tools_result.tools]. *)
Record tool := {
  tool_name : string;
  tool_description : pyval;      (* a string or [None] *)
  inputSchema : dict;
}.

(** [KeyError(k)], whose [str] is the [repr] of the key. *)
Definition KeyError (k : string) : exn := OtherException ("'" +:+ k +:+ "'").

(** [del d[k]]; [None] stands for the [KeyError]. *)
Definition dict_del (k : string) (d : dict) : option dict :=
  match dict_get k d with
  | Some _ => Some (filter (fun kv => kv.1 <> k) d)
  | None => None
  end.

(** [del properties[property]["title"]] for one property, given its
    value.  A value that is no dict raises a [TypeError] whose wording
    depends on its type. *)
Definition strip_property (v : pyval) : outcome pyval :=
  match v with
  | PyDict d =>
      match dict_del "title" d with
      | Some d' => Returned (PyDict d')
      | None => Raised (KeyError "title")
      end
  | _ => Raised (TypeError "object does not support item deletion")
  end.

(** The loop over the properties; the first exception leaves it. *)
Fixpoint strip_properties (props : dict) : outcome dict :=
  match props with
  | [] => Returned []
  | (p, v) :: rest =>
      match strip_property v with
      | Raised e => Raised e
      | Returned v' =>
          match strip_properties rest with
          | Raised e => Raised e
          | Returned rest' => Returned ((p, v') :: rest')
          end
      end
  end.

(** The body of the loop over the tools, on [tool.inputSchema].  When
    [properties] is no dict, nothing happens for an empty string, list or
    tuple; with elements, indexing [properties] by one of them or the
    deletion that follows raises ([TypeError] here also stands for the
    [IndexError] a list of numbers can give), and a value that cannot be
    iterated raises at the [for]. *)
Definition process_schema (schema : dict) : outcome dict :=
  match dict_del "title" schema with
  | None => Raised (KeyError "title")
  | Some processed_params =>
      match dict_get "properties" processed_params with
      | None => Raised (KeyError "properties")
      | Some (PyDict props) =>
          match strip_properties props with
          | Raised e => Raised e
          | Returned props' =>
              Returned (dict_set "properties" (PyDict props') processed_params)
          end
      | Some v =>
          match iterate v with
          | Some [] => Returned processed_params
          | Some (_ :: _) => Raised (TypeError "indices must be integers")
          | None => Raised (TypeError "object is not iterable")
          end
      end
  end.

Definition processed_tool (t : tool) (processed_params : dict) : dict :=
  [("type", PyStr "function"); ("name", PyStr (tool_name t));
   ("description", tool_description t); ("parameters", PyDict processed_params)].

(** [get_mcp_tools], given [tools_result.tools]: what the [try] block
    raises is logged and raised again. *)
Fixpoint get_mcp_tools (tools : list tool) : outcome (list dict) :=
  match tools with
  | [] => Returned []
  | t :: rest =>
      match process_schema (inputSchema t) with
      | Raised e => Raised e
      | Returned processed_params =>
          match get_mcp_tools rest with
          | Raised e => Raised e
          | Returned out => Returned (processed_tool t processed_params :: out)
          end
      end
  end.

(** A dict without its title and otherwise as before. *)
Definition untitled (d d' : dict) : Prop :=
  dict_get "title" d <> None
  /\ dict_get "title" d' = None
  /\ forall k, k <> "title" -> dict_get k d' = dict_get k d.

(** A schema that [get_mcp_tools] cannot process: no title, no
    properties, or a property that is no dict with a title. *)
Definition unfit (schema : dict) : Prop :=
  dict_get "title" schema = None
  \/ dict_get "properties" schema = None
  \/ exists props p v,
       dict_get "properties" schema = Some (PyDict props)
       /\ (p, v) ∈ props
       /\ forall d, v = PyDict d -> dict_get "title" d = None.

(** The schema FastMCP makes for [go_to], and one as a server that gives
    no titles sends it. *)
Definition go_to_tool : tool := {|
  tool_name := "go_to";
  tool_description := PyStr "Navigate to a URL.";
  inputSchema :=
    [("properties",
      PyDict [("url", PyDict [("title", PyStr "Url"); ("type", PyStr "string")])]);
     ("required", PyList [PyStr "url"]);
     ("title", PyStr "go_toArguments");
     ("type", PyStr "object")];
|}.

Definition plain_tool : tool := {|
  tool_name := "echo";
  tool_description := PyNone;
  inputSchema :=
    [("type", PyStr "object");
     ("properties", PyDict [("text", PyDict [("type", PyStr "string")])])];
|}.

End ToolSchemas.

(** ** The page as HTML ([get_html], [get_element_html]) *)

Module Html.
Import Py Dom Server.

Section Html.
Context {driver : Type} `{WebDriver driver}.

(** [BeautifulSoup(html, "html.parser").contents], the parse that
    [extract_html_to_depth] starts with. *)
Variable parse : string -> list node.

Definition get_element_html (locator : string) (depth : Z) (by_ : string)
    (outer prettify : bool) (s : server driver)
    : server driver * outcome extracted :=
  match get_element_attribute locator
          (if outer then "outerHTML" else "innerHTML") by_ s with
  | (s, Raised e) => (s, Raised e)
  | (s, Returned html) =>
      let depth := if (0 <=? depth)%Z then Some depth else None in
      (s, Returned (extract_html_to_depth (parse html) depth prettify))
  end.

Definition get_html (depth : Z) (s : server driver)
    : server driver * outcome extracted :=
  get_element_html "html" depth "css selector" true false s.

End Html.

(** A parser for the examples: a text without markup is one string, and
    the text of the sample page is the sample page. *)
Definition sample_parse (html : string) : list node :=
  if String.eqb html "<html>...</html>" then Examples.sample_page
  else [NavigableString html].

End Html.

(** ** The tools the server offers ([_register_tools]) *)

Module Registry.
Import Py.

(** The part of the server that registration touches: the names handed to
    [self.mcp.tool()], in the order of the calls, and two flags. *)
Record registry := {
  registered : list string;
  advanced_tools_enabled : bool;
  undetected : bool;
}.

(** What [_register_tools(advanced_tools=False)] registers, in its order. *)
Definition main_tools : list string :=
  ["go_to"; "back"; "get_current_url"; "click"; "type_text"; "get_page_summary";
   "take_screenshot_as_base64"; "enable_advanced_tools"].

(** What [_register_tools(advanced_tools=True)] registers, in its order. *)
Definition advanced_tools : list string :=
  ["forward"; "refresh"; "get_title"; "start_browser"; "quit_browser";
   "set_timeout"; "change_browser"; "clear_text"; "get_html";
   "get_element_text"; "get_element_attribute"; "get_element_xpath";
   "get_element_html"; "get_visible_text"; "get_visible_text_xpath";
   "find_elements"; "count_elements"; "element_exists"; "take_screenshot";
   "execute_script"; "get_cookies"; "set_cookie"; "delete_cookies";
   "submit_form"; "wait_for_element"; "wait_for_text"; "get_last_action";
   "get_recording"; "record_last_action"; "save_recording"; "load_recording";
   "reset_recording"; "play_recording"].

Definition _register_tools (advanced : bool) (r : registry) : registry :=
  if advanced then
    {| registered := registered r ++ advanced_tools;
       advanced_tools_enabled := true;
       undetected := undetected r |}
  else
    {| registered := registered r ++ main_tools;
       advanced_tools_enabled := advanced_tools_enabled r;
       undetected := undetected r |}.

(** [__init__], as far as the registry goes. *)
Definition init : registry :=
  _register_tools false
    {| registered := []; advanced_tools_enabled := false; undetected := false |}.

Definition enable_advanced_tools (r : registry) : registry * string :=
  if advanced_tools_enabled r then (r, "Advanced tools already enabled")
  else (_register_tools true r, "Advanced tools enabled").

(** [run], up to the point where the transport serves: the registry it
    serves with, or the [ValueError] for a transport it does not know. *)
Definition run (transport : string) (advanced undetected_bot : bool)
    (r : registry) : registry * outcome unit :=
  let r := if advanced then _register_tools true r else r in
  let r := {| registered := registered r;
              advanced_tools_enabled := advanced_tools_enabled r;
              undetected := undetected_bot |} in
  if decide (transport = "stdio") then (r, Returned tt)
  else if decide (transport = "sse") then (r, Returned tt)
  else (r, Raised (ValueError ("Unknown transport: " +:+ transport))).

(** The calls a model can make to [enable_advanced_tools], one after the
    other. *)
Fixpoint enable_times (n : nat) (r : registry) : registry * list string :=
  match n with
  | O => (r, [])
  | S n =>
      let (r, text) := enable_advanced_tools r in
      let (r, texts) := enable_times n r in
      (r, text :: texts)
  end.

End Registry.

(** ** The one-round client ([SimpleMCPOpenAIClient]) *)

Module SimpleClient.
Import Py.

(** An item of [assistant_message.tool_calls]. *)
Record tool_call := {
  id : string;
  function_name : string;
  function_arguments : string;
}.

(** [response.choices[0].message]; [tool_calls] is empty also for
    [None], the two being false alike. *)
Record chat_message := {
  content : option string;
  tool_calls : list tool_call;
}.

(** An entry of the list [messages]. *)
Inductive message :=
| User (content : string)
| Reply (m : chat_message)
| ToolResult (tool_call_id : string) (content : list string).

Inductive tool_choice := auto | none.

(** The model endpoint and the tool session, over the state [world] of
    everything outside the client. *)
Class Endpoint (world : Type) := {
  (* [get_mcp_tools]: [session.list_tools()] in the format of the model *)
  get_mcp_tools : world -> world * outcome (list pyval);
  (* [openai_client.chat.completions.create(...)] and
     [response.choices[0].message] *)
  create :
    list message -> list pyval -> tool_choice -> world ->
    world * outcome chat_message;
  (* [session.call_tool(name, arguments=json.loads(arguments))] and the
     texts of [result.content] *)
  call_tool : string -> string -> world -> world * outcome (list string);
}.

(** The calls that left the client, latest last. *)
Inductive event :=
| ModelCall (choice : tool_choice) (messages : list message)
| ToolCall (name arguments : string).

Definition is_model_call (e : event) : bool :=
  match e with ModelCall _ _ => true | ToolCall _ _ => false end.

Definition result_id (m : message) : option string :=
  match m with ToolResult tool_call_id _ => Some tool_call_id | _ => None end.

Definition dispatch (c : tool_call) : event :=
  ToolCall (function_name c) (function_arguments c).

Section SimpleClient.
Context {world : Type} `{Endpoint world}.

(** The loop over [assistant_message.tool_calls]: each call is made in
    turn and its result appended; an exception leaves the loop. *)
Fixpoint call_tools (calls : list tool_call) (messages : list message)
    (w : world) (events : list event)
    : world * list event * outcome (list message) :=
  match calls with
  | [] => (w, events, Returned messages)
  | c :: rest =>
      match call_tool (function_name c) (function_arguments c) w with
      | (w, Returned texts) =>
          call_tools rest (messages ++ [ToolResult (id c) texts]) w
            (events ++ [dispatch c])
      | (w, Raised e) => (w, events ++ [dispatch c], Raised e)
      end
  end.

(** [process_query]: the world and the calls made, and the pair of the
    answer and the conversation that is returned. *)
Definition process_query (query : string) (w : world)
    : world * list event * outcome (option string * list message) :=
  match get_mcp_tools w with
  | (w, Raised e) => (w, [], Raised e)
  | (w, Returned tools) =>
      let messages := [User query] in
      match create messages tools auto w with
      | (w, Raised e) => (w, [ModelCall auto messages], Raised e)
      | (w, Returned assistant_message) =>
          let events := [ModelCall auto messages] in
          let messages := messages ++ [Reply assistant_message] in
          match tool_calls assistant_message with
          | [] => (w, events, Returned (content assistant_message, messages))
          | calls =>
              match call_tools calls messages w events with
              | (w, events, Raised e) => (w, events, Raised e)
              | (w, events, Returned messages) =>
                  match create messages tools none w with
                  | (w, Raised e) =>
                      (w, events ++ [ModelCall none messages], Raised e)
                  | (w, Returned assistant_final_message) =>
                      (w, events ++ [ModelCall none messages],
                       Returned (content assistant_final_message,
                                 messages ++ [Reply assistant_final_message]))
                  end
              end
          end
      end
  end.

End SimpleClient.

(** A model that asks for the same two tools in every reply, and tools
    that answer with their name. *)
Definition eager : Endpoint unit := {|
  get_mcp_tools w := (w, Returned []);
  create _ _ _ w :=
    (w, Returned {| content := Some "on it";
                    tool_calls := [{| id := "a"; function_name := "go_to";
                                      function_arguments := "{}" |};
                                   {| id := "b"; function_name := "click";
                                      function_arguments := "{}" |}] |});
  call_tool name _ w := (w, Returned [name]);
|}.

End SimpleClient.

(** ** Waiting for the page ([wait_for_element], [wait_for_text]) *)

Module Waits.
Import Py Dom Server.

(** [WebDriverWait(driver, timeout).until(condition)] for the two
    conditions of the server: [Returned true] when the condition was met,
    [Returned false] for a [TimeoutException], and any other exception as
    it is raised; the session may have moved on meanwhile. *)
Class Waiter (driver : Type) := {
  (* [EC.presence_of_element_located((by, locator))] *)
  until_present : Z -> string -> string -> driver -> driver * outcome bool;
  (* [EC.text_to_be_present_in_element(("css selector", "html"), text)] *)
  until_text : Z -> string -> driver -> driver * outcome bool;
}.

Section Waits.
Context {driver : Type} `{WebDriver driver} `{Waiter driver}.

(** [timeout or self.timeout] *)
Definition effective_timeout (timeout_ : Z) (s : server driver) : Z :=
  if (timeout_ =? 0)%Z then timeout s else timeout_.

(** A wait on the session the server holds; only a [TimeoutException] is
    caught. *)
Definition wait (s : server driver) (f : driver -> driver * outcome bool)
    : server driver * outcome bool :=
  match driver_ s with
  | Some d => let (d', r) := f d in (set_driver (Some d') s, r)
  | None => (s, Raised (AttributeError (none_msg "find_element")))
  end.

Definition wait_for_element (locator by_ : string) (timeout_ : Z)
    (s : server driver) : server driver * outcome bool :=
  let s := _remember_action "wait_for_element"
             [("locator", PyStr locator); ("by", PyStr by_);
              ("timeout", PyInt timeout_)] s in
  started s (fun s =>
  let timeout_ := effective_timeout timeout_ s in
  wait s (until_present timeout_ by_ locator)).

Definition wait_for_text (text : string) (timeout_ : Z) (s : server driver)
    : server driver * outcome bool :=
  let s := _remember_action "wait_for_text"
             [("text", PyStr text); ("timeout", PyInt timeout_)] s in
  started s (fun s =>
  let timeout_ := effective_timeout timeout_ s in
  wait s (until_text timeout_ text)).

End Waits.

(** A waiter for the sample sessions: an element is found when the wait
    is given a second or more. *)
Definition sample_waiter : Waiter Examples.sample_driver := {|
  until_present t _ _ d := (d, Returned (1 <=? t)%Z);
  until_text t _ d := (d, Returned (1 <=? t)%Z);
|}.

End Waits.

(** ** Starting the server script ([connect_to_server], [main]) *)

Module Connection.
Import Py.

(** [StdioServerParameters(command=..., args=...)] *)
Record server_params := {
  command : string;
  args : list string;
}.

(** [server_script_args] as a caller gives it: a list of strings, or one
    string. *)
Inductive script_args :=
| ArgList (l : list string)
| ArgStr (s : string).

(** [MCPOpenAIClient.connect_to_server] up to the parameters the server
    script is started with; the [ValueError] is logged and raised again. *)
Definition server_parameters (server_script_path : string)
    (server_script_args : script_args) : outcome server_params :=
  let is_python := endswith server_script_path ".py" in
  let is_js := endswith server_script_path ".js" in
  if negb is_python && negb is_js
  then Raised (ValueError "Server script must be a .py or .js file")
  else
    let command := if is_python then "python" else "node" in
    let server_script_args :=
      match server_script_args with
      | ArgStr a => [a]
      | ArgList l => l
      end in
    Returned {| command := command;
                args := [server_script_path] ++ server_script_args |}.

(** The call [client.connect_to_server(path, *rest)]: the method has two
    parameters besides [self], the second with the default [[]]. *)
Definition connect_positional (server_script_path : string) (rest : list string)
    : outcome server_params :=
  match rest with
  | [] => server_parameters server_script_path (ArgList [])
  | [a] => server_parameters server_script_path (ArgStr a)
  | _ =>
      Raised (TypeError
        ("MCPOpenAIClient.connect_to_server() takes from 1 to 3 positional "
         +:+ "arguments but " +:+ pretty (2 + length rest) +:+ " were given"))
  end.

(** [main] of [openai_client.py] up to the same point. *)
Definition main (advanced_tools undetected_bot : bool) : outcome server_params :=
  let args := [] in
  let args := if advanced_tools then args ++ ["--advanced-tools"] else args in
  let args := if undetected_bot then args ++ ["--undetected-bot"] else args in
  connect_positional "server.py" args.

End Connection.

(** ** A server for a browser type that is not supported *)

Module Unstarted.
Import Py Dom Server.

Section Unstarted.
Context {driver : Type} `{WebDriver driver}.

(** A call of one of the twelve operations, or of [change_browser]. *)
Inductive call :=
| Tool (op : operation)
| ChangeBrowser (b : string).

Definition run_call (c : call) (s : server driver)
    : server driver * outcome pyval :=
  match c with
  | Tool op => run op s
  | ChangeBrowser b =>
      let r := change_browser b s in
      (r.1, match r.2 with
            | Returned text => Returned (PyStr text)
            | Raised e => Raised e
            end)
  end.

(** Calls made one after the other, and how each ended. *)
Fixpoint run_all (calls : list call) (s : server driver)
    : server driver * list (outcome pyval) :=
  match calls with
  | [] => (s, [])
  | c :: rest =>
      let (s, r) := run_call c s in
      let (s, rs) := run_all rest s in
      (s, r :: rs)
  end.

(** A call that does not ask for a supported browser type. *)
Definition keeps_type (c : call) : Prop :=
  match c with
  | ChangeBrowser b => b ∉ BROWSER_OPTIONS
  | Tool _ => True
  end.

(** How a call ends when there is no session and none can be started:
    the navigation raises, [set_timeout] answers, [change_browser] to a
    type that is not supported answers that it is not, [element_exists]
    raises for a supported strategy, [count_elements] answers 0 for a
    supported strategy, and the other element operations answer with the
    text of an error, [find_elements] in a list. *)
Definition without_session (c : call) (r : outcome pyval) : Prop :=
  match c with
  | ChangeBrowser b =>
      r = Returned (PyStr ("Invalid browser: " +:+ b +:+ ". Must be one of: "
                             +:+ join ", " BROWSER_OPTIONS))
  | Tool (GoTo _) => r = Raised (AttributeError (none_msg "get"))
  | Tool Back => r = Raised (AttributeError (none_msg "back"))
  | Tool Forward => r = Raised (AttributeError (none_msg "forward"))
  | Tool (SetTimeout _) => exists text, r = Returned (PyStr text)
  | Tool (ElementExists _ by_) =>
      if decide (by_ ∈ BY_OPTIONS)
      then r = Raised (AttributeError (none_msg "find_element"))
      else r = Returned (PyBool false)
  | Tool (CountElements _ by_) =>
      r = Returned (PyInt (if decide (by_ ∈ BY_OPTIONS) then 0 else -1))
  | Tool (FindElements _ by_ _ _) =>
      r = Returned
            (PyList [PyDict [("error",
               PyStr (if decide (by_ ∈ BY_OPTIONS)
                      then none_msg "find_elements" else invalid_by by_))]])
  | Tool (Click _ by_) | Tool (TypeText _ _ _ _ _ by_) | Tool (ClearText _ by_)
  | Tool (GetElementText _ by_) | Tool (GetElementAttribute _ _ by_) =>
      exists msg,
        r = Returned (PyStr msg)
        /\ (if decide (by_ ∈ BY_OPTIONS)
            then exists what,
                   msg = "Error " +:+ what +:+ ": " +:+ none_msg "find_element"
            else msg = invalid_by by_)
  end.

End Unstarted.
End Unstarted.

(** * Properties *)

Section ClientFacts.
Import Py Client.
Context {world : Type} `{Endpoint world}.

Lemma model_calls_went_out_model (w : world) (c : client world) :
  model_calls (went_out w ModelCall c) = S (model_calls c).
Proof.
  unfold model_calls, went_out; simpl.
  rewrite filter_app, length_app; simpl. lia.
Qed.

Lemma model_calls_went_out_tool (w : world) name arguments (c : client world) :
  model_calls (went_out w (ToolCall name arguments) c) = model_calls c.
Proof.
  unfold model_calls, went_out; simpl.
  rewrite filter_app, length_app; simpl. lia.
Qed.

Lemma model_calls_append m (c : client world) :
  model_calls (append m c) = model_calls c.
Proof. reflexivity. Qed.

Lemma call_functions_model_calls fs : forall (c c' : client world) r,
  call_functions fs c = (c', r) -> model_calls c' = model_calls c.
Proof.
  induction fs as [|f fs IH]; intros c c' r Hc; simpl in Hc.
  - by inversion Hc.
  - destruct f; try (by eapply IH).
    destruct (call_tool name arguments (outside c)) as [w [content|e]].
    + apply IH in Hc. rewrite Hc, model_calls_append.
      apply model_calls_went_out_tool.
    + inversion Hc; subst. apply model_calls_went_out_tool.
Qed.

(** Every pass calls the model exactly once, however it ends. *)
Lemma round_model_calls (c : client world) :
  match round c with
  | Again c' | Break c' | Fails c' _ => model_calls c' = S (model_calls c)
  end.
Proof.
  unfold round.
  destruct (responses_create _ _ _) as [w [output|e]].
  - set (c1 := append _ _).
    assert (model_calls c1 = S (model_calls c)) as Hc1
      by (subst c1; rewrite model_calls_append; apply model_calls_went_out_model).
    destruct (filter _ _) as [|f fs]; [done|].
    destruct (call_functions (f :: fs) c1) as [c2 [e|]] eqn:Hcall;
      apply call_functions_model_calls in Hcall; congruence.
  - apply model_calls_went_out_model.
Qed.

Lemma after_rounds_model_calls n : forall (c c' : client world),
  after_rounds n c = Some c' -> model_calls c' = model_calls c + n.
Proof.
  induction n as [|n IH]; intros c c' Hn; simpl in Hn.
  - inversion Hn. lia.
  - pose proof (round_model_calls c) as Hr.
    destruct (round c) as [c1| |]; try done.
    apply IH in Hn. lia.
Qed.

(** While the passes dispatch function calls and the ceiling is not
    reached, the loop goes on with one more iteration counted. *)
Lemma loop_after_rounds n : forall fuel max iterations (c c' : client world),
  after_rounds n c = Some c' ->
  (iterations + Z.of_nat n <= max)%Z ->
  loop (n + fuel) (Some max) iterations c
    = loop fuel (Some max) (iterations + Z.of_nat n) c'.
Proof.
  induction n as [|n IH]; intros fuel max iterations c c' Hn Hmax; simpl in Hn.
  - inversion Hn. f_equal. lia.
  - destruct (round c) as [c1| |] eqn:Hr; try done.
    cbn [Nat.add loop]. rewrite Hr.
    destruct (Z.ltb_spec max (iterations + 1)); [lia|].
    rewrite (IH fuel max (iterations + 1)%Z c1 c') by (done || lia).
    f_equal. lia.
Qed.

(** The fuel [process_query] gives its loop is never used up. *)
Lemma loop_total max_iterations : forall fuel iterations (c : client world),
  (0 <= iterations)%Z ->
  match max_iterations with
  | Some max => (Z.to_nat (max - iterations) < fuel)%nat
  | None => (0 < fuel)%nat
  end ->
  (loop fuel max_iterations iterations c).2 <> OutOfFuel.
Proof.
  destruct max_iterations as [max|].
  - induction fuel as [|fuel IH]; intros iterations c Hi Hf; [lia|].
    cbn [loop].
    destruct (Z.ltb_spec max (iterations + 1)); [done|].
    destruct (round c); try done.
    apply IH; lia.
  - intros [|fuel] iterations c _ Hf; [lia|done].
Qed.

Lemma process_query_total query reset max_iterations (c : client world) :
  (process_query query reset max_iterations c).2 <> OutOfFuel.
Proof.
  unfold process_query.
  destruct (start query reset c) as [c1 [e|]]; [done|].
  apply loop_total; [done|].
  destruct max_iterations; simpl; lia.
Qed.

End ClientFacts.

Section AgentLoop.
Import Py Client.
Context {world : Type} `{Endpoint world}.

(** C2.  With a ceiling [ceiling >= 0]: when each of the first [ceiling]
    passes dispatches at least one function call, [process_query] raises
    the iteration-limit error once those passes are complete, having
    called the model exactly [ceiling] times (not fewer, and no further
    call).  When the pass number [k + 1 <= ceiling] is the first without
    a function call, it returns the answer of that pass after [k + 1]
    calls of the model and does not raise. *)
Theorem process_query_iteration_ceiling
    (query : string) (reset_messages : bool) (ceiling : Z)
    (c0 c1 : client world) :
  (0 <= ceiling)%Z ->
  start query reset_messages c0 = (c1, None) ->
  (forall c', after_rounds (Z.to_nat ceiling) c1 = Some c' ->
     process_query query reset_messages (Some ceiling) c0
       = (c', Error (max_iterations_error ceiling))
     /\ model_calls c' = model_calls c1 + Z.to_nat ceiling)
  /\ (forall k c' c'',
        S k <= Z.to_nat ceiling ->
        after_rounds k c1 = Some c' ->
        round c' = Break c'' ->
        process_query query reset_messages (Some ceiling) c0
          = (c'', Answer (last_text c''))
        /\ model_calls c'' = model_calls c1 + S k).
Proof.
  intros Hceiling Hstart. unfold process_query. rewrite Hstart.
  cbn [enough_fuel]. split.
  - intros c' Hrounds. split.
    + replace (S (Z.to_nat ceiling)) with (Z.to_nat ceiling + 1) by lia.
      rewrite (loop_after_rounds _ _ _ _ _ _ Hrounds) by lia.
      cbn [loop].
      destruct (Z.ltb_spec ceiling (0 + Z.of_nat (Z.to_nat ceiling) + 1));
        [done|lia].
    + by apply after_rounds_model_calls.
  - intros k c' c'' Hk Hrounds Hbreak. split.
    + replace (S (Z.to_nat ceiling)) with (k + S (Z.to_nat ceiling - k)) by lia.
      rewrite (loop_after_rounds _ _ _ _ _ _ Hrounds) by lia.
      cbn [loop]. rewrite Hbreak.
      destruct (Z.ltb_spec ceiling (0 + Z.of_nat k + 1)); [lia|done].
    + pose proof (round_model_calls c') as Hr. rewrite Hbreak in Hr.
      apply after_rounds_model_calls in Hrounds. lia.
Qed.




End AgentLoop.

Section AgentLoopWitnesses.
Import Py Client Examples.

(** Three responses with a function call each, under a ceiling of two:
    the error comes after two calls of the model; one response with a
    function call and then a text: the answer comes after two calls. *)
Lemma process_query_iteration_ceiling_witness :
  (exists c',
     @process_query _ scripted "open the page" false (Some 2%Z)
       (fresh [[screenshot_call]; [summary_call]; [screenshot_call]])
     = (c', Error (max_iterations_error 2)) /\ model_calls c' = 2)
  /\ (exists c'',
        @process_query _ scripted "open the page" false (Some 2%Z)
          (fresh [[screenshot_call]])
        = (c'', Answer "done") /\ model_calls c'' = 2).
Proof.
  split.
  - destruct (@process_query_iteration_ceiling _ scripted "open the page" false
                2%Z (fresh [[screenshot_call]; [summary_call]; [screenshot_call]])
                _ ltac:(lia) eq_refl) as [Hloop _].
    eexists. apply Hloop. vm_compute. reflexivity.
  - destruct (@process_query_iteration_ceiling _ scripted "open the page" false
                2%Z (fresh [[screenshot_call]])
                _ ltac:(lia) eq_refl) as [_ Hdone].
    edestruct (Hdone 1) as [Hanswer Hcalls];
      [vm_compute; lia | vm_compute; reflexivity | vm_compute; reflexivity |].
    eexists. split; [exact Hanswer | exact Hcalls].
Defined.



End AgentLoopWitnesses.

Section ServerFacts.
Import Py Dom Server.
Context {driver : Type} `{WebDriver driver} `{Show}.

Lemma same_settings_refl (s : server driver) : same_settings s s.
Proof. by repeat split. Qed.

Lemma same_settings_trans (s1 s2 s3 : server driver) :
  same_settings s1 s2 -> same_settings s2 s3 -> same_settings s1 s3.
Proof.
  unfold same_settings. intros (?&?&?&?&?&?&?) (?&?&?&?&?&?&?).
  repeat split; congruence.
Qed.

Lemma remember_same_settings name args (s : server driver) :
  same_settings s (_remember_action name args s).
Proof. by repeat split. Qed.

Lemma ensure_started_same_settings (s : server driver) :
  same_settings s (_ensure_browser_started s).1.
Proof.
  unfold _ensure_browser_started, start_browser.
  destruct (driver_ s); [apply same_settings_refl|].
  case_decide; [|by repeat split].
  destruct (launch _ _) as [d|e]; [|by repeat split].
  destruct (maximize_window d); by repeat split.
Qed.

(** Whether the browser starts does not depend on what is remembered. *)
Lemma ensure_started_remember name args (s : server driver) :
  _ensure_browser_started (_remember_action name args s)
  = (_remember_action name args (_ensure_browser_started s).1,
     (_ensure_browser_started s).2).
Proof.
  unfold _ensure_browser_started, start_browser, _remember_action.
  destruct s as [b [d|] u t a q l rd r e]; cbn; [done|].
  case_decide; [|done].
  destruct (launch _ _) as [d|e']; [|done].
  by destruct (maximize_window d).
Qed.

Lemma wait_same_settings (s : server driver) :
  same_settings s (_wait_if_undetected s).
Proof.
  unfold _wait_if_undetected. destruct (undetected s); by repeat split.
Qed.

(** What the three mutating element operations do before they look at
    the strategy. *)
Lemma prologue_same_settings name args (s : server driver) :
  same_settings s
    (_wait_if_undetected
       (_ensure_browser_started (_remember_action name args s)).1).
Proof.
  eapply same_settings_trans; [apply remember_same_settings|].
  eapply same_settings_trans; [apply ensure_started_same_settings|].
  apply wait_same_settings.
Qed.

(** C10.  [change_browser] with a name outside [BROWSER_OPTIONS] returns
    the error text and the server it was given: the browser type, the
    session and the list of effects (no [Quit]) are the previous ones. *)
Theorem change_browser_invalid_keeps_state (b : string) (s : server driver) :
  b ∉ BROWSER_OPTIONS ->
  change_browser b s
    = (s, Returned ("Invalid browser: " +:+ b
                      +:+ ". Must be one of: chrome, edge, firefox, ie, safari"))
  /\ browser (change_browser b s).1 = browser s
  /\ driver_ (change_browser b s).1 = driver_ s
  /\ effects (change_browser b s).1 = effects s.
Proof.
  intros Hb. unfold change_browser.
  destruct (decide (b ∈ BROWSER_OPTIONS)); [done|].
  by repeat split.
Qed.

(** C6, as the code has it.  Each of the eight operations starts the
    browser when no session is open before it looks at the strategy, and
    what that start raises leaves the operation.  When the start does not
    raise (with a session open it does nothing), a strategy outside
    [BY_OPTIONS] makes none of them raise and the call stops at the check.
    [click], [type_text], [clear_text], [get_element_text] and
    [get_element_attribute] return the text that names the strategy and
    the supported ones; [find_elements] returns a list whose single
    entry holds that text under ["error"]; [count_elements] returns -1
    and [element_exists] returns [False].  The configuration, the
    recording and the files of the server are left as they were, raised
    or not. *)
Theorem invalid_strategy_result (op : operation) (by_ : string)
    (s : server driver) :
  strategy op = Some by_ ->
  by_ ∉ BY_OPTIONS ->
  (run op s).2 =
    match (_ensure_browser_started s).2 with
    | Some e => Raised e
    | None =>
        Returned
          match op with
          | FindElements _ _ _ _ =>
              PyList [PyDict [("error", PyStr (invalid_by by_))]]
          | CountElements _ _ => PyInt (-1)
          | ElementExists _ _ => PyBool false
          | _ => PyStr (invalid_by by_)
          end
    end
  /\ (driver_ s <> None -> (_ensure_browser_started s).2 = None)
  /\ same_settings s (run op s).1.
Proof.
  intros Hop Hby. split; [|split].
  - destruct op; simpl in Hop; try discriminate; inversion Hop; subst;
      unfold run, click, type_text, clear_text, get_element_text,
        get_element_attribute, find_elements, count_elements, element_exists,
        started;
      cbn zeta; rewrite ?ensure_started_remember;
      destruct (_ensure_browser_started s) as [s1 [e|]]; cbn [fst snd];
      try done;
      by destruct (decide (by_ ∉ BY_OPTIONS)).
  - unfold _ensure_browser_started. by destruct (driver_ s).
  - destruct op; simpl in Hop; try discriminate; inversion Hop; subst;
      unfold run, click, type_text, clear_text, get_element_text,
        get_element_attribute, find_elements, count_elements, element_exists,
        started;
      cbn zeta;
      match goal with
      | |- context [_ensure_browser_started ?t] =>
          pose proof (ensure_started_same_settings t) as Hstart;
          destruct (_ensure_browser_started t) as [s1 [e|]]
      end; cbn [fst snd] in *;
      try (destruct (decide (by_ ∉ BY_OPTIONS)); [|done]); cbn [fst snd];
      first [ exact Hstart
            | eapply same_settings_trans; [apply remember_same_settings|];
              first [ exact Hstart
                    | eapply same_settings_trans;
                        [exact Hstart|apply wait_same_settings] ] ].
Qed.

End ServerFacts.

Section ServerWitnesses.
Import Py Dom Server Examples.

Lemma change_browser_invalid_keeps_state_witness :
  @change_browser _ sample_webdriver "netscape"
    (browsing {| shown := []; hidden := []; reachable := true |})
  = (browsing {| shown := []; hidden := []; reachable := true |},
     Returned
       "Invalid browser: netscape. Must be one of: chrome, edge, firefox, ie, safari").
Proof.
  refine (proj1 (change_browser_invalid_keeps_state "netscape" _ _)).
  apply (bool_decide_unpack _). vm_compute. exact I.
Defined.

(** C6 does not hold as it is written.  With a session open,
    [count_elements] answers an unsupported strategy with the number -1,
    not with a text; and on a server for a browser that cannot be started,
    [click] with an unsupported strategy raises what the start raises
    instead of answering. *)
Lemma invalid_strategy_count_is_not_text :
  (~ exists msg : string,
       (@run _ sample_webdriver (CountElements "a.menu" "colour")
          (browsing sample_session)).2
       = Returned (PyStr msg))
  /\ (@run _ sample_webdriver (Click "a.menu" "colour") (init "/srv" "safari" 10)).2
     = Raised (OtherException "Could not create a session").
Proof.
  split; [|vm_compute; reflexivity].
  intros [msg Hmsg]. vm_compute in Hmsg. discriminate.
Qed.

Lemma invalid_strategy_result_witness :
  (@run _ sample_webdriver (CountElements "a.menu" "colour")
     (browsing sample_session)).2
  = Returned (PyInt (-1))
  /\ (@run _ sample_webdriver (Click "a.menu" "colour")
        (browsing sample_session)).2
     = Returned (PyStr "Invalid by: colour. Must be one of: id, xpath, link text, partial link text, name, tag name, class name, css selector")
  /\ (@run _ sample_webdriver (ElementExists "a.menu" "colour") idle).2
     = Returned (PyBool false).
Proof.
  split; [|split].
  - apply (@invalid_strategy_result _ sample_webdriver
             (CountElements "a.menu" "colour") "colour"
             (browsing sample_session) eq_refl).
    apply (bool_decide_unpack _). vm_compute. exact I.
  - apply (@invalid_strategy_result _ sample_webdriver
             (Click "a.menu" "colour") "colour" (browsing sample_session)
             eq_refl).
    apply (bool_decide_unpack _). vm_compute. exact I.
  - apply (@invalid_strategy_result _ sample_webdriver
             (ElementExists "a.menu" "colour") "colour" idle eq_refl).
    apply (bool_decide_unpack _). vm_compute. exact I.
Defined.

End ServerWitnesses.

Section DomFacts.
Import Py Dom.

(** Induction on a tree, with the property at hand for every child. *)
Lemma node_ind' (P : node -> Prop) :
  (forall s, P (NavigableString s)) ->
  (forall name a children, Forall P children -> P (Tag name a children)) ->
  forall n, P n.
Proof.
  intros Hstring Htag. fix IH 1. intros [name a children|s]; [|apply Hstring].
  apply Htag. induction children as [|child children IHc]; constructor.
  - apply IH.
  - apply IHc.
Qed.

Lemma deepest_child_le (m : nat) (children : list node) :
  Forall (fun t => levels t <= m) children ->
  foldr (fun child k => Nat.max (levels child) k) 0 children <= m.
Proof. induction 1; simpl; lia. Qed.

(** Whatever the loop over the children appends was produced by
    [trim_child] from one of the children. *)
Lemma append_children_Forall (trim_child : node -> option node) (P : node -> Prop) :
  forall children,
    Forall (fun child => forall t, trim_child child = Some t -> P t) children ->
    Forall P (append_children trim_child children).
Proof.
  intros children. remember (length children) as n eqn:Hn.
  revert children Hn. induction n as [n IH] using lt_wf_ind.
  intros [|child rest] Hn Hall; [constructor|].
  apply Forall_cons in Hall as [Hchild Hrest]. simpl in Hn. cbn [append_children].
  destruct (trim_child child) as [[name a cc|s]|] eqn:Htrim.
  - constructor; [by apply Hchild|]. apply (IH (length rest)); [lia|done|done].
  - destruct (String.eqb s "").
    + apply (IH (length rest)); [lia|done|done].
    + constructor; [by apply Hchild|].
      destruct rest as [|skipped rest']; [constructor|].
      apply Forall_cons in Hrest as [_ Hrest'].
      apply (IH (length rest')); [simpl in Hn; lia|done|done].
  - apply (IH (length rest)); [lia|done|done].
Qed.

(** A tag that follows a string is stepped over by the loop that attaches
    the children: [<div>text<b>x</b><i></i></div>] trimmed to two levels
    keeps the string and [<i>]. *)
Example trim_steps_over_the_tag_after_a_string :
  trim_html_tag_to_depth
    (Tag "div" []
       [NavigableString "text"; Tag "b" [] [NavigableString "x"]; Tag "i" [] []])
    2
  = Some (Tag "div" [] [NavigableString "text"; Tag "i" [] []]).
Proof. reflexivity. Qed.

(** A node trimmed to [depth] has at most [depth] levels. *)
Lemma trim_levels (n : node) :
  forall depth t,
    trim_html_tag_to_depth n depth = Some t -> (Z.of_nat (levels t) <= depth)%Z.
Proof.
  induction n as [s|name a children IH] using node_ind'; intros depth t Ht;
    cbn [trim_html_tag_to_depth] in Ht;
    destruct (Z.leb_spec depth 0); try discriminate; inversion Ht; subst; clear Ht.
  - simpl. lia.
  - destruct (Z.ltb_spec 1 depth); [|simpl; lia].
    cbn [levels].
    assert (foldr (fun child k => Nat.max (levels child) k) 0
              (append_children
                 (fun child => trim_html_tag_to_depth child (depth - 1)) children)
            <= Z.to_nat (depth - 1)); [|lia].
    apply deepest_child_le, append_children_Forall.
    eapply Forall_impl; [exact IH|].
    intros child Hchild t Ht. apply Hchild in Ht. lia.
Qed.

Lemma extract_pieces_levels (soup : list node) (depth : Z) (prettify : bool) :
  exists ps,
    extract_html_to_depth soup (Some depth) prettify = Pieces ps
    /\ Forall (fun p => (Z.of_nat (levels (piece_node p)) <= depth)%Z) ps.
Proof.
  eexists. split; [reflexivity|].
  induction soup as [|child soup IH]; [constructor|].
  cbn [omap list_omap].
  destruct (trim_html_tag_to_depth child depth) as [t|] eqn:Ht; cbn [is_true].
  - assert (Z.of_nat (levels t) <= depth)%Z by (by eapply trim_levels).
    destruct t as [name a cc|s]; cbn [fmap option_fmap option_map];
      [|destruct (negb (String.eqb s ""))]; try exact IH;
      constructor; try exact IH; by destruct prettify.
  - exact IH.
Qed.

(** C4.  For every parsed input and every [depth] the result holds no
    node with more than [depth] nesting levels, and [depth = 0] gives the
    empty result.  Without a depth and with [prettify] off the result is
    [str(soup)] of the input itself; without a depth and with [prettify]
    on the function returns the method [soup.prettify] and not a text. *)
Theorem extract_html_to_depth_levels (soup : list node) (depth : Z)
    (prettify : bool) :
  (exists ps,
     extract_html_to_depth soup (Some depth) prettify = Pieces ps
     /\ Forall (fun p => (Z.of_nat (levels (piece_node p)) <= depth)%Z) ps)
  /\ extract_html_to_depth soup (Some 0%Z) prettify = Pieces []
  /\ extract_html_to_depth soup None false = StrSoup soup
  /\ extract_html_to_depth soup None true = PrettifyMethod soup.
Proof.
  split; [apply extract_pieces_levels|]. split; [|by split].
  unfold extract_html_to_depth. f_equal.
  induction soup as [|child soup IH]; [done|].
  cbn [omap list_omap]. by destruct child.
Qed.

End DomFacts.

Section XPathFacts.
Import Py Dom.

Lemma string_app_cons (c : Ascii.ascii) (s t : string) :
  String c s +:+ t = String c (s +:+ t).
Proof. reflexivity. Qed.

Lemma string_app_length (s t : string) :
  String.length (s +:+ t) = String.length s + String.length t.
Proof.
  induction s as [|c s IH]; [reflexivity|].
  rewrite string_app_cons. simpl. by rewrite IH.
Qed.

Lemma string_app_nil_r (s : string) : s +:+ "" = s.
Proof.
  induction s as [|c s IH]; [reflexivity|].
  by rewrite string_app_cons, IH.
Qed.

Lemma string_app_inj_r (t s1 s2 : string) : s1 +:+ t = s2 +:+ t -> s1 = s2.
Proof.
  revert s2. induction s1 as [|c1 s1 IH]; intros [|c2 s2] Heq; [done| | |].
  - apply (f_equal String.length) in Heq.
    rewrite string_app_cons in Heq. simpl in Heq.
    rewrite !string_app_length in Heq. simpl in Heq. lia.
  - apply (f_equal String.length) in Heq.
    rewrite string_app_cons in Heq. simpl in Heq.
    rewrite !string_app_length in Heq. simpl in Heq. lia.
  - rewrite !string_app_cons in Heq. injection Heq as -> Heq.
    f_equal. by apply IH.
Qed.

(** Segments of one tag name with different counts are different texts. *)
Lemma segment_inj (name : string) (k1 k2 : nat) :
  segment name k1 = segment name k2 -> k1 = k2.
Proof.
  unfold segment. destruct k1 as [|k1], k2 as [|k2]; [done| | |].
  - intros Heq. rewrite <- (string_app_nil_r name) in Heq at 1.
    apply (inj (String.app name)) in Heq. discriminate.
  - intros Heq. rewrite <- (string_app_nil_r name) in Heq at 2.
    apply (inj (String.app name)) in Heq. discriminate.
  - intros Heq. apply (inj (String.app name)) in Heq.
    rewrite !string_app_cons in Heq. injection Heq as Heq.
    change ("" +:+ ?s) with s in Heq.
    apply string_app_inj_r, (inj pretty) in Heq. lia.
Qed.

(** The loop only puts segments in front of the path it was given. *)
Lemma build_xpath_loop_acc (up : list crumb) :
  forall name path,
    build_xpath_loop name up path = build_xpath_loop name up [] ++ path.
Proof.
  induction up as [|c up IH]; intros name path; cbn [build_xpath_loop];
    destruct (decide (name = document_name)); try done.
  rewrite IH. rewrite (IH _ [_]). by rewrite <- app_assoc.
Qed.

Lemma own_segment_child parent up children i el :
  child_element parent up children i = Some el ->
  el_name el <> document_name ->
  own_segment el = Some (segment (el_name el) (preceding (el_name el) children i)).
Proof.
  unfold child_element, own_segment.
  destruct (children !! i) as [[name a cc|s]|]; try done.
  intros [= <-] Hname. cbn [el_name el_crumbs build_xpath_loop] in *.
  destruct (decide (name = document_name)); [done|].
  rewrite build_xpath_loop_acc, last_snoc. f_equal.
  unfold find_previous_siblings, preceding, segment. cbn [before].
  rewrite filter_reverse.
  destruct (filter _ (take i children)) as [|sib sibs];
    [apply string_app_nil_r|].
  rewrite reverse_cons.
  destruct (reverse sibs ++ [sib]) as [|x xs] eqn:Hrev.
  - by apply app_nil in Hrev as [_ ?].
  - rewrite <- Hrev. rewrite length_app, length_reverse. simpl.
    by replace (length sibs + 1 + 1) with (S (length sibs) + 1) by lia.
Qed.

(** A tag of that name at [i] is counted among those before [j > i]. *)
Lemma preceding_lt name children i j :
  i < j ->
  node_name <$> children !! i = Some (Some name) ->
  preceding name children i < preceding name children j.
Proof.
  intros Hij Hi. unfold preceding.
  destruct (children !! i) as [x|] eqn:Hx; [|done].
  injection Hi as Hname.
  assert (take j children = take i children ++ x :: drop (S i) (take j children))
    as ->.
  { rewrite <- (take_drop_middle (take j children) i x) at 1.
    - by rewrite take_take, Nat.min_l by lia.
    - by rewrite lookup_take_lt. }
  rewrite filter_app, filter_cons_True by done.
  rewrite length_app. simpl. lia.
Qed.

Lemma preceding_alone name children i :
  ~ has_sibling name children i -> preceding name children i = 0.
Proof.
  intros Halone. unfold preceding.
  destruct (filter _ (take i children)) as [|x xs] eqn:Hf; [done|].
  exfalso. apply Halone.
  assert (x ∈ filter (fun n => node_name n = Some name) (take i children))
    as Hx by (rewrite Hf; left).
  apply list_elem_of_filter in Hx as [Hname Hx].
  apply list_elem_of_lookup in Hx as [j Hj].
  assert (j < i).
  { apply lookup_lt_Some in Hj. rewrite length_take in Hj. lia. }
  exists j. split; [lia|].
  rewrite lookup_take_lt in Hj by done. by rewrite Hj; simpl; rewrite Hname.
Qed.

End XPathFacts.

Section XPathSiblings.
Import Py Dom Examples.

Lemma child_element_name parent up children i el :
  child_element parent up children i = Some el ->
  node_name <$> children !! i = Some (Some (el_name el)).
Proof.
  unfold child_element.
  destruct (children !! i) as [[name a cc|s]|]; try done.
  by intros [= <-].
Qed.

(** C5, as the code has it.  For the [i]-th child [el] of a tag: its
    segment is the tag name when no sibling of that name comes before it,
    and [name[n]] with [n] one more than the number of such siblings
    before it otherwise; so the segment of an only child of its tag has no
    predicate, and two different children of the same tag name have
    different segments. *)
Theorem build_xpath_sibling_segments parent up children i el :
  child_element parent up children i = Some el ->
  el_name el <> document_name ->
  own_segment el = Some (segment (el_name el) (preceding (el_name el) children i))
  /\ (~ has_sibling (el_name el) children i -> own_segment el = Some (el_name el))
  /\ (forall j el',
        j <> i ->
        child_element parent up children j = Some el' ->
        el_name el' = el_name el ->
        own_segment el' <> own_segment el).
Proof.
  intros Hel Hname.
  pose proof (own_segment_child _ _ _ _ _ Hel Hname) as Hseg.
  split; [done|]. split.
  - intros Halone. by rewrite Hseg, preceding_alone.
  - intros j el' Hji Hel' Hsame.
    rewrite Hseg, (own_segment_child _ _ _ _ _ Hel') by congruence.
    rewrite Hsame. intros [= Heq%segment_inj].
    apply child_element_name in Hel, Hel'. rewrite Hsame in Hel'.
    destruct (Nat.lt_total i j) as [Hlt|[->|Hlt]]; [|done|].
    + pose proof (preceding_lt _ _ _ _ Hlt Hel). lia.
    + pose proof (preceding_lt _ _ _ _ Hlt Hel'). lia.
Qed.

Lemma build_xpath_sibling_segments_witness :
  exists el,
    child_element ("div", []) in_div two_paragraphs 1 = Some el
    /\ own_segment el = Some "p[2]".
Proof.
  eexists. split; [reflexivity|].
  refine (proj1 (build_xpath_sibling_segments ("div", []) in_div two_paragraphs
                   1 _ eq_refl _)).
  vm_compute. discriminate.
Defined.

(** C5 asks for a predicate whenever a sibling of the tag exists.  The
    first of two [p] children has such a sibling, and its segment is [p],
    without a predicate. *)
Lemma first_sibling_has_no_predicate :
  exists el,
    child_element ("div", []) in_div two_paragraphs 0 = Some el
    /\ has_sibling "p" two_paragraphs 0
    /\ build_xpath el = "/div/p"
    /\ ~ exists n : nat, own_segment el = Some ("p" +:+ "[" +:+ pretty n +:+ "]").
Proof.
  eexists. split; [reflexivity|]. split; [|split].
  - exists 1. by split.
  - reflexivity.
  - intros [n Hn]. vm_compute in Hn. discriminate.
Qed.

End XPathSiblings.

Section Pagination.
Import Py Dom Server.

Lemma take_plus {A} (a b : nat) (l : list A) :
  take (a + b) l = take a l ++ take b (drop a l).
Proof.
  revert l. induction a as [|a IH]; intros [|x l]; simpl; try done.
  - by rewrite take_nil.
  - by rewrite IH.
Qed.

(** With bounds that are not negative a slice is a [take] of a [drop]. *)
Lemma slice_take_drop {A} (l : list A) (start count : Z) :
  (0 <= start)%Z -> (0 <= count)%Z ->
  slice l start (start + count) = take (Z.to_nat count) (drop (Z.to_nat start) l).
Proof.
  intros Hstart Hcount. unfold slice, slice_bound.
  destruct (Z.ltb_spec start 0); [lia|].
  destruct (Z.ltb_spec (start + count) 0); [lia|].
  destruct (Z_lt_le_dec start (Z.of_nat (length l))) as [Hin|Hout].
  - rewrite (Z.max_r 0 (Z.min _ start)), (Z.min_r _ start) by lia.
    destruct (Z_le_gt_dec (start + count) (Z.of_nat (length l))).
    + f_equal. lia.
    + rewrite !take_ge; [done| |]; rewrite length_drop; lia.
  - rewrite !drop_ge by lia. by rewrite !take_nil.
Qed.

(** The first [n] pages of [size] elements, one after the other, are the
    first [n * size] elements. *)
Lemma concat_pages {A} (l : list A) (size n : nat) :
  concat ((fun j => take size (drop (j * size) l)) <$> seq 0 n) = take (n * size) l.
Proof.
  induction n as [|n IH]; [done|].
  rewrite seq_S, fmap_app, concat_app, IH. simpl.
  rewrite app_nil_r. replace (size + n * size) with (n * size + size) by lia.
  by rewrite take_plus.
Qed.

Lemma dict_get_set (k : string) (v : pyval) (d : dict) :
  dict_get k (dict_set k v d) = Some v.
Proof.
  induction d as [|[k' v'] d IH]; simpl.
  - by destruct (decide (k = k)).
  - destruct (decide (k = k')) as [->|Hne]; simpl.
    + by destruct (decide (k' = k')).
    + by destruct (decide (k = k')).
Qed.

Lemma index_of_inj (total i j : nat) : index_of i total = index_of j total -> i = j.
Proof.
  unfold index_of. intros Heq.
  apply string_app_inj_r, (inj pretty) in Heq. lia.
Qed.

Context {driver : Type} `{WebDriver driver}.

Lemma summary_lookup (d : driver) filter_type only_visible detailed k data :
  summarize_forms_buttons_links_and_text d filter_type only_visible detailed !! k
    = Some data ->
  dict_get "index" data
  = Some (PyStr (index_of k
                   (length (summarize_forms_buttons_links_and_text d filter_type
                              only_visible detailed)))).
Proof.
  unfold summarize_forms_buttons_links_and_text. cbn zeta.
  rewrite length_imap, list_lookup_imap.
  destruct (sorted _ !! k) as [x|]; [|done].
  intros [= <-]. apply dict_get_set.
Qed.

Lemma summary_NoDup (d : driver) filter_type only_visible detailed :
  NoDup (summarize_forms_buttons_links_and_text d filter_type only_visible detailed).
Proof.
  apply NoDup_alt. intros i j data Hi Hj.
  apply summary_lookup in Hi, Hj. rewrite Hi in Hj.
  injection Hj as Hj. by apply index_of_inj in Hj.
Qed.

(** C1.  With a session [d] and a page size [m > 0], for a fixed filter,
    visibility switch and detail switch: the call with [skip_elements =
    j * m] returns the [j]-th run of [m] entries of one and the same list,
    the filtered and ordered summary; as many pages as cover its length,
    put one after the other, are that list, which has no entry twice; and
    the entry at place [i] of page [j] is the entry at place [j * m + i] of
    the list, with index ["k/total"] for [k = j * m + i + 1] and [total]
    the length of the list, the same on every page. *)
Theorem get_page_summary_pagination (s : server driver) (d : driver) (m : Z)
    (filter_type : string) (only_visible detailed : bool) :
  driver_ s = Some d ->
  (0 < m)%Z ->
  let summary :=
    summarize_forms_buttons_links_and_text d filter_type only_visible detailed in
  let page (j : nat) := take (Z.to_nat m) (drop (j * Z.to_nat m) summary) in
  (forall j : nat,
     get_page_summary (Z.of_nat j * m) m filter_type only_visible detailed s
     = Returned (page j))
  /\ (forall n, length summary <= n * Z.to_nat m ->
        concat (page <$> seq 0 n) = summary)
  /\ NoDup summary
  /\ (forall j i data,
        page j !! i = Some data ->
        summary !! (j * Z.to_nat m + i) = Some data
        /\ dict_get "index" data
           = Some (PyStr (pretty (j * Z.to_nat m + i + 1) +:+ "/"
                            +:+ pretty (length summary)))).
Proof.
  intros Hd Hm summary page. split; [|split; [|split]].
  - intros j. unfold get_page_summary. rewrite Hd. f_equal.
    rewrite slice_take_drop by lia. unfold page, summary.
    do 2 f_equal. lia.
  - intros n Hn. unfold page. by rewrite concat_pages, take_ge.
  - apply summary_NoDup.
  - intros j i data Hpage. unfold page in Hpage.
    apply lookup_take_Some in Hpage as [Hdata _].
    rewrite lookup_drop in Hdata. split; [done|].
    by apply summary_lookup in Hdata.
Qed.

End Pagination.

Section PaginationWitness.
Import Py Dom Server Examples.

(** The second page of two entries of the sample page. *)
Lemma get_page_summary_pagination_witness :
  @get_page_summary _ sample_webdriver 2 2 "" true false (browsing sample_session)
  = Returned
      [[("index", PyStr "3/5"); ("type", PyStr "link"); ("text", PyStr "Next");
        ("href", PyStr "/next")];
       [("index", PyStr "4/5"); ("type", PyStr "form"); ("text", PyStr "Search");
        ("inputs", PyList [PyDict [("name", PyStr "q")]]);
        ("buttons", PyList [PyDict [("text", PyStr "Search")]]);
        ("class", PyStr "search wide")]].
Proof.
  exact (proj1 (@get_page_summary_pagination _ sample_webdriver
                  (browsing sample_session) sample_session 2 "" true false
                  eq_refl ltac:(lia)) 1).
Defined.

End PaginationWitness.

Section Ordering.
Import Py Dom Server.

Lemma key_le_total (a b : option nat) : key_le a b = false -> key_le b a = true.
Proof.
  destruct a as [x|], b as [y|]; simpl; try done.
  rewrite Nat.leb_gt. intros Hlt. apply Nat.leb_le. lia.
Qed.

Lemma insert_by_key_Permutation (x : dict) (l : list dict) :
  insert_by_key x l ≡ₚ x :: l.
Proof.
  induction l as [|y l IH]; simpl; [done|].
  destruct (key_le (order x) (order y)); [done|].
  rewrite IH. apply perm_swap.
Qed.

(** The sort moves entries around and neither drops nor adds one. *)
Lemma sorted_Permutation (l : list dict) : sorted l ≡ₚ l.
Proof.
  induction l as [|x l IH]; simpl; [done|].
  by rewrite insert_by_key_Permutation, IH.
Qed.

Lemma insert_by_key_Sorted (x : dict) (l : list dict) :
  Sorted (fun a b => key_le (order a) (order b) = true) l ->
  Sorted (fun a b => key_le (order a) (order b) = true) (insert_by_key x l).
Proof.
  induction 1 as [|y l Hl IH Hy]; simpl.
  - by repeat constructor.
  - destruct (key_le (order x) (order y)) eqn:Hxy.
    + by repeat constructor.
    + constructor; [done|].
      destruct Hy as [|z l Hyz]; simpl.
      * constructor. by apply key_le_total.
      * destruct (key_le (order x) (order z)); constructor;
          [by apply key_le_total|done].
Qed.

(** After the sort the priorities button, link, form, text do not go
    down along the list. *)
Lemma sorted_Sorted (l : list dict) :
  Sorted (fun a b => key_le (order a) (order b) = true) (sorted l).
Proof.
  induction l as [|x l IH]; simpl; [constructor|].
  by apply insert_by_key_Sorted.
Qed.

End Ordering.

Section JsonRoundTrip.
Import Py Dom Server.

(** Induction on a value, with the property at hand for every element of
    a list or tuple and every value of a dict. *)
Lemma pyval_ind' (P : pyval -> Prop) :
  P PyNone ->
  (forall b, P (PyBool b)) ->
  (forall z, P (PyInt z)) ->
  (forall s, P (PyStr s)) ->
  (forall l, Forall P l -> P (PyList l)) ->
  (forall l, Forall P l -> P (PyTuple l)) ->
  (forall d, Forall (fun kv => P kv.2) d -> P (PyDict d)) ->
  forall v, P v.
Proof.
  intros HNone HBool HInt HStr HList HTuple HDict. fix IH 1.
  intros [|b|z|s|l|l|d]; [done|done|done|done| | |].
  - apply HList. induction l as [|x l IHl]; constructor; [apply IH|apply IHl].
  - apply HTuple. induction l as [|x l IHl]; constructor; [apply IH|apply IHl].
  - apply HDict. induction d as [|[k x] d IHd]; constructor; [apply IH|apply IHd].
Qed.

Lemma dict_set_fresh (k : string) (v : pyval) (d : dict) :
  k ∉ d.*1 -> dict_set k v d = d ++ [(k, v)].
Proof.
  induction d as [|[k' v'] d IH]; simpl; [done|].
  intros Hk. apply not_elem_of_cons in Hk as [Hne Hk].
  destruct (decide (k = k')); [done|]. by rewrite IH.
Qed.

(** Filling a dict member by member, with keys that are all new, puts
    the members after what was there, in their order. *)
Lemma fill_fresh (d : dict) :
  forall acc : dict,
    NoDup (acc.*1 ++ d.*1) ->
    foldl (fun acc kv => dict_set kv.1 kv.2 acc) acc d = acc ++ d.
Proof.
  induction d as [|[k v] d IH]; intros acc Hnd; simpl.
  - by rewrite app_nil_r.
  - simpl in Hnd. rewrite dict_set_fresh.
    + rewrite IH.
      * by rewrite <- app_assoc.
      * by rewrite fmap_app, <- app_assoc.
    + apply NoDup_app in Hnd as (_ & Hdisjoint & _).
      intros Hk. apply (Hdisjoint k Hk). left.
Qed.

(** What was dumped is what is loaded, for a plain value. *)
Lemma of_json_to_json (v : pyval) : plain v -> of_json (to_json v) = v.
Proof.
  induction v as [| | | |l IH|l IH|d IH] using pyval_ind'; try done.
  - intros Hplain. cbn [to_json of_json]. f_equal.
    induction IH as [|x l Hx _ IHl]; [done|].
    destruct Hplain as [Hpx Hpl]. simpl. by rewrite Hx, IHl.
  - intros [Hkeys Hplain]. cbn [to_json of_json]. f_equal.
    assert (map (fun kv : string * json => match kv with (k, x) => (k, of_json x) end)
              (map (fun kv : string * pyval => match kv with (k, x) => (k, to_json x) end) d)
            = d) as ->.
    { clear Hkeys. induction IH as [|[k x] d Hx _ IHd]; [done|].
      destruct Hplain as [Hpx Hpd]. simpl in *. by rewrite Hx, IHd. }
    by apply (fill_fresh d []).
Qed.

(** A sequence of recorded actions comes back with lists for tuples. *)
Lemma dump_load_actions (actions : list (string * dict)) :
  Forall (fun a => plain (PyDict a.2)) actions ->
  of_json <$> (to_json <$> ((fun a => PyTuple [PyStr a.1; PyDict a.2]) <$> actions))
  = (fun a => PyList [PyStr a.1; PyDict a.2]) <$> actions.
Proof.
  induction 1 as [|[name args] actions Hargs _ IH]; [done|].
  rewrite !fmap_cons, IH. f_equal. cbn [to_json of_json map fst snd].
  do 3 f_equal. by apply (of_json_to_json (PyDict args)).
Qed.

Context {driver : Type} `{WebDriver driver}.

(** C7, as the code has it.  A recorded sequence, of three actions or of
    any number, each the tuple of an operation name and a dict of plain
    arguments, is saved and then loaded from the file that was written: the
    sequence in memory then holds the same names with the same arguments in
    the same order, each pair now a list of two elements where a tuple was
    recorded.  So the loaded sequence is not equal to the recorded one
    unless both are empty, and taking its pairs apart, as a replay does,
    gives what it gave for the recorded sequence. *)
Theorem save_load_round_trip (s : server driver) (stamp : string) (reset : bool)
    (actions : list (string * dict)) :
  sequence_recorded s = (fun a => PyTuple [PyStr a.1; PyDict a.2]) <$> actions ->
  Forall (fun a => plain (PyDict a.2)) actions ->
  let saved := (save_recording stamp reset s).1 in
  let loaded := (load_recording (_get_filename "recording" stamp "txt") saved).1 in
  sequence_recorded loaded = (fun a => PyList [PyStr a.1; PyDict a.2]) <$> actions
  /\ (actions <> [] -> sequence_recorded loaded <> sequence_recorded s)
  /\ unpack <$> sequence_recorded loaded = unpack <$> sequence_recorded s
  /\ unpack <$> sequence_recorded loaded
     = (fun a => Returned (PyStr a.1, PyDict a.2)) <$> actions.
Proof.
  intros Hseq Hplain saved loaded.
  assert (sequence_recorded loaded
          = (fun a => PyList [PyStr a.1; PyDict a.2]) <$> actions) as Hloaded.
  { unfold loaded, saved, load_recording, save_recording.
    destruct reset; cbn; rewrite lookup_insert_eq; cbn;
      rewrite Hseq; by apply dump_load_actions. }
  split; [done|]. rewrite Hloaded, Hseq. split.
  { by destruct actions. }
  rewrite <- !list_fmap_compose. split.
  - by apply list_fmap_ext.
  - by apply list_fmap_ext.
Qed.

End JsonRoundTrip.

Section JsonRoundTripWitness.
Import Py Dom Server Examples.

Lemma three_actions_plain : Forall (fun a => plain (PyDict a.2)) three_actions.
Proof.
  repeat (constructor;
          [split; [apply (bool_decide_unpack _); vm_compute; exact I
                  | simpl; tauto]|]).
  constructor.
Defined.

Lemma save_load_round_trip_witness :
  sequence_recorded
    (load_recording "recording_20260101_120000.txt"
       (save_recording "20260101_120000" true recorded_three).1).1
  = (fun a => PyList [PyStr a.1; PyDict a.2]) <$> three_actions.
Proof.
  exact (proj1 (save_load_round_trip recorded_three "20260101_120000" true
                  three_actions eq_refl three_actions_plain)).
Defined.

(** The pairs that come back are lists where tuples were recorded: the
    loaded sequence is not equal to the recorded one. *)
Lemma loaded_pairs_are_lists_not_tuples :
  sequence_recorded
    (load_recording "recording_20260101_120000.txt"
       (save_recording "20260101_120000" false recorded_three).1).1
  <> sequence_recorded recorded_three.
Proof. vm_compute. discriminate. Qed.

End JsonRoundTripWitness.

Section ReplayFacts.
Import Py Dom Server.
Context {driver : Type} `{WebDriver driver}.
Variable getattr_call : string -> dict -> server driver -> server driver * outcome pyval.

(** The loop over a sequence in two parts runs the first part and, when
    no step of it raised, goes on with the second from the state reached. *)
Lemma play_loop_app (delay : Q) (pre post : list pyval) :
  forall s : server driver,
    play_loop getattr_call delay (pre ++ post) s
    = match play_loop getattr_call delay pre s with
      | (s', None) => play_loop getattr_call delay post s'
      | failed => failed
      end.
Proof.
  induction pre as [|action pre IH]; intros s; [done|].
  cbn [app play_loop].
  destruct (play_step getattr_call action s) as [s' [v|e]]; [apply IH|done].
Qed.

(** C8, as the code has it.  [play_recording] goes through the recorded
    pairs in their order.  A pair of a name and a dict is replayed by the
    call of the method of that name with the dict as keyword arguments; a
    step that returns is followed by a sleep of [delay] seconds exactly
    when [delay > 0], and then by the next pair.  When a step raises after
    the steps before it returned, the replay ends there: the state is the
    one the raising call left behind on top of the steps already run,
    whatever pairs come after, and the result is the text ["Error playing
    recording: "] followed by the message of the exception.  When no step
    raises the result is ["Recording has been played"]. *)
Theorem play_recording_steps (delay : Q) (s : server driver) :
  (forall name args (t : server driver),
     play_step getattr_call (PyTuple [PyStr name; PyDict args]) t
     = getattr_call name args t
     /\ play_step getattr_call (PyList [PyStr name; PyDict args]) t
        = getattr_call name args t)
  /\ (forall action rest (t t' : server driver) v,
        play_step getattr_call action t = (t', Returned v) ->
        play_loop getattr_call delay (action :: rest) t
        = play_loop getattr_call delay rest
            (if Qlt_le_dec 0 delay then emit (Sleep delay) t' else t'))
  /\ (forall pre action post (s1 s2 : server driver) e,
        sequence_recorded s = pre ++ action :: post ->
        play_loop getattr_call delay pre s = (s1, None) ->
        play_step getattr_call action s1 = (s2, Raised e) ->
        play_recording getattr_call delay s
        = (s2, "Error playing recording: " +:+ exn_str e))
  /\ (forall s' : server driver,
        play_loop getattr_call delay (sequence_recorded s) s = (s', None) ->
        play_recording getattr_call delay s = (s', "Recording has been played")).
Proof.
  split; [by split|]. split; [|split].
  - intros action rest t t' v Hstep. cbn [play_loop]. by rewrite Hstep.
  - intros pre action post s1 s2 e Hseq Hpre Hstep.
    unfold play_recording. rewrite Hseq, play_loop_app, Hpre.
    cbn [play_loop]. by rewrite Hstep.
  - intros s' Hloop. unfold play_recording. by rewrite Hloop.
Qed.

End ReplayFacts.

Section ReplayWitnesses.
Import Py Dom Server Examples.

(** The second of three steps raises: the first step's timeout stays, one
    sleep was taken, the third step is not run. *)
Lemma play_recording_steps_witness :
  (replay (1 # 2)%Q timeout_then_forward).2
  = "Error playing recording: chrome not reachable"
  /\ timeout (replay (1 # 2)%Q timeout_then_forward).1 = 5%Z
  /\ effects (replay (1 # 2)%Q timeout_then_forward).1 = [Sleep (1 # 2)%Q].
Proof.
  pose proof (proj1 (proj2 (proj2
    (@play_recording_steps _ (@getattr_call _ sample_webdriver) (1 # 2)%Q
       timeout_then_forward)))) as Habort.
  specialize (Habort
    [PyTuple [PyStr "set_timeout"; PyDict [("seconds", PyInt 5)]]]
    (PyTuple [PyStr "forward"; PyDict []])
    [PyTuple [PyStr "click"; PyDict [("locator", PyStr "#ok")]]]).
  unfold replay.
  erewrite Habort;
    [| reflexivity | vm_compute; reflexivity | vm_compute; reflexivity].
  by vm_compute.
Defined.

(** C8 has the result report the failing step.  Two replays that fail at
    different steps, of different operations, return the same text: the
    result does not tell the failing step. *)
Lemma replay_error_hides_the_step :
  (play_step (@getattr_call _ sample_webdriver)
     (PyTuple [PyStr "back"; PyDict []]) back_only).2
  = Raised (OtherException "chrome not reachable")
  /\ (play_step (@getattr_call _ sample_webdriver)
        (PyTuple [PyStr "set_timeout"; PyDict [("seconds", PyInt 5)]])
        timeout_then_forward).2
     = Returned (PyStr "Default timeout set to 5 seconds")
  /\ (replay 0%Q back_only).2 = "Error playing recording: chrome not reachable"
  /\ (replay 0%Q timeout_then_forward).2
     = "Error playing recording: chrome not reachable".
Proof. by vm_compute. Qed.

End ReplayWitnesses.

(** * Further properties of the agent loop *)

Section AgentLoopMore.
Import Py Client Conversation.
Context {world : Type} `{Endpoint world}.

Lemma tool_output_ids (call_id : string) (content : list string) :
  omap output_id_of (tool_output_messages call_id content) = [call_id].
Proof.
  unfold tool_output_messages. by destruct (startswith _ _).
Qed.

(** When every call of a batch returns, the calls went
    out in the order of the batch, and the turns appended hold exactly one
    output turn per call, with the call's id, in that order. *)
Theorem call_functions_outputs_match (fs : list message) :
  forall (c c' : client world),
    call_functions fs c = (c', None) ->
    exists added,
      messages c' = messages c ++ added
      /\ omap output_id_of added = omap call_id_of fs
      /\ events c' = events c ++ omap dispatch_of fs
      /\ context c' = context c /\ tools c' = tools c.
Proof.
  induction fs as [|f fs IH]; intros c c' Hcall; cbn [call_functions] in Hcall.
  - injection Hcall as <-. exists []. by rewrite !app_nil_r.
  - destruct f; try (destruct (IH _ _ Hcall) as (added & ? & ? & ? & ? & ?);
                     by exists added).
    destruct (call_tool name arguments (outside c)) as [w [content|e]];
      [|done].
    destruct (IH _ _ Hcall) as (added & Hm & Hids & He & Hc & Ht).
    exists (tool_output_messages call_id content ++ added).
    cbn in Hm, He, Hc, Ht. rewrite Hm, He, <- !app_assoc.
    repeat split; try done.
    rewrite omap_app, tool_output_ids, Hids. done.
Qed.

(** X3 (dispatch failure).  When a call of a batch raises after the calls
    before it returned, the exception ends the batch there: the calls
    after it are not dispatched. *)
Theorem call_functions_stops_at_failure (pre post : list message)
    (call_id name arguments : string) (c c1 : client world) (w : world) (e : exn) :
  call_functions pre c = (c1, None) ->
  call_tool name arguments (outside c1) = (w, Raised e) ->
  call_functions (pre ++ FunctionCallItem call_id name arguments :: post) c
  = (went_out w (ToolCall name arguments) c1, Some e).
Proof.
  revert c. induction pre as [|f pre IH]; intros c Hpre Hcall.
  - injection Hpre as ->. cbn [app call_functions]. by rewrite Hcall.
  - cbn [app call_functions] in *. destruct f; try by apply IH.
    destruct (call_tool name0 arguments0 (outside c)) as [w0 [content|e0]];
      [by apply IH|done].
Qed.

Lemma call_functions_prefix (fs : list message) :
  forall (c c' : client world) r,
    call_functions fs c = (c', r) -> messages c `prefix_of` messages c'.
Proof.
  induction fs as [|f fs IH]; intros c c' r Hcall; cbn [call_functions] in Hcall.
  - by injection Hcall as <- _.
  - destruct f; try by eapply IH.
    destruct (call_tool name arguments (outside c)) as [w [content|e]].
    + apply IH in Hcall. etrans; [|exact Hcall]. by apply prefix_app_r.
    + by injection Hcall as <- _.
Qed.

Lemma round_prefix (c : client world) :
  match round c with
  | Again c' | Break c' | Fails c' _ => messages c `prefix_of` messages c'
  end.
Proof.
  unfold round.
  destruct (responses_create _ _ _) as [w [output|e]]; [|done].
  set (c1 := append _ _).
  assert (messages c `prefix_of` messages c1) by (by apply prefix_app_r).
  destruct (filter _ _) as [|f fs]; [done|].
  destruct (call_functions (f :: fs) c1) as [c2 [e|]] eqn:Hcall;
    apply call_functions_prefix in Hcall; by etrans.
Qed.

Lemma loop_prefix (fuel : nat) :
  forall max_iterations iterations (c : client world),
    messages c `prefix_of` messages (loop fuel max_iterations iterations c).1.
Proof.
  induction fuel as [|fuel IH]; intros max_iterations iterations c; [done|].
  cbn [loop]. destruct max_iterations as [max|]; [|done].
  destruct (max <? iterations + 1)%Z; [done|].
  pose proof (round_prefix c) as Hr.
  destruct (round c) as [c'|c'|c' e]; try done.
  etrans; [exact Hr|apply IH].
Qed.

(** X4 (history).  However a query ends, in an answer or in any error,
    the turns that were in the conversation before it and the query itself
    are still there, in front of what the query added (when no reset is
    asked for). *)
Theorem process_query_keeps_history (query : string)
    (max_iterations : option Z) (c : client world) :
  (forall w e, get_mcp_tools (outside c) <> (w, Raised e)) ->
  (messages c ++ [User query])
    `prefix_of` messages (process_query query false max_iterations c).1.
Proof.
  intros Htools. unfold process_query, start.
  destruct (get_mcp_tools (outside c)) as [w [t|e]]; [|by destruct (Htools w e)].
  exact (loop_prefix _ _ _ _).
Qed.

(** X5 (ceiling that lets no pass through).  With a ceiling of zero or
    less the iteration-limit error is raised before the model is called;
    with no ceiling at all ([None]) the comparison itself raises a
    [TypeError], again before the model is called. *)
Theorem process_query_without_rounds (query : string) (reset_messages : bool)
    (c0 c1 : client world) :
  start query reset_messages c0 = (c1, None) ->
  (forall ceiling, (ceiling <= 0)%Z ->
     process_query query reset_messages (Some ceiling) c0
     = (c1, Error (max_iterations_error ceiling)))
  /\ process_query query reset_messages None c0
     = (c1, Error (TypeError
                     "'>' not supported between instances of 'int' and 'NoneType'"))
  /\ events c1 = events c0.
Proof.
  intros Hstart. unfold process_query. rewrite Hstart. split; [|split].
  - intros ceiling Hceiling. cbn [enough_fuel loop].
    by destruct (Z.ltb_spec ceiling (0 + 1)); [|lia].
  - done.
  - unfold start in Hstart.
    destruct (get_mcp_tools (outside c0)) as [w [t|e]]; [|done].
    injection Hstart as <-. by destruct reset_messages.
Qed.

(** X1 (direct answer).  When the first response of the model holds no
    function call and ends in a text, the query is answered by that text
    after one call of the model and no call of a tool, and the turns of the
    response are the only ones added. *)
Theorem process_query_direct_answer (query : string) (reset_messages : bool)
    (ceiling : Z) (c0 c1 : client world) (w : world)
    (output : list assistant_output) (text : string) :
  (0 < ceiling)%Z ->
  start query reset_messages c0 = (c1, None) ->
  responses_create (context c1 ++ messages c1) (tools c1) (outside c1)
    = (w, Returned output) ->
  Forall (fun o => forall call_id name arguments,
            o <> FunctionCall call_id name arguments) output ->
  last output = Some (Message [OutputText text]) ->
  exists c',
    process_query query reset_messages (Some ceiling) c0 = (c', Answer text)
    /\ messages c' = messages c1 ++ (output_message <$> output)
    /\ events c' = events c1 ++ [ModelCall].
Proof.
  intros Hceiling Hstart Hmodel Hnone Hlast.
  unfold process_query. rewrite Hstart. cbn [enough_fuel loop].
  destruct (Z.ltb_spec ceiling (0 + 1)); [lia|].
  unfold round. rewrite Hmodel.
  assert (filter (fun m => is_function_call m = true) (output_message <$> output)
          = []) as ->.
  { clear Hlast Hmodel. induction Hnone as [|o output Ho _ IH]; [done|].
    rewrite fmap_cons, filter_cons_False; [done|].
    destruct o as [call_id name arguments|content|type_]; cbn;
      [by destruct (Ho call_id name arguments)| |done].
    by destruct content as [|[] []]. }
  exists (append (output_message <$> output) (went_out w ModelCall c1)).
  split; [|split; reflexivity].
  do 2 f_equal. unfold last_text. cbn [messages append set_messages went_out].
  by rewrite last_app, fmap_last, Hlast.
Qed.

End AgentLoopMore.

Section AgentLoopRounds.
Import Py Client Conversation.
Context {world : Type} `{Endpoint world}.

Lemma call_ids_of_function_calls (ms : list message) :
  omap call_id_of (filter (fun m => is_function_call m = true) ms)
  = omap call_id_of ms.
Proof.
  induction ms as [|m ms IH]; [done|].
  destruct m; rewrite ?filter_cons_True, ?filter_cons_False by done; cbn;
    by rewrite ?IH.
Qed.

(** X2.  When a pass dispatched its function
    calls, the model answered the conversation so far with a response, the
    turns the pass added are those of that response followed by the
    turns of the results, and the results hold exactly one output turn per
    [function_call] turn of the response, with the same [call_id], in the
    order of the calls. *)
Theorem round_outputs_match (c c' : client world) :
  round c = Again c' ->
  exists w output added,
    responses_create (context c ++ messages c) (tools c) (outside c)
    = (w, Returned output)
    /\ messages c' = messages c ++ (output_message <$> output) ++ added
    /\ omap output_id_of added = omap call_id_of (output_message <$> output)
    /\ omap call_id_of (output_message <$> output) <> [].
Proof.
  unfold round.
  destruct (responses_create _ _ _) as [w [output|e]] eqn:Hcreate; [|done].
  destruct (filter _ (output_message <$> output)) as [|f fs] eqn:Hfs; [done|].
  destruct (call_functions (f :: fs) _) as [c2 [e|]] eqn:Hcall; [done|].
  intros [= <-].
  apply call_functions_outputs_match in Hcall as (added & Hm & Hids & _).
  exists w, output, added. cbn [messages append set_messages went_out] in Hm.
  split; [done|].
  rewrite Hm, <- app_assoc, Hids, <- Hfs, call_ids_of_function_calls.
  repeat split; try done.
  assert (f ∈ filter (fun m => is_function_call m = true)
                (output_message <$> output)) as Hf by (rewrite Hfs; left).
  apply list_elem_of_filter in Hf as [Hf _].
  rewrite <- call_ids_of_function_calls, Hfs.
  by destruct f.
Qed.

End AgentLoopRounds.

Section AgentLoopMoreWitnesses.
Import Py Client Conversation Examples Examples2.

(** Two calls in one response, the first with an image for a result. *)
Lemma round_outputs_match_witness :
  exists c' w output added,
    @round _ scripted (fresh [[screenshot_call; summary_call]]) = Again c'
    /\ @responses_create _ scripted [] [] [[screenshot_call; summary_call]]
       = (w, Returned output)
    /\ messages c' = (output_message <$> output) ++ added
    /\ omap output_id_of added = omap call_id_of (output_message <$> output).
Proof.
  destruct (@round _ scripted (fresh [[screenshot_call; summary_call]]))
    as [c'| |] eqn:Hround; try (vm_compute in Hround; discriminate).
  destruct (@round_outputs_match _ scripted _ _ Hround)
    as (w & output & added & Hcreate & Hm & Hids & _).
  by exists c', w, output, added.
Defined.

Lemma call_functions_stops_at_failure_witness :
  @call_functions _ failing_click
    [FunctionCallItem "call_2" "get_page_summary" "{}";
     FunctionCallItem "call_4" "click" "{}";
     FunctionCallItem "call_5" "type_text" "{}"] (fresh [])
  = ({| tools := []; context := [];
        messages := [FunctionCallOutput "call_2" "hello"]; outside := [];
        events := [ToolCall "get_page_summary" "{}"; ToolCall "click" "{}"] |},
     Some (OtherException "Connection closed")).
Proof.
  exact (@call_functions_stops_at_failure _ failing_click
           [FunctionCallItem "call_2" "get_page_summary" "{}"]
           [FunctionCallItem "call_5" "type_text" "{}"]
           "call_4" "click" "{}" (fresh []) _ [] _ eq_refl eq_refl).
Defined.

Lemma process_query_keeps_history_witness :
  [Assistant "earlier"; User "and now?"]
    `prefix_of`
  messages (@process_query _ failing_click "and now?" false (Some 3%Z)
              {| tools := []; context := []; messages := [Assistant "earlier"];
                 outside := [[click_call]]; events := [] |}).1.
Proof.
  apply (@process_query_keeps_history _ failing_click "and now?" (Some 3%Z)
           {| tools := []; context := []; messages := [Assistant "earlier"];
              outside := [[click_call]]; events := [] |}).
  intros w e. vm_compute. discriminate.
Defined.

Lemma process_query_without_rounds_witness :
  @process_query _ scripted "open the page" false (Some 0%Z)
    (fresh [[screenshot_call]])
  = ({| tools := []; context := []; messages := [User "open the page"];
        outside := [[screenshot_call]]; events := [] |},
     Error (RuntimeError "Max iterations 0 reached)")).
Proof.
  refine (proj1 (@process_query_without_rounds _ scripted "open the page" false
                   (fresh [[screenshot_call]]) _ eq_refl) 0%Z _).
  lia.
Defined.

Lemma process_query_direct_answer_witness :
  exists c',
    @process_query _ scripted "hello" false (Some 10%Z)
      (fresh [[Message [OutputText "thinking"]; Message [OutputText "hi"]]])
    = (c', Answer "hi")
    /\ events c' = [ModelCall].
Proof.
  destruct (@process_query_direct_answer _ scripted "hello" false 10%Z
              (fresh [[Message [OutputText "thinking"]; Message [OutputText "hi"]]])
              _ [] [Message [OutputText "thinking"]; Message [OutputText "hi"]] "hi"
              ltac:(lia) eq_refl eq_refl)
    as (c' & Hq & _ & He); [by repeat constructor|reflexivity|].
  exists c'. by split.
Defined.

End AgentLoopMoreWitnesses.

(** * Further properties of the server *)

Section Lifecycle.
Import Py Dom Server ServerViews.
Context {driver : Type} `{WebDriver driver}.

(** X6 (start and quit twice).  With a supported browser type, a
    [start_browser] that returns leaves a session open, and a second
    [start_browser] then changes nothing and reports that the browser is
    already running; a [start_browser] that raises was called without a
    session and leaves the browser type as it was, and leaves the whole
    server as it was unless a session was assigned before
    [maximize_window] raised.  A [quit_browser] that returns leaves no
    session, and a second [quit_browser] then changes nothing and reports
    that no browser is running; a [quit_browser] that raises leaves the
    server as it was, the session included. *)
Theorem start_and_quit_twice (s : server driver) :
  browser s ∈ BROWSER_OPTIONS ->
  (forall s' text,
     start_browser s = (s', Returned text) ->
     driver_ s' <> None
     /\ start_browser s'
        = (s', Returned (capitalize (browser s) +:+ " browser already running")))
  /\ (forall s' e,
        start_browser s = (s', Raised e) ->
        driver_ s = None /\ browser s' = browser s
        /\ (driver_ s' = None -> s' = s))
  /\ (forall s' text,
        quit_browser s = (s', Returned text) ->
        driver_ s' = None
        /\ quit_browser s' = (s', Returned "No browser running"))
  /\ (forall s' e,
        quit_browser s = (s', Raised e) -> s' = s /\ driver_ s <> None).
Proof.
  intros Hb. unfold start_browser, quit_browser.
  destruct s as [b [d|] u t a q l rd r ef]; cbn in *;
    rewrite ?(decide_True (P := b ∈ BROWSER_OPTIONS)) by done.
  - split; [by intros s' text [= <- <-]|]. split; [done|].
    destruct (quit_ d); split; try done; by intros s' x [= <- <-].
  - split; [|split; [|split; [by intros s' text [= <- <-]|done]]].
    + intros s' text. destruct (launch b _) as [d|e]; [|done].
      destruct (maximize_window d); [|done].
      by intros [= <- <-].
    + intros s' e. destruct (launch b _) as [d|e0];
        [|by intros [= <- <-]].
      destruct (maximize_window d); [done|]. by intros [= <- <-].
Qed.

(** X7 (changing the browser type).  A [change_browser] with a supported
    name that returns leaves the server without a session and with the new
    type; a session that was open was quit, and nothing was launched.  When
    the next operation that needs the browser starts it without raising,
    it is the new type that is launched: over the two steps the old session
    is closed before the new one is opened.  A [change_browser] that
    raises, as it does when the session cannot be quit, leaves the server
    as it was, the old type included. *)
Theorem change_browser_closes_then_launches (b : string) (s : server driver) :
  b ∈ BROWSER_OPTIONS ->
  (forall s' text,
     change_browser b s = (s', Returned text) ->
     driver_ s' = None
     /\ browser s' = b
     /\ effects s' = effects s ++ closing s
     /\ forall s'',
          _ensure_browser_started s' = (s'', None) ->
          (exists d d',
             launch b (undetected s && bool_decide (b = CHROME)) = Returned d
             /\ maximize_window d = Returned d'
             /\ driver_ s'' = Some d')
          /\ effects s'' = effects s ++ closing s ++ [Launched b (undetected s)])
  /\ (forall s' e, change_browser b s = (s', Raised e) -> s' = s).
Proof.
  intros Hb. unfold change_browser, closing.
  destruct (decide (b ∈ BROWSER_OPTIONS)); [|done].
  unfold quit_browser, _ensure_browser_started, start_browser.
  destruct s as [b0 [d0|] u t a q l rd r ef]; cbn.
  - destruct (quit_ d0); (split; [|by intros ? ? [= <- <-]]);
      intros s' text [= <- <-]; cbn.
    rewrite (decide_True (P := b ∈ BROWSER_OPTIONS)) by done.
    do 3 (split; [done|]). intros s''.
    destruct (launch b _) as [d|e1]; [|done].
    destruct (maximize_window d) as [d'|e2] eqn:Hmax; [|done].
    intros [= <-]. cbn. rewrite <- app_assoc. split; [|done].
    by exists d, d'.
  - split; [|done]. intros s' text [= <- <-]; cbn.
    rewrite (decide_True (P := b ∈ BROWSER_OPTIONS)) by done.
    rewrite app_nil_r. do 3 (split; [done|]). intros s''.
    destruct (launch b _) as [d|e1]; [|done].
    destruct (maximize_window d) as [d'|e2] eqn:Hmax; [|done].
    intros [= <-]. cbn. split; [|done]. by exists d, d'.
Qed.

End Lifecycle.

Section Recording.
Import Py Dom Server ServerViews.
Context {driver : Type} `{WebDriver driver} `{Show}.

Lemma ensure_started_memory (s : server driver) :
  last_action (_ensure_browser_started s).1 = last_action s
  /\ sequence_recorded (_ensure_browser_started s).1 = sequence_recorded s.
Proof.
  unfold _ensure_browser_started, start_browser.
  destruct (driver_ s); [done|]. case_decide; [|done].
  destruct (launch _ _) as [d|e]; [|done]. by destruct (maximize_window d).
Qed.

Lemma wait_memory (s : server driver) :
  last_action (_wait_if_undetected s) = last_action s
  /\ sequence_recorded (_wait_if_undetected s) = sequence_recorded s.
Proof. unfold _wait_if_undetected. by destruct (undetected s). Qed.

Lemma attempt_memory {A} (attr : string) (s : server driver)
    (body : driver -> driver * A) (handler : string -> A) :
  last_action (attempt attr s body handler).1 = last_action s
  /\ sequence_recorded (attempt attr s body handler).1 = sequence_recorded s.
Proof.
  unfold attempt. destruct (driver_ s) as [d|]; [|done]. by destruct (body d).
Qed.

Lemma call_driver_memory (attr : string) (s : server driver)
    (f : driver -> outcome driver) :
  last_action (call_driver attr s f).1 = last_action s
  /\ sequence_recorded (call_driver attr s f).1 = sequence_recorded s.
Proof.
  unfold call_driver. destruct (driver_ s) as [d|]; [|done]. by destruct (f d).
Qed.

(** An operation that keeps the memory once the browser is there keeps it
    also when the start raises. *)
Lemma started_memory {A} (s : server driver)
    (rest : server driver -> server driver * outcome A) :
  (forall t, last_action (rest t).1 = last_action t
             /\ sequence_recorded (rest t).1 = sequence_recorded t) ->
  last_action (started s rest).1 = last_action s
  /\ sequence_recorded (started s rest).1 = sequence_recorded s.
Proof.
  intros Hrest. unfold started.
  destruct (ensure_started_memory s) as [Hlast Hseq].
  destruct (_ensure_browser_started s) as [t [e|]]; cbn [fst] in *; [done|].
  destruct (Hrest t) as [-> ->]. done.
Qed.

(** The memory of the server across the steps every operation is made
    of. *)
Ltac memory :=
  repeat first
    [ rewrite (proj1 (attempt_memory _ _ _ _))
    | rewrite (proj2 (attempt_memory _ _ _ _))
    | rewrite (proj1 (call_driver_memory _ _ _))
    | rewrite (proj2 (call_driver_memory _ _ _))
    | rewrite (proj1 (wait_memory _))
    | rewrite (proj2 (wait_memory _))
    | rewrite (proj1 (ensure_started_memory _))
    | rewrite (proj2 (ensure_started_memory _)) ].

(** What the operations do once the browser is there keeps the memory. *)
Ltac rest_memory :=
  intros ?; cbn beta zeta;
  repeat match goal with
    | |- context [call_driver ?a ?t ?f] =>
        let Hm := fresh in
        pose proof (call_driver_memory a t f) as Hm;
        destruct (call_driver a t f) as [? [?|?]]; cbn [fst snd] in Hm |- *
    | |- context [decide ?P] => destruct (decide P)
    | |- context [match driver_ ?t with _ => _ end] => destruct (driver_ t)
    end;
  unfold returned; cbn [fst snd]; memory;
  repeat match goal with Hm : _ /\ _ |- _ => destruct Hm as [-> ->] end;
  memory; by split.

(** X8 (what is remembered).  Each of [go_to], [back], [forward],
    [set_timeout], [click], [type_text] and [clear_text] remembers its
    call before anything else, so the call is the last action afterwards
    however the operation ended: done, rejected for its strategy, failed
    in the browser, or raised, be it by the start of the browser.
    [get_element_text], [get_element_attribute], [find_elements],
    [count_elements] and [element_exists] leave the last action alone.
    None of the twelve touches the recorded sequence; recording after one
    of the seven appends exactly its call. *)
Theorem operation_is_remembered (op : operation) (s : server driver) :
  last_action (run op s).1
  = match remembered op with
    | Some action => action
    | None => last_action s
    end
  /\ sequence_recorded (run op s).1 = sequence_recorded s
  /\ match remembered op with
     | Some action =>
         sequence_recorded (record_last_action (run op s).1).1
         = sequence_recorded s ++ [action]
     | None => True
     end.
Proof.
  assert (last_action (run op s).1
          = match remembered op with
            | Some action => action
            | None => last_action s
            end
          /\ sequence_recorded (run op s).1 = sequence_recorded s) as [Hlast Hseq].
  { destruct op;
      unfold run, go_to, back, forward, set_timeout, click, type_text,
        clear_text, get_element_text, get_element_attribute, find_elements,
        count_elements, element_exists; cbn zeta; cbn [fst snd remembered];
      try done;
      match goal with
      | |- context [started ?t ?rest] =>
          destruct (started_memory t rest ltac:(rest_memory)) as [-> ->]
      end; done. }
  split; [done|]. split; [done|].
  destruct (remembered op) as [action|] eqn:Hop; [|done].
  assert (exists name args, action = PyTuple [PyStr name; PyDict args])
    as (name & args & ->) by (destruct op; simplify_eq/=; eauto).
  unfold record_last_action. rewrite Hlast. cbn. by rewrite Hseq.
Qed.

(** X9 (recording needs a remembered action).  With nothing remembered
    [record_last_action] changes nothing and says so; after a reset
    nothing is remembered, so recording right after [reset_recording]
    leaves the sequence empty. *)
Theorem record_needs_last_action (s : server driver) :
  last_action s = PyNone ->
  record_last_action s = (s, "Last action does not exist")
  /\ sequence_recorded (record_last_action (reset_recording s).1).1 = [].
Proof.
  intros Hnone. unfold record_last_action. by rewrite Hnone.
Qed.



End Recording.

Section ReplayMore.
Import Py Dom Server ServerViews.
Context {driver : Type} `{WebDriver driver}.

Lemma play_step_list_or_tuple
    (g : string -> dict -> server driver -> server driver * outcome pyval)
    (l : list pyval) (t : server driver) :
  play_step g (PyList l) t = play_step g (PyTuple l) t.
Proof. reflexivity. Qed.

(** What is in memory after a save and a load of the file written. *)
Lemma loaded_after_save (s : server driver) (stamp : string) (reset : bool) :
  sequence_recorded
    (load_recording (_get_filename "recording" stamp "txt")
       (save_recording stamp reset s).1).1
  = of_json <$> (to_json <$> sequence_recorded s).
Proof.
  unfold load_recording, save_recording.
  destruct reset; cbn; by rewrite lookup_insert_eq.
Qed.

(** X12 (replay after save and load).  A sequence of recorded actions
    that went through [save_recording] and [load_recording] is replayed,
    from any state, step for step as the sequence that was recorded: the
    pairs that came back as lists are taken apart like the tuples. *)
Theorem replay_after_save_and_load
    (g : string -> dict -> server driver -> server driver * outcome pyval)
    (delay : Q) (stamp : string) (reset : bool) (actions : list (string * dict))
    (s : server driver) :
  sequence_recorded s = (fun a => PyTuple [PyStr a.1; PyDict a.2]) <$> actions ->
  Forall (fun a => plain (PyDict a.2)) actions ->
  let loaded :=
    (load_recording (_get_filename "recording" stamp "txt")
       (save_recording stamp reset s).1).1 in
  forall t : server driver,
    play_loop g delay (sequence_recorded loaded) t
    = play_loop g delay (sequence_recorded s) t.
Proof.
  intros Hseq Hplain loaded. subst loaded.
  rewrite (loaded_after_save s stamp reset), Hseq, dump_load_actions by done.
  clear.
  induction actions as [|a actions IH]; intros t; [done|].
  rewrite !fmap_cons. cbn [play_loop]. rewrite play_step_list_or_tuple.
  destruct (play_step g _ t) as [t' [v|e]]; [apply IH|done].
Qed.

(** X13 (a rejected strategy inside a recording).  A recorded [click]
    whose strategy is not supported starts the browser like any [click]
    when no session is open.  When that start does not raise (with a
    session open it does nothing), the step returns the text that names
    the strategy and the replay goes on with the steps after it; when the
    start raises, the replay ends there. *)
Theorem replay_goes_past_rejected_strategy (delay : Q) (locator by_ : string)
    (rest : list pyval) (t : server driver) :
  by_ ∉ BY_OPTIONS ->
  let step :=
    PyTuple [PyStr "click"; PyDict [("locator", PyStr locator); ("by", PyStr by_)]] in
  (driver_ t <> None -> (_ensure_browser_started t).2 = None)
  /\ ((_ensure_browser_started t).2 = None ->
      play_step getattr_call step t
      = ((click locator by_ t).1, Returned (PyStr (invalid_by by_)))
      /\ play_loop getattr_call delay (step :: rest) t
         = play_loop getattr_call delay rest
             (sleep_between delay (click locator by_ t).1))
  /\ (forall e,
        (_ensure_browser_started t).2 = Some e ->
        play_loop getattr_call delay (step :: rest) t
        = ((click locator by_ t).1, Some e)).
Proof.
  intros Hby step.
  assert (Hstep : play_step getattr_call step t
                  = ((click locator by_ t).1,
                     match (click locator by_ t).2 with
                     | Returned x => Returned (PyStr x)
                     | Raised e => Raised e
                     end)).
  { unfold step, play_step, unpack, iterate, getattr_call.
    by assert (bind "click" [("locator", PyStr locator); ("by", PyStr by_)]
               = Returned (Click locator by_)) as -> by (vm_compute; reflexivity). }
  assert (Hclick : (click locator by_ t).2
                   = match (_ensure_browser_started t).2 with
                     | Some e => Raised e
                     | None => Returned (invalid_by by_)
                     end).
  { unfold click, started. cbn zeta. rewrite ensure_started_remember.
    destruct (_ensure_browser_started t) as [t1 [e|]]; cbn [fst snd]; [done|].
    by destruct (decide (by_ ∉ BY_OPTIONS)). }
  split; [|split].
  - unfold _ensure_browser_started. by destruct (driver_ t).
  - intros Hstart. rewrite Hstart in Hclick. rewrite Hclick in Hstep.
    split; [done|]. cbn [play_loop]. by rewrite Hstep.
  - intros e Hstart. rewrite Hstart in Hclick. rewrite Hclick in Hstep.
    cbn [play_loop]. by rewrite Hstep.
Qed.

End ReplayMore.

Section ServerMoreWitnesses.
Import Py Dom Server ServerViews Examples Examples3.

Lemma start_and_quit_twice_witness :
  @start_browser _ sample_webdriver (@start_browser _ sample_webdriver idle).1
  = ((@start_browser _ sample_webdriver idle).1,
     Returned "Chrome browser already running").
Proof.
  refine (proj2 (proj1 (@start_and_quit_twice _ sample_webdriver idle _) _
                   "Started chrome browser" eq_refl)).
  apply (bool_decide_unpack _). vm_compute. exact I.
Defined.

(** From chrome with a session to firefox: the session is quit, then
    firefox is launched. *)
Lemma change_browser_closes_then_launches_witness :
  effects (@_ensure_browser_started _ sample_webdriver
             (@change_browser _ sample_webdriver "firefox"
                (browsing sample_session)).1).1
  = [Quit; Launched "firefox" false].
Proof.
  refine (proj2 (proj2 (proj2 (proj2
    (proj1 (@change_browser_closes_then_launches _ sample_webdriver "firefox"
              (browsing sample_session) _)
       _ "Browser set to firefox" eq_refl))) _ eq_refl)).
  apply (bool_decide_unpack _). vm_compute. exact I.
Defined.

Lemma record_needs_last_action_witness :
  @record_last_action _ sample_show idle = (idle, "Last action does not exist").
Proof.
  exact (proj1 (@record_needs_last_action _ sample_show idle eq_refl)).
Defined.


Lemma replay_after_save_and_load_witness :
  play_loop (@getattr_call _ sample_webdriver) 0%Q
    (sequence_recorded
       (load_recording "recording_20260101_120000.txt"
          (save_recording "20260101_120000" false recorded_three).1).1)
    (browsing sample_session)
  = play_loop (@getattr_call _ sample_webdriver) 0%Q
      (sequence_recorded recorded_three) (browsing sample_session).
Proof.
  exact (replay_after_save_and_load (@getattr_call _ sample_webdriver) 0%Q
           "20260101_120000" false three_actions recorded_three eq_refl
           three_actions_plain (browsing sample_session)).
Defined.

Lemma replay_goes_past_rejected_strategy_witness :
  (replay 0%Q rejected_then_timeout).2 = "Recording has been played"
  /\ timeout (replay 0%Q rejected_then_timeout).1 = 5%Z.
Proof.
  unfold replay, play_recording, rejected_then_timeout.
  cbn [sequence_recorded set_sequence_recorded].
  rewrite (proj2 (proj1 (proj2
             (@replay_goes_past_rejected_strategy _ sample_webdriver 0%Q
                "#ok" "colour"
                [PyTuple [PyStr "set_timeout"; PyDict [("seconds", PyInt 5)]]]
                (set_sequence_recorded
                   [PyTuple [PyStr "click";
                             PyDict [("locator", PyStr "#ok");
                                     ("by", PyStr "colour")]];
                    PyTuple [PyStr "set_timeout";
                             PyDict [("seconds", PyInt 5)]]]
                   (browsing sample_session))
                ltac:(apply (bool_decide_unpack _); vm_compute; exact I)))
             eq_refl)).
  by vm_compute.
Defined.

End ServerMoreWitnesses.

(** * Further properties of the page summary *)

Section SummaryEntries.
Import Py Dom Server SummaryViews.
Context {driver : Type} `{WebDriver driver}.

Lemma dict_get_set_ne (k k' : string) (v : pyval) (d : dict) :
  k <> k' -> dict_get k (dict_set k' v d) = dict_get k d.
Proof.
  intros Hne. induction d as [|[k0 v0] d IH]; simpl.
  - by destruct (decide (k = k')).
  - destruct (decide (k' = k0)) as [->|]; simpl.
    + by destruct (decide (k = k0)).
    + by rewrite IH.
Qed.

Lemma dict_get_update_ne (k : string) (e : dict) :
  forall d : dict,
    dict_get k e = None -> dict_get k (dict_update d e) = dict_get k d.
Proof.
  unfold dict_update. induction e as [|[k' v] e IH]; intros d Hk; [done|].
  cbn [foldl]. simpl in Hk. destruct (decide (k = k')); [done|].
  rewrite IH by done. by apply dict_get_set_ne.
Qed.

Lemma dict_get_clean_attrs (k : string) (a : attrs) (names : list string) :
  k ∉ replace_dash <$> names -> dict_get k (clean_attrs a names) = None.
Proof.
  unfold clean_attrs.
  assert (forall acc : dict,
            k ∉ replace_dash <$> names ->
            dict_get k
              (foldl (fun data attr =>
                        match get attr a with
                        | Some value =>
                            if truthy value
                            then dict_set (replace_dash attr) (attr_value value) data
                            else data
                        | None => data
                        end) acc names)
            = dict_get k acc) as Hacc.
  { induction names as [|name names IH]; intros acc Hk; [done|].
    rewrite fmap_cons in Hk. apply not_elem_of_cons in Hk as [Hne Hk].
    cbn [foldl]. rewrite IH by done.
    destruct (get name a) as [value|]; [|done].
    destruct (truthy value); [|done]. by apply dict_get_set_ne. }
  intros Hk. by rewrite (Hacc []).
Qed.


Lemma set_text_keeps k children data :
  k <> "text" -> dict_get k (set_text children data) = dict_get k data.
Proof.
  intros Hk. unfold set_text. case_decide; [done|]. by apply dict_get_set_ne.
Qed.

Lemma set_class_keeps k a detailed data :
  k <> "class" -> dict_get k (set_class a detailed data) = dict_get k data.
Proof.
  intros Hk. unfold set_class. destruct (get "class" a) as [classes|]; [|done].
  destruct (truthy classes); [|done]. by apply dict_get_set_ne.
Qed.

(** An entry is made only for a tag that passes the type filter and the
    visibility check, and what later steps add leaves the keys written up
    to that check as they were. *)
Lemma summarize_tag_entry (d : driver) filter_type only_visible detailed tag
    cache data cache' :
  summarize_tag d filter_type only_visible detailed tag cache = (Some data, cache') ->
  (filter_type = "" \/ filter_type = type_of (el_name tag))
  /\ exists gated c0,
       gate d only_visible detailed (build_xpath tag) (entry_base detailed tag) cache
       = (Some gated, c0)
       /\ forall k,
            k ∉ ["text"; "href"; "inputs"; "buttons"; "aria_label"; "role";
                 "class"; "id"; "parent"] ->
            dict_get k data = dict_get k gated.
Proof.
  unfold summarize_tag. cbn zeta. fold (entry_base detailed tag).
  destruct (decide (filter_type <> "" /\ filter_type <> type_of (el_name tag)))
    as [|Hfilter]; [done|].
  intros Hentry. split.
  { destruct (decide (filter_type = "")); [by left|].
    destruct (decide (filter_type = type_of (el_name tag))); [by right|].
    by destruct Hfilter. }
  destruct (gate _ _ _ _ _ _) as [[gated|] c0] eqn:Hgate; [|done].
  exists gated, c0. split; [done|]. intros k Hk. clear Hgate.
  assert (Hclean : dict_get k (clean_attrs (el_attrs tag) ["aria-label"; "role"])
                   = None).
  { apply dict_get_clean_attrs. intros Hin. apply Hk.
    change (k ∈ ["aria_label"; "role"]) in Hin.
    apply elem_of_cons in Hin as [->|Hin];
      [|apply elem_of_cons in Hin as [->|Hin]; [|by apply elem_of_nil in Hin]];
      apply (bool_decide_unpack _); vm_compute; exact I. }
  repeat (apply not_elem_of_cons in Hk as [? Hk]).
  assert (Hparent : forall data0 : dict,
    dict_get k
      (if detailed then
         match el_crumbs tag with
         | c :: _ =>
             if decide ((above c).1 <> document_name) then
               match parent_info (above c) with
               | [] => data0
               | info => dict_set "parent" (PyDict info) data0
               end
             else data0
         | [] => data0
         end
       else data0) = dict_get k data0).
  { intros data0. destruct detailed; [|done].
    destruct (el_crumbs tag) as [|c ?]; [done|].
    destruct (decide ((above c).1 <> document_name)); [|done].
    destruct (parent_info (above c)); [done|]. by apply dict_get_set_ne. }
  assert (Hid : forall data0 : dict,
    dict_get k
      match get "id" (el_attrs tag) with
      | Some id => if truthy id then dict_set "id" (attr_value id) data0 else data0
      | None => data0
      end = dict_get k data0).
  { intros data0. destruct (get "id" _) as [id|]; [|done].
    destruct (truthy id); [|done]. by apply dict_get_set_ne. }
  assert (Hattrs : forall data0 : dict,
    dict_get k
      (if detailed
       then dict_update data0 (clean_attrs (el_attrs tag) ["aria-label"; "role"])
       else data0) = dict_get k data0).
  { intros data0. destruct detailed; [|done]. by apply dict_get_update_ne. }
  destruct (if decide (type_of (el_name tag) = "link") then _ else _)
    as [mid c1] eqn:Hmid.
  injection Hentry as <- _.
  rewrite Hparent, Hid, set_class_keeps, Hattrs by done.
  destruct (decide (type_of (el_name tag) = "link")).
  { injection Hmid as <- _.
    destruct (get "href" _) as [href|]; [|by apply set_text_keeps].
    destruct (truthy href); rewrite ?dict_get_set_ne by done;
      by apply set_text_keeps. }
  destruct (decide (type_of (el_name tag) = "form")).
  - destruct (extract_inputs _ _ _ _ _) as [inputs c2].
    destruct (extract_buttons _ _ _ _ _) as [buttons c3].
    injection Hmid as <- _.
    destruct inputs, buttons; rewrite ?dict_get_set_ne by done;
      by apply set_text_keeps.
  - injection Hmid as <- _. by apply set_text_keeps.
Qed.

Lemma foldl_invariant {A B} (P : B -> Prop) (f : B -> A -> B) (l : list A) (b : B) :
  P b -> (forall b a, a ∈ l -> P b -> P (f b a)) -> P (foldl f b l).
Proof.
  revert b. induction l as [|a l IH]; simpl; intros b Hb Hf; [done|].
  apply IH.
  - apply Hf; [left|done].
  - intros b' a' Ha'. apply Hf. by right.
Qed.

(** The visibility check answers as the browser does, through a cache that
    holds its answers. *)
Lemma visible_sound (d : driver) xpath cache visible cache' :
  sound d cache ->
  is_element_visible_by_xpath d xpath cache = (visible, cache') ->
  visible = displayed d xpath /\ sound d cache'.
Proof.
  unfold is_element_visible_by_xpath, displayed. intros Hsound.
  destruct (cache !! xpath) as [v|] eqn:Hhit.
  - intros [= <- <-]. by rewrite (Hsound _ _ Hhit).
  - destruct (is_displayed d xpath) as [v|] eqn:Hd; intros [= <- <-];
      (split; [done|]); [|done].
    intros x v'. destruct (decide (x = xpath)) as [->|].
    + rewrite lookup_insert_eq. by intros [= <-].
    + rewrite lookup_insert_ne by done. apply Hsound.
Qed.

Lemma gate_sound (d : driver) only_visible detailed xpath data cache r cache' :
  sound d cache ->
  gate d only_visible detailed xpath data cache = (r, cache') ->
  sound d cache'
  /\ forall gated, r = Some gated ->
       (only_visible = true -> displayed d xpath = true)
       /\ gated = if negb only_visible && detailed
                  then dict_set "visible" (PyBool (displayed d xpath)) data
                  else data.
Proof.
  unfold gate. intros Hsound.
  destruct (is_element_visible_by_xpath d xpath cache) as [v c] eqn:Hv.
  destruct (visible_sound _ _ _ _ _ Hsound Hv) as [-> Hc].
  destruct only_visible; simpl.
  - destruct (displayed d xpath); simpl; intros [= <- <-]; (split; [done|]);
      [|done].
    by intros gated [= <-].
  - intros [= <- <-]. split; [done|]. by intros gated [= <-].
Qed.

Lemma gate_sound_cache (d : driver) only_visible detailed xpath data cache :
  sound d cache -> sound d (gate d only_visible detailed xpath data cache).2.
Proof.
  intros Hsound.
  destruct (gate d only_visible detailed xpath data cache) as [r c] eqn:Hgate.
  by destruct (gate_sound _ _ _ _ _ _ _ _ Hsound Hgate).
Qed.

Lemma extract_inputs_sound (d : driver) only_visible detailed form cache :
  sound d cache -> sound d (extract_inputs d only_visible detailed form cache).2.
Proof.
  intros Hsound. unfold extract_inputs.
  apply (foldl_invariant (fun acc => sound d acc.2)); [done|].
  intros [inputs c] inp _ Hc. simpl in Hc.
  destruct (match dict_get "class" _ with Some _ => _ | None => _ end); [done|].
  match goal with
  | |- context [gate d only_visible detailed ?x ?data c] =>
      pose proof (gate_sound_cache d only_visible detailed x data c Hc) as Hgate;
      destruct (gate d only_visible detailed x data c) as [[?|] ?]
  end; done.
Qed.

Lemma extract_buttons_sound (d : driver) only_visible detailed form cache :
  sound d cache -> sound d (extract_buttons d only_visible detailed form cache).2.
Proof.
  intros Hsound. unfold extract_buttons.
  apply (foldl_invariant (fun acc => sound d acc.2)); [done|].
  intros [buttons c] btn _ Hc. simpl in Hc.
  match goal with
  | |- context [gate d only_visible detailed ?x ?data c] =>
      pose proof (gate_sound_cache d only_visible detailed x data c Hc) as Hgate;
      destruct (gate d only_visible detailed x data c) as [[[|??]|] ?]
  end; done.
Qed.

Lemma summarize_tag_sound (d : driver) filter_type only_visible detailed tag cache :
  sound d cache ->
  sound d (summarize_tag d filter_type only_visible detailed tag cache).2.
Proof.
  intros Hsound. unfold summarize_tag. cbn zeta.
  destruct (decide (filter_type <> "" /\ filter_type <> type_of (el_name tag)));
    [done|].
  match goal with
  | |- context [gate d only_visible detailed ?x ?data cache] =>
      pose proof (gate_sound_cache d only_visible detailed x data cache Hsound)
        as Hgate;
      destruct (gate d only_visible detailed x data cache) as [[gated|] c0]
  end; [|done].
  simpl in Hgate.
  destruct (decide (type_of (el_name tag) = "link")); [done|].
  destruct (decide (type_of (el_name tag) = "form")); [|done].
  pose proof (extract_inputs_sound d only_visible detailed tag c0 Hgate) as Hin.
  destruct (extract_inputs d only_visible detailed tag c0) as [inputs c2].
  pose proof (extract_buttons_sound d only_visible detailed tag c2 Hin) as Hbt.
  by destruct (extract_buttons d only_visible detailed tag c2) as [buttons c3].
Qed.

(** Every entry the loop collects comes from a tag of the page, and the
    cache it leaves holds answers of the browser only. *)
Lemma collect_entries (d : driver) filter_type only_visible detailed :
  Forall (entry_of d filter_type only_visible detailed)
    (collect d filter_type only_visible detailed).1
  /\ sound d (collect d filter_type only_visible detailed).2.
Proof.
  unfold collect.
  apply (foldl_invariant
           (fun acc => Forall (entry_of d filter_type only_visible detailed) acc.1
                       /\ sound d acc.2)).
  { split; [constructor|]. intros x v. simpl. by rewrite lookup_empty. }
  intros [summary cache] tag Htag [Hentries Hsound]. simpl in Hentries, Hsound.
  pose proof (summarize_tag_sound d filter_type only_visible detailed tag cache
                Hsound) as Hcache.
  destruct (summarize_tag d filter_type only_visible detailed tag cache)
    as [[data|] cache'] eqn:Hdata; [|done].
  split; [|done]. simpl. apply Forall_app. split; [done|].
  apply Forall_singleton.
  apply summarize_tag_entry in Hdata as [Hfilter (gated & c0 & Hgate & Hkeys)].
  apply (gate_sound _ _ _ _ _ _ _ _ Hsound) in Hgate as [_ Hgate].
  destruct (Hgate gated eq_refl) as [Hshown ->].
  by exists tag.
Qed.

(** Two runs of a loop that threads a cache, from caches that are related:
    what they collect is the same when the body does not tell such caches
    apart. *)
Lemma foldl_two_caches {A B C} (R : C -> C -> Prop) (f : B * C -> A -> B * C)
    (l : list A) :
  (forall b c1 c2 a,
     R c1 c2 ->
     (f (b, c1) a).1 = (f (b, c2) a).1 /\ R (f (b, c1) a).2 (f (b, c2) a).2) ->
  forall b c1 c2,
    R c1 c2 ->
    (foldl f (b, c1) l).1 = (foldl f (b, c2) l).1
    /\ R (foldl f (b, c1) l).2 (foldl f (b, c2) l).2.
Proof.
  intros Hf. induction l as [|a l IH]; intros b c1 c2 HR; [done|].
  cbn [foldl]. destruct (Hf b c1 c2 a HR) as [Heq HR'].
  destruct (f (b, c1) a) as [b1 c1'], (f (b, c2) a) as [b2 c2'].
  simpl in Heq, HR'. subst b2. by apply IH.
Qed.

(** The visibility check gives the same answer from any two caches that
    hold answers of the browser only. *)
Lemma gate_any_cache (d : driver) only_visible detailed xpath data c1 c2 :
  sound d c1 -> sound d c2 ->
  (gate d only_visible detailed xpath data c1).1
  = (gate d only_visible detailed xpath data c2).1.
Proof.
  intros H1 H2. unfold gate.
  destruct (is_element_visible_by_xpath d xpath c1) as [v1 c1'] eqn:Hv1.
  destruct (is_element_visible_by_xpath d xpath c2) as [v2 c2'] eqn:Hv2.
  destruct (visible_sound _ _ _ _ _ H1 Hv1) as [-> _].
  destruct (visible_sound _ _ _ _ _ H2 Hv2) as [-> _].
  destruct only_visible; simpl; [|done]. by destruct (displayed d xpath).
Qed.

Lemma extract_inputs_any_cache (d : driver) only_visible detailed form c1 c2 :
  sound d c1 -> sound d c2 ->
  (extract_inputs d only_visible detailed form c1).1
  = (extract_inputs d only_visible detailed form c2).1.
Proof.
  intros H1 H2. unfold extract_inputs.
  apply (foldl_two_caches (fun a b => sound d a /\ sound d b)); [|done].
  clear. intros inputs c1 c2 inp [H1 H2]. cbn beta iota zeta.
  destruct (match dict_get "class" _ with Some _ => _ | None => _ end); [done|].
  match goal with
  | |- context [gate d only_visible detailed ?x ?data c1] =>
      pose proof (gate_sound_cache d only_visible detailed x data c1 H1) as Hs1;
      pose proof (gate_sound_cache d only_visible detailed x data c2 H2) as Hs2;
      pose proof (gate_any_cache d only_visible detailed x data c1 c2 H1 H2) as Heq;
      destruct (gate d only_visible detailed x data c1) as [r1 c1'];
      destruct (gate d only_visible detailed x data c2) as [r2 c2']
  end.
  simpl in Hs1, Hs2, Heq. subst r2. by destruct r1.
Qed.

Lemma extract_buttons_any_cache (d : driver) only_visible detailed form c1 c2 :
  sound d c1 -> sound d c2 ->
  (extract_buttons d only_visible detailed form c1).1
  = (extract_buttons d only_visible detailed form c2).1.
Proof.
  intros H1 H2. unfold extract_buttons.
  apply (foldl_two_caches (fun a b => sound d a /\ sound d b)); [|done].
  clear. intros buttons c1 c2 btn [H1 H2]. cbn beta iota zeta.
  match goal with
  | |- context [gate d only_visible detailed ?x ?data c1] =>
      pose proof (gate_sound_cache d only_visible detailed x data c1 H1) as Hs1;
      pose proof (gate_sound_cache d only_visible detailed x data c2 H2) as Hs2;
      pose proof (gate_any_cache d only_visible detailed x data c1 c2 H1 H2) as Heq;
      destruct (gate d only_visible detailed x data c1) as [r1 c1'];
      destruct (gate d only_visible detailed x data c2) as [r2 c2']
  end.
  simpl in Hs1, Hs2, Heq. subst r2. by destruct r1 as [[|??]|].
Qed.

(** The entry of a tag does not depend on what the cache holds, as long as
    it holds answers of the browser only. *)
Lemma summarize_tag_any_cache (d : driver) filter_type only_visible detailed tag
    c1 c2 :
  sound d c1 -> sound d c2 ->
  (summarize_tag d filter_type only_visible detailed tag c1).1
  = (summarize_tag d filter_type only_visible detailed tag c2).1.
Proof.
  intros H1 H2. unfold summarize_tag. cbn zeta.
  destruct (decide (filter_type <> "" /\ filter_type <> type_of (el_name tag)));
    [done|].
  match goal with
  | |- context [gate d only_visible detailed ?x ?data c1] =>
      pose proof (gate_sound_cache d only_visible detailed x data c1 H1) as Hs1;
      pose proof (gate_sound_cache d only_visible detailed x data c2 H2) as Hs2;
      pose proof (gate_any_cache d only_visible detailed x data c1 c2 H1 H2) as Heq;
      destruct (gate d only_visible detailed x data c1) as [r1 c1'];
      destruct (gate d only_visible detailed x data c2) as [r2 c2']
  end.
  simpl in Hs1, Hs2, Heq. subst r2. destruct r1 as [gated|]; [|done].
  destruct (decide (type_of (el_name tag) = "link")); [done|].
  destruct (decide (type_of (el_name tag) = "form")); [|done].
  pose proof (extract_inputs_sound d only_visible detailed tag c1' Hs1) as Hi1.
  pose proof (extract_inputs_sound d only_visible detailed tag c2' Hs2) as Hi2.
  pose proof (extract_inputs_any_cache d only_visible detailed tag c1' c2' Hs1 Hs2)
    as Hieq.
  destruct (extract_inputs d only_visible detailed tag c1') as [inputs c1i].
  destruct (extract_inputs d only_visible detailed tag c2') as [inputs2 c2i].
  simpl in Hi1, Hi2, Hieq. subst inputs2.
  pose proof (extract_buttons_any_cache d only_visible detailed tag c1i c2i Hi1 Hi2)
    as Hbeq.
  destruct (extract_buttons d only_visible detailed tag c1i) as [buttons c1b].
  destruct (extract_buttons d only_visible detailed tag c2i) as [buttons2 c2b].
  simpl in Hbeq. by subst buttons2.
Qed.

Lemma sound_empty (d : driver) : sound d ∅.
Proof. intros x v. by rewrite lookup_empty. Qed.

(** Every entry the loop collects is the entry of a tag of the page, as
    the body of the loop makes it on a cache of its own. *)
Lemma collect_made (d : driver) filter_type only_visible detailed :
  Forall (fun e =>
            exists tag,
              tag ∈ find_all summary_tags (soup_root (page_source d))
              /\ (summarize_tag d filter_type only_visible detailed tag ∅).1
                 = Some e)
    (collect d filter_type only_visible detailed).1.
Proof.
  unfold collect.
  apply (foldl_invariant
           (fun acc =>
              Forall (fun e =>
                        exists tag,
                          tag ∈ find_all summary_tags (soup_root (page_source d))
                          /\ (summarize_tag d filter_type only_visible detailed
                                tag ∅).1 = Some e) acc.1
              /\ sound d acc.2)).
  { split; [constructor|apply sound_empty]. }
  intros [summary cache] tag Htag [Hentries Hsound]. simpl in Hentries, Hsound.
  pose proof (summarize_tag_sound d filter_type only_visible detailed tag cache
                Hsound) as Hcache.
  pose proof (summarize_tag_any_cache d filter_type only_visible detailed tag
                cache ∅ Hsound (sound_empty d)) as Hsame.
  destruct (summarize_tag d filter_type only_visible detailed tag cache)
    as [[data|] cache'] eqn:Hdata; [|done].
  split; [|done]. simpl. apply Forall_app. split; [done|].
  apply Forall_singleton. by exists tag.
Qed.

(** The keys of the entry of a tag that are written up to the visibility
    check. *)
Lemma made_keys (d : driver) filter_type only_visible detailed tag e i :
  (summarize_tag d filter_type only_visible detailed tag ∅).1 = Some e ->
  (only_visible = true -> displayed d (build_xpath tag) = true)
  /\ dict_get "type" (dict_set "index" i e) = Some (PyStr (type_of (el_name tag)))
  /\ dict_get "xpath" (dict_set "index" i e)
     = (if detailed then Some (PyStr (build_xpath tag)) else None)
  /\ dict_get "depth" (dict_set "index" i e)
     = (if detailed then Some (PyInt (get_depth tag)) else None)
  /\ dict_get "visible" (dict_set "index" i e)
     = (if negb only_visible && detailed
        then Some (PyBool (displayed d (build_xpath tag))) else None).
Proof.
  destruct (summarize_tag d filter_type only_visible detailed tag ∅)
    as [r c] eqn:Hmade.
  simpl. intros ->.
  apply summarize_tag_entry in Hmade as [_ (gated & c0 & Hgate & Hkeys)].
  apply (gate_sound _ _ _ _ _ _ _ _ (sound_empty d)) in Hgate as [_ Hgate].
  destruct (Hgate gated eq_refl) as [Hshown ->].
  split; [done|].
  rewrite !dict_get_set_ne by done.
  rewrite !Hkeys by (apply (bool_decide_unpack _); vm_compute; exact I).
  unfold entry_base.
  by destruct only_visible, detailed.
Qed.

Lemma dict_set_set (k : string) (v w : pyval) (data : dict) :
  dict_set k v (dict_set k w data) = dict_set k v data.
Proof.
  induction data as [|[k' v'] data IH]; simpl.
  - by rewrite decide_True.
  - destruct (decide (k = k')) as [->|]; simpl.
    + by rewrite decide_True.
    + rewrite decide_False by done. by rewrite IH.
Qed.

Lemma dict_set_same (k : string) (v : pyval) (data : dict) :
  dict_get k data = Some v -> dict_set k v data = data.
Proof.
  induction data as [|[k' v'] data IH]; simpl; [done|].
  destruct (decide (k = k')) as [->|]; [by intros [= ->]|].
  intros Hget. by rewrite IH.
Qed.

(** What the summary is made of: the collected entries, sorted, each with
    its place written in. *)
Lemma summary_unfold (d : driver) filter_type only_visible detailed :
  summarize_forms_buttons_links_and_text d filter_type only_visible detailed
  = let summary := sorted (collect d filter_type only_visible detailed).1 in
    imap (fun i data => dict_set "index" (PyStr (index_of i (length summary))) data)
      summary.
Proof. reflexivity. Qed.

Lemma summary_entry (d : driver) filter_type only_visible detailed data :
  data ∈ summarize_forms_buttons_links_and_text d filter_type only_visible detailed ->
  exists e i,
    entry_of d filter_type only_visible detailed e
    /\ data = dict_set "index" i e.
Proof.
  rewrite summary_unfold. cbn zeta. intros Hin.
  apply elem_of_lookup_imap in Hin as (i & e & -> & Hi).
  exists e, (PyStr (index_of i (length (sorted (collect d filter_type only_visible detailed).1)))).
  split; [|done].
  apply list_elem_of_lookup_2 in Hi. rewrite sorted_Permutation in Hi.
  destruct (collect_entries d filter_type only_visible detailed) as [Hall _].
  by apply (proj1 (Forall_forall _ _) Hall).
Qed.

Lemma type_of_entry_types (name : string) : type_of name ∈ entry_types.
Proof.
  unfold type_of, entry_types. repeat case_decide; set_solver.
Qed.

Lemma entry_of_keys (d : driver) filter_type only_visible detailed e i :
  entry_of d filter_type only_visible detailed e ->
  exists tag,
    tag ∈ find_all summary_tags (soup_root (page_source d))
    /\ (filter_type = "" \/ filter_type = type_of (el_name tag))
    /\ (only_visible = true -> displayed d (build_xpath tag) = true)
    /\ dict_get "index" e = Some PyNone
    /\ dict_get "type" (dict_set "index" i e) = Some (PyStr (type_of (el_name tag)))
    /\ dict_get "xpath" (dict_set "index" i e)
       = (if detailed then Some (PyStr (build_xpath tag)) else None)
    /\ dict_get "depth" (dict_set "index" i e)
       = (if detailed then Some (PyInt (get_depth tag)) else None)
    /\ dict_get "visible" (dict_set "index" i e)
       = (if negb only_visible && detailed
          then Some (PyBool (displayed d (build_xpath tag))) else None).
Proof.
  intros (tag & Htag & Hfilter & Hshown & Hkeys). exists tag.
  do 3 (split; [done|]).
  rewrite !dict_get_set_ne by done.
  rewrite !Hkeys by (apply (bool_decide_unpack _); vm_compute; exact I).
  unfold entry_base.
  by destruct only_visible, detailed.
Qed.

End SummaryEntries.

Section SummaryOrder.
Import Py Dom Server SummaryViews.

Lemma order_set_index (i : pyval) (data : dict) :
  order (dict_set "index" i data) = order data.
Proof. unfold order. by rewrite dict_get_set_ne. Qed.

Lemma Sorted_imap_order (l : list dict) :
  forall f : nat -> dict -> dict,
    (forall i data, order (f i data) = order data) ->
    Sorted (fun a b => key_le (order a) (order b) = true) l ->
    Sorted (fun a b => key_le (order a) (order b) = true) (imap f l).
Proof.
  induction l as [|x l IH]; intros f Hf Hl; [constructor|].
  apply Sorted_inv in Hl as [Hl Hx]. simpl. constructor.
  - apply IH; [|done]. intros i data. apply Hf.
  - destruct Hx as [|y l Hxy]; simpl; constructor. by rewrite !Hf.
Qed.

Lemma key_le_refl (a : option nat) : key_le a a = true.
Proof. destruct a; simpl; [|done]. by apply Nat.leb_le. Qed.

Lemma has_type_order (t : string) (a b : dict) :
  has_type t a -> has_type t b -> order a = order b.
Proof.
  unfold has_type, order.
  destruct (dict_get "type" a) as [[| | |s| | |]|]; try done.
  destruct (dict_get "type" b) as [[| | |s'| | |]|]; try done.
  intros Hs Hs'. apply bool_decide_unpack in Hs, Hs'. by subst.
Qed.

(** An entry is put in front of entries of lower priority only, so the
    entries of one type keep their order. *)
Lemma insert_by_key_filter (t : string) (x : dict) (l : list dict) :
  filter (has_type t) (insert_by_key x l) = filter (has_type t) (x :: l).
Proof.
  induction l as [|y l IH]; simpl; [done|].
  destruct (key_le (order x) (order y)) eqn:Hxy; [done|].
  rewrite (filter_cons _ y), IH, !(filter_cons _ x), (filter_cons _ y).
  destruct (decide (has_type t x)) as [Hx|]; [|done].
  destruct (decide (has_type t y)) as [Hy|]; [|done].
  by rewrite (has_type_order t x y), key_le_refl in Hxy.
Qed.

Lemma sorted_filter (t : string) (l : list dict) :
  filter (has_type t) (sorted l) = filter (has_type t) l.
Proof.
  induction l as [|x l IH]; simpl; [done|].
  by rewrite insert_by_key_filter, !filter_cons, IH.
Qed.

Lemma unset_index (l : list dict) (f : nat -> pyval) :
  Forall (fun data => dict_get "index" data = Some PyNone) l ->
  dict_set "index" PyNone <$> imap (fun i data => dict_set "index" (f i) data) l = l.
Proof.
  intros Hl. apply list_eq. intros i.
  rewrite list_lookup_fmap, list_lookup_imap.
  destruct (l !! i) as [data|] eqn:Hi; simpl; [|done].
  rewrite dict_set_set, dict_set_same; [done|].
  by apply (proj1 (Forall_lookup _ _) Hl i).
Qed.

End SummaryOrder.

Section SummaryTheorems.
Import Py Dom Server SummaryViews.
Context {driver : Type} `{WebDriver driver}.

(** X14.  Every entry of the page summary has one of the four types
    button, link, form and text, and with a filter that is not empty it has
    the type of the filter; so a filter that is none of the four (links,
    say, or Button) gives an empty summary, not an error. *)
Theorem summary_entry_types (d : driver) (filter_type : string)
    (only_visible detailed : bool) :
  let summary :=
    summarize_forms_buttons_links_and_text d filter_type only_visible detailed in
  (forall data, data ∈ summary ->
     exists t, t ∈ entry_types
               /\ dict_get "type" data = Some (PyStr t)
               /\ (filter_type = "" \/ filter_type = t))
  /\ (filter_type <> "" -> filter_type ∉ entry_types -> summary = []).
Proof.
  cbn zeta.
  assert (Hall : forall data,
    data ∈ summarize_forms_buttons_links_and_text d filter_type only_visible
             detailed ->
    exists t, t ∈ entry_types
              /\ dict_get "type" data = Some (PyStr t)
              /\ (filter_type = "" \/ filter_type = t)).
  { intros data (e & i & He & ->)%summary_entry.
    destruct (entry_of_keys d _ _ _ e i He)
      as (tag & _ & Hfilter & _ & _ & Htype & _).
    exists (type_of (el_name tag)).
    split; [apply type_of_entry_types|done]. }
  split; [done|]. intros Hne Hunknown.
  destruct (summarize_forms_buttons_links_and_text d filter_type only_visible
              detailed) as [|data summary]; [done|].
  destruct (Hall data) as (t & Ht & _ & [Hf|Hf]); [left|done|by subst].
Qed.

(** X15.  The summary lists buttons first, then links, forms and texts,
    and within one type the entries stay in the order of the page: taking
    the entries of a type out of the summary, places aside, gives the
    entries of that type as the loop over the page collected them. *)
Theorem summary_order_is_stable (d : driver) (filter_type : string)
    (only_visible detailed : bool) :
  let summary :=
    summarize_forms_buttons_links_and_text d filter_type only_visible detailed in
  Sorted (fun a b => key_le (order a) (order b) = true) summary
  /\ forall t,
       filter (has_type t) (dict_set "index" PyNone <$> summary)
       = filter (has_type t) (collect d filter_type only_visible detailed).1.
Proof.
  cbn zeta. rewrite summary_unfold. cbn zeta. split.
  - apply Sorted_imap_order; [|apply sorted_Sorted].
    intros i data. apply order_set_index.
  - intros t.
    rewrite (unset_index _ (fun i => PyStr (index_of i _))); [apply sorted_filter|].
    rewrite sorted_Permutation.
    destruct (collect_entries d filter_type only_visible detailed) as [Hall _].
    eapply Forall_impl; [exact Hall|]. intros e He.
    by destruct (entry_of_keys d _ _ _ e PyNone He) as (_ & _ & _ & _ & ? & _).
Qed.

(** X16.  Every entry of the summary is the entry of a form, button, link,
    heading, paragraph or span of the page: what the loop over the page
    makes of that element, whatever the cache held on the way, with the
    place of the entry in the summary written under [index].  When only
    visible elements are asked for, the browser finds that element
    displayed.  A detailed entry carries the xpath and the depth of the
    element, and, when hidden elements are listed too, a visible flag that
    is the answer of the browser; an entry that is not detailed carries
    none of the three. *)
Theorem summary_entry_provenance (d : driver) (filter_type : string)
    (only_visible detailed : bool) (data : dict) :
  let summary :=
    summarize_forms_buttons_links_and_text d filter_type only_visible detailed in
  data ∈ summary ->
  exists tag e place,
    tag ∈ find_all summary_tags (soup_root (page_source d))
    /\ (summarize_tag d filter_type only_visible detailed tag ∅).1 = Some e
    /\ summary !! place = Some data
    /\ data = dict_set "index" (PyStr (index_of place (length summary))) e
    /\ dict_get "type" data = Some (PyStr (type_of (el_name tag)))
    /\ (only_visible = true -> is_displayed d (build_xpath tag) = Some true)
    /\ dict_get "xpath" data
       = (if detailed then Some (PyStr (build_xpath tag)) else None)
    /\ dict_get "depth" data
       = (if detailed then Some (PyInt (get_depth tag)) else None)
    /\ dict_get "visible" data
       = (if negb only_visible && detailed
          then Some (PyBool (displayed d (build_xpath tag))) else None).
Proof.
  intros summary Hin.
  assert (length summary
          = length (sorted (collect d filter_type only_visible detailed).1))
    as Hlen.
  { unfold summary. rewrite summary_unfold. cbn zeta. apply length_imap. }
  assert (exists place e,
            sorted (collect d filter_type only_visible detailed).1 !! place = Some e
            /\ summary !! place = Some data
            /\ data = dict_set "index" (PyStr (index_of place (length summary))) e)
    as (place & e & He & Hplace & Hdata).
  { rewrite Hlen. unfold summary in *. rewrite summary_unfold in *. cbn zeta in *.
    apply elem_of_lookup_imap in Hin as (place & e & -> & He).
    exists place, e. split; [done|]. split; [|done].
    by rewrite list_lookup_imap, He. }
  apply list_elem_of_lookup_2 in He. rewrite sorted_Permutation in He.
  pose proof (collect_made d filter_type only_visible detailed) as Hall.
  destruct (proj1 (Forall_forall _ _) Hall e He) as (tag & Htag & Hmade).
  destruct (made_keys d _ _ _ tag e (PyStr (index_of place (length summary))) Hmade)
    as (Hshown & Htype & Hxpath & Hdepth & Hvisible).
  rewrite <- Hdata in Htype, Hxpath, Hdepth, Hvisible.
  exists tag, e, place. do 5 (split; [done|]). split; [|done].
  intros Hov. specialize (Hshown Hov). unfold displayed in Hshown.
  by destruct (is_displayed d (build_xpath tag)) as [[]|].
Qed.

End SummaryTheorems.

Section SummaryWitnesses.
Import Py Dom Server Examples SummaryViews.

(** The link of the sample page, and the sample page filtered by a type
    that does not exist. *)
Lemma summary_entry_types_witness :
  (exists t, t ∈ entry_types
             /\ dict_get "type"
                  [("index", PyStr "3/5"); ("type", PyStr "link");
                   ("text", PyStr "Next"); ("href", PyStr "/next")]
                = Some (PyStr t)
             /\ ("" = "" \/ "" = t))
  /\ @summarize_forms_buttons_links_and_text _ sample_webdriver sample_session
       "links" true false = [].
Proof.
  split.
  - apply (proj1 (@summary_entry_types _ sample_webdriver sample_session ""
                    true false)).
    apply (list_elem_of_lookup_2 _ 2). reflexivity.
  - apply (proj2 (@summary_entry_types _ sample_webdriver sample_session "links"
                    true false)); [done|].
    apply (bool_decide_unpack _). vm_compute. exact I.
Defined.

(** The span of the sample page, which is not displayed, in a detailed
    summary that lists hidden elements too. *)
Lemma summary_entry_provenance_witness :
  let data :=
    [("index", PyStr "6/6"); ("type", PyStr "text");
     ("xpath", PyStr "/html/body/span"); ("depth", PyInt 3);
     ("visible", PyBool false); ("text", PyStr "secret");
     ("parent", PyDict [("tag", PyStr "body")])] in
  let summary :=
    @summarize_forms_buttons_links_and_text _ sample_webdriver sample_session
      "" false true in
  exists tag e place,
    tag ∈ find_all summary_tags (soup_root sample_page)
    /\ (@summarize_tag _ sample_webdriver sample_session "" false true tag ∅).1
       = Some e
    /\ summary !! place = Some data
    /\ data = dict_set "index" (PyStr (index_of place (length summary))) e
    /\ dict_get "type" data = Some (PyStr (type_of (el_name tag)))
    /\ (false = true ->
        @is_displayed _ sample_webdriver sample_session (build_xpath tag)
        = Some true)
    /\ Some (PyStr "/html/body/span") = Some (PyStr (build_xpath tag))
    /\ Some (PyInt 3) = Some (PyInt (get_depth tag))
    /\ Some (PyBool false)
       = Some (PyBool (@displayed _ sample_webdriver sample_session
                         (build_xpath tag))).
Proof.
  apply (@summary_entry_provenance _ sample_webdriver sample_session "" false
           true).
  apply (list_elem_of_lookup_2 _ 5). reflexivity.
Defined.

End SummaryWitnesses.

Section PaginationEdges.
Import Py Dom Server.
Context {driver : Type} `{WebDriver driver}.

(** X17.  A negative [max_elements] is not rejected: the end of the page
    is then counted back from the end of the summary, as Python slices do.
    With [skip_elements] not negative, the page runs from [skip_elements]
    to [max_elements + skip_elements] places before the end when that sum
    is negative (so [skip_elements = 0] and [max_elements = -1] give all
    entries but the last), and is empty otherwise. *)
Theorem get_page_summary_negative_max (s : server driver) (d : driver)
    (skip_elements max_elements : Z) (filter_type : string)
    (only_visible detailed : bool) :
  driver_ s = Some d ->
  (0 <= skip_elements)%Z ->
  (max_elements < 0)%Z ->
  let summary :=
    summarize_forms_buttons_links_and_text d filter_type only_visible detailed in
  let total := Z.of_nat (length summary) in
  get_page_summary skip_elements max_elements filter_type only_visible detailed s
  = Returned
      (if (skip_elements + max_elements <? 0)%Z
       then drop (Z.to_nat skip_elements)
              (take (Z.to_nat (total + skip_elements + max_elements)) summary)
       else []).
Proof.
  intros Hd Hskip Hmax summary total. unfold get_page_summary. rewrite Hd.
  f_equal. fold summary. unfold slice, slice_bound. fold total.
  destruct (Z.ltb_spec skip_elements 0); [lia|].
  destruct (Z.ltb_spec (skip_elements + max_elements) 0).
  - destruct (Z_lt_le_dec skip_elements (total + skip_elements + max_elements)).
    + rewrite take_drop_commute. f_equal; [lia|]. f_equal. lia.
    + rewrite (drop_ge (take _ _)) by (rewrite length_take; lia).
      replace (Z.to_nat _) with 0; [by rewrite take_0|]. lia.
  - replace (Z.to_nat _) with 0; [by rewrite take_0|]. lia.
Qed.

End PaginationEdges.

Section PaginationEdgesWitness.
Import Py Dom Server Examples.

(** All entries of the sample page but the first and the last two. *)
Lemma get_page_summary_negative_max_witness :
  @get_page_summary _ sample_webdriver 1 (-3) "" true false
    (browsing sample_session)
  = Returned
      [[("index", PyStr "2/5"); ("type", PyStr "button");
        ("text", PyStr "Search")];
       [("index", PyStr "3/5"); ("type", PyStr "link"); ("text", PyStr "Next");
        ("href", PyStr "/next")]].
Proof.
  exact (@get_page_summary_negative_max _ sample_webdriver
           (browsing sample_session) sample_session 1 (-3) "" true false
           eq_refl ltac:(lia) ltac:(lia)).
Defined.

End PaginationEdgesWitness.

Section DepthFacts.
Import Py Dom.

Lemma build_xpath_loop_app (up : list crumb) :
  forall name path,
    build_xpath_loop name up path = build_xpath_loop name up [] ++ path.
Proof.
  induction up as [|c up IH]; intros name path; simpl;
    destruct (decide (name = document_name)); try done.
  rewrite IH, (IH _ [_]). by rewrite <- app_assoc.
Qed.

Lemma get_depth_loop_length (up : list crumb) :
  forall name depth,
    get_depth_loop name up depth
    = (depth + Z.of_nat (length (build_xpath_loop name up [])))%Z.
Proof.
  induction up as [|c up IH]; intros name depth;
    cbn [get_depth_loop build_xpath_loop];
    destruct (decide (name = document_name)); cbn [length]; try lia.
  rewrite IH, (build_xpath_loop_app _ _ [_]), length_app. cbn [length]. lia.
Qed.

(** X18.  The two loops that climb from an element to the document agree.
    The steps of an element are what the loop of [build_xpath] collects on
    the way up, one for the element and one for each tag above it, the
    document left out: the path of the element is a slash followed by
    these steps joined by slashes, and its depth is their number.  So the
    document itself has depth 0, anything else has a depth of 1 or more,
    and an element right under the document has depth 1. *)
Theorem get_depth_is_path_length (el : element) :
  let steps := build_xpath_loop (el_name el) (el_crumbs el) [] in
  build_xpath el = "/" +:+ join "/" steps
  /\ get_depth el = Z.of_nat (length steps)
  /\ (el_name el = document_name -> steps = [] /\ get_depth el = 0%Z)
  /\ (el_name el <> document_name -> (1 <= get_depth el)%Z)
  /\ (el_name el <> document_name ->
      (forall c, head (el_crumbs el) = Some c -> (above c).1 = document_name) ->
      get_depth el = 1%Z).
Proof.
  intros steps.
  assert (get_depth el = Z.of_nat (length steps)) as Hdepth.
  { unfold get_depth. by rewrite get_depth_loop_length. }
  split; [done|]. split; [done|]. rewrite Hdepth. unfold steps.
  destruct el as [name a children crumbs]. cbn [el_name el_crumbs]. split; [|split].
  - intros ->. destruct crumbs; cbn [build_xpath_loop];
      by rewrite decide_True.
  - intros Hname. destruct crumbs as [|c up]; cbn [build_xpath_loop];
      rewrite decide_False by done; [cbn; lia|].
    rewrite (build_xpath_loop_app _ _ [_]), length_app. cbn [length]. lia.
  - intros Hname Htop. destruct crumbs as [|c up]; cbn [build_xpath_loop];
      rewrite decide_False by done; [done|].
    rewrite (Htop c eq_refl).
    by destruct up; cbn [build_xpath_loop]; rewrite decide_True by done.
Qed.

End DepthFacts.

Section TrimFacts.
Import Py Dom.

Lemma append_children_strings (f : node -> option node) (children : list node) :
  Forall (fun child => forall t, f child = Some t ->
            all_strings t `sublist_of` all_strings child) children ->
  concat (map all_strings (append_children f children))
    `sublist_of` concat (map all_strings children).
Proof.
  intros Hall.
  cut (concat (map all_strings (append_children f children))
         `sublist_of` concat (map all_strings children)
       /\ concat (map all_strings (append_children f (tail children)))
            `sublist_of` concat (map all_strings (tail children))).
  { by intros [? _]. }
  induction Hall as [|child rest Hchild Hrest [IH IHtail]]; [done|].
  split; [|done]. cbn [append_children].
  destruct (f child) as [[name a cc|s]|] eqn:Hf; cbn [map concat].
  - apply sublist_app; [by apply Hchild|done].
  - destruct (String.eqb s ""); [by apply sublist_inserts_l|].
    cbn [map concat]. apply sublist_app; [by apply Hchild|].
    destruct rest as [|next rest']; [done|].
    cbn [map concat]. by apply sublist_inserts_l.
  - by apply sublist_inserts_l.
Qed.

(** X19.  Trimming never adds text, repeats it or changes its order: the
    strings of a trimmed node are, in order, strings of the node it was
    made from (some may be missing: those below the depth, and those the
    loop stepped over), and a trimmed tag has the name and the attributes
    of its source. *)
Theorem trim_keeps_strings_in_order (n : node) :
  forall depth t,
    trim_html_tag_to_depth n depth = Some t ->
    all_strings t `sublist_of` all_strings n
    /\ match n, t with
       | Tag name a _, Tag name' a' _ => name' = name /\ a' = a
       | NavigableString s, NavigableString s' => s' = s
       | _, _ => False
       end.
Proof.
  induction n as [s|name a children IH] using node_ind'; intros depth t Ht;
    cbn [trim_html_tag_to_depth] in Ht;
    destruct (Z.leb_spec depth 0); try discriminate; inversion Ht; subst; clear Ht.
  - done.
  - split; [|by destruct (1 <? depth)%Z].
    destruct (Z.ltb_spec 1 depth); [|apply sublist_nil_l].
    cbn [all_strings]. apply append_children_strings.
    eapply Forall_impl; [exact IH|].
    intros child Hchild t Ht. by apply Hchild in Ht as [? _].
Qed.

End TrimFacts.

Section TrimWitness.
Import Py Dom Examples.

(** A paragraph with a string, a tag and a string: the tag after the first
    string is stepped over. *)
Lemma trim_keeps_strings_in_order_witness :
  ["a"; "c"] `sublist_of` ["a"; "b"; "c"]
  /\ "p" = "p" /\ ([] : attrs) = [].
Proof.
  exact (trim_keeps_strings_in_order
           (Tag "p" [] [NavigableString "a"; Tag "b" [] [NavigableString "b"];
                        NavigableString "c"])
           2
           (Tag "p" [] [NavigableString "a"; NavigableString "c"])
           eq_refl).
Defined.

End TrimWitness.

(** * Further properties of the agent loop *)

Section AgentLoopEdges.
Import Py Client.
Context {world : Type} `{Endpoint world}.

Lemma start_last_message (query : string) (reset_messages : bool)
    (c0 c1 : client world) :
  start query reset_messages c0 = (c1, None) ->
  last (messages c1) = Some (User query).
Proof.
  unfold start. destruct (get_mcp_tools (outside c0)) as [w [t|e]]; [|done].
  intros [= <-]. destruct reset_messages; cbn; [done|]. apply last_snoc.
Qed.

(** X20.  When the first response of the model holds no output item at
    all, nothing is appended to the conversation and the loop is left at
    once; the last turn is then the query itself, so the user gets the
    query back as the answer. *)
Theorem process_query_empty_response_echoes_query (query : string)
    (reset_messages : bool) (ceiling : Z) (c0 c1 : client world) (w : world) :
  (0 < ceiling)%Z ->
  start query reset_messages c0 = (c1, None) ->
  responses_create (context c1 ++ messages c1) (tools c1) (outside c1)
    = (w, Returned []) ->
  exists c',
    process_query query reset_messages (Some ceiling) c0 = (c', Answer query)
    /\ messages c' = messages c1
    /\ events c' = events c1 ++ [ModelCall].
Proof.
  intros Hceiling Hstart Hmodel.
  unfold process_query. rewrite Hstart. cbn [enough_fuel loop].
  destruct (Z.ltb_spec ceiling (0 + 1)); [lia|].
  unfold round. rewrite Hmodel. cbn [fmap list_fmap filter list_filter].
  exists (append [] (went_out w ModelCall c1)).
  split; [|split; [|reflexivity]].
  - do 2 f_equal. unfold last_text. cbn [messages append set_messages went_out].
    by rewrite app_nil_r, (start_last_message _ _ _ _ Hstart).
  - cbn. apply app_nil_r.
Qed.

End AgentLoopEdges.

Section AgentLoopEdgesWitness.
Import Py Client Examples.

Lemma process_query_empty_response_echoes_query_witness :
  exists c',
    @process_query _ scripted "hello" false (Some 10%Z) (fresh [[]])
    = (c', Answer "hello")
    /\ messages c' = [User "hello"]
    /\ events c' = [ModelCall].
Proof.
  exact (@process_query_empty_response_echoes_query _ scripted "hello" false
           10%Z (fresh [[]]) _ [] ltac:(lia) eq_refl eq_refl).
Defined.

End AgentLoopEdgesWitness.

(** * Screenshots and the agent loop *)

Section ScreenshotFacts.
Import Py Dom Server Screenshots.
Context {driver : Type} `{WebDriver driver} `{Camera driver}.

Lemma image_text_is_image (data : string) :
  startswith ("base64," +:+ data) "base64," = true.
Proof. unfold startswith. by destruct data. Qed.

Lemma ready_memory (compress : bool) (s : server driver) :
  last_action (ready compress s)
  = PyTuple [PyStr "take_screenshot_as_base64"; PyDict [("compress", PyBool compress)]]
  /\ sequence_recorded (ready compress s) = sequence_recorded s.
Proof.
  unfold ready.
  by rewrite (proj1 (ensure_started_memory _)), (proj2 (ensure_started_memory _)).
Qed.

(** X21.  A screenshot that was taken is handed to the model as an image,
    and one that failed never is.  [take_screenshot_as_base64] returns
    either [base64,] followed by the picture, or the text of an error that
    does not start that way; given to the client as the one text of a tool
    result, the first becomes a placeholder turn followed by an image turn
    whose address is the data URI of the picture, the second a plain output
    turn with the error.  Either way the call is the last action afterwards.
    The files written are a first part of the pair screenshot, compressed
    screenshot: both (the first alone without compression) when the picture
    is returned, and possibly the first alone when compression failed after
    it was written.  The one exception that leaves the call is what the
    start of the browser raises, before anything is written. *)
Theorem screenshot_is_image_iff_taken (stamp : string) (compress : bool)
    (s s' : server driver) (out : outcome string) (call_id : string) :
  take_screenshot_as_base64 stamp compress s = (s', out) ->
  last_action s'
  = PyTuple [PyStr "take_screenshot_as_base64"; PyDict [("compress", PyBool compress)]]
  /\ sequence_recorded s' = sequence_recorded s
  /\ match out with
     | Raised e =>
         (_ensure_browser_started s).2 = Some e /\ s' = ready compress s
     | Returned r =>
         exists written,
           effects s' = effects (ready compress s) ++ (Wrote <$> written)
           /\ written `prefix_of` [screenshot_path stamp; compressed_path stamp]
           /\ ((exists data,
                  r = "base64," +:+ data
                  /\ written = (if compress
                                then [screenshot_path stamp; compressed_path stamp]
                                else [screenshot_path stamp])
                  /\ Client.tool_output_messages call_id [r]
                     = [Client.FunctionCallOutput call_id
                          "Image passed in the next message as an input_image";
                        Client.UserImage
                          ("Image returned by function with call id " +:+ call_id)
                          ("data:image/png;base64," +:+ data)])
               \/ (exists e,
                     r = error_text e
                     /\ Client.tool_output_messages call_id [r]
                        = [Client.FunctionCallOutput call_id r]))
     end.
Proof.
  unfold take_screenshot_as_base64, started. cbn zeta.
  destruct (ready_memory compress s) as [Hlast Hseq].
  pose proof (ensure_started_remember "take_screenshot_as_base64"
                [("compress", PyBool compress)] s) as Hstart.
  assert (Hready : ready compress s
                   = (_ensure_browser_started
                        (_remember_action "take_screenshot_as_base64"
                           [("compress", PyBool compress)] s)).1) by done.
  destruct (_ensure_browser_started
              (_remember_action "take_screenshot_as_base64"
                 [("compress", PyBool compress)] s)) as [s1 [e0|]];
    cbn [fst snd] in Hready; rewrite <- Hready.
  { intros [= <- <-]. do 2 (split; [done|]). split; [|done].
    by injection Hstart as _ <-. }
  clear Hstart Hready. unfold returned.
  destruct (or_error (ready compress s) _ _) as [s2 r] eqn:Hbody.
  intros [= <- <-]. cbn [fst snd]. revert Hbody.
  fold (screenshot_path stamp). fold (compressed_path stamp).
  assert (Hnone : forall e (s0 : server driver) written,
    effects s0 = effects (ready compress s) ++ (Wrote <$> written) ->
    written `prefix_of` [screenshot_path stamp; compressed_path stamp] ->
    exists written,
      effects s0 = effects (ready compress s) ++ (Wrote <$> written)
      /\ written `prefix_of` [screenshot_path stamp; compressed_path stamp]
      /\ ((exists data,
             error_text e = "base64," +:+ data
             /\ written = (if compress
                           then [screenshot_path stamp; compressed_path stamp]
                           else [screenshot_path stamp])
             /\ Client.tool_output_messages call_id [error_text e]
                = [Client.FunctionCallOutput call_id
                     "Image passed in the next message as an input_image";
                   Client.UserImage
                     ("Image returned by function with call id " +:+ call_id)
                     ("data:image/png;base64," +:+ data)])
          \/ (exists e',
                error_text e = error_text e'
                /\ Client.tool_output_messages call_id [error_text e]
                   = [Client.FunctionCallOutput call_id (error_text e)]))).
  { intros e s0 written Heff Hpre. exists written. do 2 (split; [done|]).
    right. by exists e. }
  assert (Himage : forall data (s0 : server driver),
    effects s0 = effects (ready compress s)
                 ++ (Wrote <$> (if compress
                                then [screenshot_path stamp; compressed_path stamp]
                                else [screenshot_path stamp])) ->
    exists written,
      effects s0 = effects (ready compress s) ++ (Wrote <$> written)
      /\ written `prefix_of` [screenshot_path stamp; compressed_path stamp]
      /\ ((exists data',
             "base64," +:+ data = "base64," +:+ data'
             /\ written = (if compress
                           then [screenshot_path stamp; compressed_path stamp]
                           else [screenshot_path stamp])
             /\ Client.tool_output_messages call_id ["base64," +:+ data]
                = [Client.FunctionCallOutput call_id
                     "Image passed in the next message as an input_image";
                   Client.UserImage
                     ("Image returned by function with call id " +:+ call_id)
                     ("data:image/png;base64," +:+ data')])
          \/ (exists e,
                "base64," +:+ data = error_text e
                /\ Client.tool_output_messages call_id ["base64," +:+ data]
                   = [Client.FunctionCallOutput call_id ("base64," +:+ data)]))).
  { intros data s0 Heff. eexists. split; [exact Heff|]. split.
    { destruct compress; [done|]. by exists [compressed_path stamp]. }
    left. exists data. do 2 (split; [done|]).
    unfold Client.tool_output_messages. by rewrite image_text_is_image. }
  unfold or_error.
  destruct (match driver_ (ready compress s) with
            | Some d => get_screenshot_as_base64 d
            | None => _
            end) as [picture|e].
  2: { intros [= <- <-]. do 2 (split; [done|]).
       apply (Hnone e _ []); [by rewrite app_nil_r|apply prefix_nil]. }
  destruct (makedirs screenshots_dir) as [[]|e].
  2: { intros [= <- <-]. do 2 (split; [done|]).
       apply (Hnone e _ []); [by rewrite app_nil_r|apply prefix_nil]. }
  destruct (b64decode picture) as [image_data|e].
  2: { intros [= <- <-]. do 2 (split; [done|]).
       apply (Hnone e _ []); [by rewrite app_nil_r|apply prefix_nil]. }
  destruct (write_file (screenshot_path stamp) image_data) as [[]|e].
  2: { intros [= <- <-]. do 2 (split; [done|]).
       apply (Hnone e _ []); [by rewrite app_nil_r|apply prefix_nil]. }
  destruct compress.
  2: { intros [= <- <-]. do 2 (split; [done|]). by apply Himage. }
  destruct (compress_base64_image picture) as [small|e].
  2: { intros [= <- <-]. do 2 (split; [done|]).
       apply (Hnone e _ [screenshot_path stamp]);
         [done|by exists [compressed_path stamp]]. }
  destruct (b64decode small) as [small_data|e].
  2: { intros [= <- <-]. do 2 (split; [done|]).
       apply (Hnone e _ [screenshot_path stamp]);
         [done|by exists [compressed_path stamp]]. }
  destruct (write_file (compressed_path stamp) small_data) as [[]|e].
  2: { intros [= <- <-]. do 2 (split; [done|]).
       apply (Hnone e _ [screenshot_path stamp]);
         [done|by exists [compressed_path stamp]]. }
  intros [= <- <-]. do 2 (split; [done|]).
  apply Himage. cbn. by rewrite <- app_assoc.
Qed.

End ScreenshotFacts.

Section ScreenshotWitness.
Import Py Dom Server Screenshots Examples.

(** A compressed screenshot of the sample session. *)
Lemma screenshot_is_image_iff_taken_witness :
  exists s',
    @take_screenshot_as_base64 _ sample_webdriver sample_camera "20250101_120000"
      true (browsing sample_session)
    = (s', Returned "base64,iVBORw==")
    /\ effects s'
       = [Wrote "/srv/screenshots/screenshot_20250101_120000.png";
          Wrote "/srv/screenshots/screenshot_20250101_120000_compressed.png"]
    /\ Client.tool_output_messages "call_1" ["base64,iVBORw=="]
       = [Client.FunctionCallOutput "call_1"
            "Image passed in the next message as an input_image";
          Client.UserImage "Image returned by function with call id call_1"
            "data:image/png;base64,iVBORw=="].
Proof.
  eexists. split; [reflexivity|].
  destruct (@screenshot_is_image_iff_taken _ sample_webdriver sample_camera
              "20250101_120000" true (browsing sample_session) _
              (Returned "base64,iVBORw==") "call_1" eq_refl)
    as (_ & _ & written & Heff & _ & [(data & Hr & -> & Hm)|(e & Hr & _)]).
  - split; [exact Heff|].
    assert (data = "iVBORw==") as ->; [|exact Hm].
    change ("base64," +:+ data)
      with (String "b" (String "a" (String "s" (String "e" (String "6"
             (String "4" (String "," data))))))) in Hr.
    by injection Hr.
  - discriminate Hr.
Defined.

End ScreenshotWitness.

(** * The tool list *)

Section ToolSchemaFacts.
Import Py ToolSchemas.

Lemma dict_get_filter_ne (k k' : string) (d : dict) :
  k <> k' -> dict_get k (filter (fun kv => kv.1 <> k') d) = dict_get k d.
Proof.
  intros Hne. induction d as [|[k0 v] d IH]; [done|].
  rewrite filter_cons. simpl.
  destruct (decide (k0 <> k')) as [Hk0|Hk0]; simpl.
  - destruct (decide (k = k0)); [done|apply IH].
  - apply dec_stable in Hk0. subst k0. by rewrite decide_False.
Qed.

Lemma dict_get_filter_eq (k : string) (d : dict) :
  dict_get k (filter (fun kv => kv.1 <> k) d) = None.
Proof.
  induction d as [|[k0 v] d IH]; [done|].
  rewrite filter_cons. simpl.
  destruct (decide (k0 <> k)) as [Hk0|Hk0]; simpl; [|done].
  by rewrite decide_False.
Qed.

Lemma dict_del_untitled (d d' : dict) :
  dict_del "title" d = Some d' -> untitled d d'.
Proof.
  unfold dict_del, untitled.
  destruct (dict_get "title" d) eqn:Hget; [|done]. intros [= <-].
  split; [done|]. split; [apply dict_get_filter_eq|].
  intros k Hk. by apply dict_get_filter_ne.
Qed.

Lemma strip_properties_untitled (props : dict) :
  forall props',
    strip_properties props = Returned props' ->
    Forall2 (fun kv kv' =>
               kv'.1 = kv.1
               /\ exists d d', kv.2 = PyDict d /\ kv'.2 = PyDict d' /\ untitled d d')
      props props'.
Proof.
  induction props as [|[p v] props IH]; simpl; intros props' Hprops.
  - injection Hprops as <-. constructor.
  - destruct v as [| | | | | |d]; try done. simpl in Hprops.
    destruct (dict_del "title" d) as [d'|] eqn:Hdel; [|done].
    destruct (strip_properties props) as [rest'|]; [|done].
    injection Hprops as <-. constructor; [|by apply IH].
    split; [done|]. exists d, d'. by split; [|split; [|apply dict_del_untitled]].
Qed.

Lemma strip_properties_unfit (props : dict) (p : string) (v : pyval) :
  (p, v) ∈ props ->
  (forall d, v = PyDict d -> dict_get "title" d = None) ->
  exists e, strip_properties props = Raised e.
Proof.
  intros Hin Hv. induction props as [|[p0 v0] props IH]; [by apply elem_of_nil in Hin|].
  simpl. destruct (strip_property v0) as [v0'|e] eqn:Hv0; [|by exists e].
  apply elem_of_cons in Hin as [[= <- <-]|Hin].
  - destruct v as [| | | | | |d]; try done. simpl in Hv0.
    unfold dict_del in Hv0. by rewrite (Hv d eq_refl) in Hv0.
  - destruct (IH Hin) as [e ->]. by exists e.
Qed.

Lemma process_schema_unfit (schema : dict) :
  unfit schema -> exists e, process_schema schema = Raised e.
Proof.
  unfold process_schema, dict_del.
  destruct (dict_get "title" schema) as [title|] eqn:Htitle;
    [|by intros _; eexists].
  rewrite dict_get_filter_ne by done.
  intros [Hno|[Hno|(props & p & v & Hprops & Hin & Hv)]]; [congruence| |].
  - rewrite Hno. by eexists.
  - rewrite Hprops.
    destruct (strip_properties_unfit props p v Hin Hv) as [e ->]. by exists e.
Qed.

Lemma process_schema_untitled (schema params : dict) :
  process_schema schema = Returned params ->
  dict_get "title" schema <> None
  /\ dict_get "title" params = None
  /\ (forall k, k <> "title" -> k <> "properties" ->
        dict_get k params = dict_get k schema)
  /\ match dict_get "properties" schema, dict_get "properties" params with
     | Some (PyDict props), Some (PyDict props') =>
         Forall2 (fun kv kv' =>
                    kv'.1 = kv.1
                    /\ exists d d',
                         kv.2 = PyDict d /\ kv'.2 = PyDict d' /\ untitled d d')
           props props'
     | Some v, Some v' => v' = v
     | _, _ => False
     end.
Proof.
  unfold process_schema.
  destruct (dict_del "title" schema) as [p0|] eqn:Hdel; [|done].
  apply dict_del_untitled in Hdel as (Htitle & Hnone & Hkeep).
  rewrite <- (Hkeep "properties") by done.
  destruct (dict_get "properties" p0) as [v|] eqn:Hprops; [|done].
  assert (Hsame : Returned p0 = Returned params ->
          dict_get "title" schema <> None
          /\ dict_get "title" params = None
          /\ (forall k, k <> "title" -> k <> "properties" ->
                dict_get k params = dict_get k schema)
          /\ dict_get "properties" params = Some v).
  { intros [= <-]. split; [done|]. split; [done|].
    split; [by intros k Hk _; apply Hkeep|done]. }
  destruct v as [| | |s|l|l|props];
    try (destruct (iterate _) as [[|??]|]; try done;
         intros (? & ? & ? & ->)%Hsame; by repeat split).
  destruct (strip_properties props) as [props'|] eqn:Hstrip; [|done].
  intros [= <-]. split; [done|].
  rewrite dict_get_set_ne by done. split; [done|].
  split; [by intros k Hk Hk'; rewrite dict_get_set_ne; [apply Hkeep|]|].
  rewrite dict_get_set. by apply strip_properties_untitled.
Qed.

(** X22.  [get_mcp_tools] gives either one entry per tool, in the order
    of the server, or an exception and no list at all.  In an entry the
    schema has lost its title, each of its properties has lost its title,
    and every other key of the schema and of each property is as the server
    sent it.  A single tool whose schema has no title or no properties, or
    has a property that is no dict with a title (a server that is not built
    with FastMCP sends such schemas), makes the whole call raise, whatever
    the other tools are. *)
Theorem get_mcp_tools_removes_titles (tools : list tool) :
  (forall out,
     get_mcp_tools tools = Returned out ->
     Forall2 (fun t entry =>
                exists params,
                  entry = processed_tool t params
                  /\ dict_get "title" (inputSchema t) <> None
                  /\ dict_get "title" params = None
                  /\ (forall k, k <> "title" -> k <> "properties" ->
                        dict_get k params = dict_get k (inputSchema t))
                  /\ match dict_get "properties" (inputSchema t),
                           dict_get "properties" params with
                     | Some (PyDict props), Some (PyDict props') =>
                         Forall2 (fun kv kv' =>
                                    kv'.1 = kv.1
                                    /\ exists d d',
                                         kv.2 = PyDict d /\ kv'.2 = PyDict d'
                                         /\ untitled d d')
                           props props'
                     | Some v, Some v' => v' = v
                     | _, _ => False
                     end)
       tools out)
  /\ (forall t, t ∈ tools -> unfit (inputSchema t) ->
        exists e, get_mcp_tools tools = Raised e).
Proof.
  split.
  - induction tools as [|t tools IH]; simpl; intros out Hout.
    + injection Hout as <-. constructor.
    + destruct (process_schema (inputSchema t)) as [params|] eqn:Hparams; [|done].
      destruct (get_mcp_tools tools) as [rest|]; [|done].
      injection Hout as <-. constructor; [|by apply IH].
      exists params. split; [done|]. by apply process_schema_untitled.
  - intros t Hin Hunfit.
    induction tools as [|t0 tools IH]; [by apply elem_of_nil in Hin|].
    simpl. destruct (process_schema (inputSchema t0)) as [params|e] eqn:Hparams;
      [|by exists e].
    apply elem_of_cons in Hin as [->|Hin].
    + destruct (process_schema_unfit _ Hunfit) as [e He]. congruence.
    + destruct (IH Hin) as [e ->]. by exists e.
Qed.

(** The tool of the server with a tool that has no titles after it: no
    list, although the first tool alone is processed. *)
Lemma get_mcp_tools_removes_titles_witness :
  (exists e, get_mcp_tools [go_to_tool; plain_tool] = Raised e)
  /\ get_mcp_tools [go_to_tool]
     = Returned
         [[("type", PyStr "function"); ("name", PyStr "go_to");
           ("description", PyStr "Navigate to a URL.");
           ("parameters",
            PyDict [("properties", PyDict [("url", PyDict [("type", PyStr "string")])]);
                    ("required", PyList [PyStr "url"]);
                    ("type", PyStr "object")])]].
Proof.
  split; [|reflexivity].
  apply (proj2 (get_mcp_tools_removes_titles [go_to_tool; plain_tool]) plain_tool).
  - apply elem_of_cons. right. apply elem_of_cons. by left.
  - by left.
Defined.

End ToolSchemaFacts.

(** * The page as HTML *)

Section HtmlFacts.
Import Py Dom Server Html.
Context {driver : Type} `{WebDriver driver}.
Variable parse : string -> list node.

(** X23.  [get_element_html] changes the server as the attribute lookup
    it starts with does, raises what that lookup raises (the start of the
    browser can), and otherwise trims what the lookup returned, be it the
    HTML of the element or the text of an error.  With depth 0 the result
    is empty whatever was returned, so an error of the lookup is lost.
    With a negative depth nothing is trimmed, and with [prettify] on the
    result is then the method [soup.prettify], not a text.  With depth 1,
    the default, an element comes back as its opening and closing tag with
    its attributes and nothing inside.  A text without markup, such as
    the message for a strategy that is not supported, comes back as it is
    for every depth above 0. *)
Theorem get_element_html_depths (locator : string) (depth : Z) (by_ : string)
    (outer prettify : bool) (s : server driver) :
  let (s1, got) :=
    get_element_attribute locator (if outer then "outerHTML" else "innerHTML")
      by_ s in
  let (s', out) := get_element_html parse locator depth by_ outer prettify s in
  s' = s1
  /\ match got with
     | Raised e => out = Raised e
     | Returned html =>
         exists r,
           out = Returned r
           /\ (by_ ∉ BY_OPTIONS -> html = invalid_by by_)
           /\ (depth = 0%Z -> r = Pieces [])
           /\ ((depth < 0)%Z ->
               r = if prettify then PrettifyMethod (parse html)
                   else StrSoup (parse html))
           /\ (depth = 1%Z ->
               forall name a children,
                 parse html = [Tag name a children] ->
                 r = Pieces [if prettify then Prettify (Tag name a [])
                             else Str (Tag name a [])])
           /\ ((0 < depth)%Z ->
               forall text,
                 text <> "" -> parse html = [NavigableString text] ->
                 r = Pieces [Str (NavigableString text)])
     end.
Proof.
  unfold get_element_html.
  destruct (get_element_attribute locator _ by_ s) as [s1 [html|e]] eqn:Hattr;
    [|done].
  split; [done|]. eexists. split; [reflexivity|]. split.
  { intros Hby. unfold get_element_attribute, started in Hattr.
    destruct (_ensure_browser_started s) as [s0 [e|]]; [done|].
    rewrite decide_True in Hattr by done. by injection Hattr as _ <-. }
  split; [|split; [|split]].
  - intros ->. cbn [Z.leb Z.compare]. unfold extract_html_to_depth. f_equal.
    induction (parse html) as [|child soup IH]; [done|].
    cbn [omap list_omap]. by destruct child.
  - intros Hneg. by destruct (Z.leb_spec 0 depth); [lia|].
  - intros -> name a children ->. cbn. by destruct prettify.
  - intros Hpos text Htext ->. destruct (Z.leb_spec 0 depth); [|lia].
    unfold extract_html_to_depth. cbn [omap list_omap trim_html_tag_to_depth].
    destruct (Z.leb_spec depth 0); [lia|]. cbn [is_true].
    destruct (String.eqb_spec text ""); [done|]. cbn.
    by rewrite andb_false_r.
Qed.

End HtmlFacts.

Section HtmlWitness.
Import Py Dom Server Html Examples.

(** The page at the default depth, and a lookup with a strategy that is
    not supported at depth 0. *)
Lemma get_element_html_depths_witness :
  (@get_html _ sample_webdriver (fun _ => sample_page) 1 (browsing sample_session)).2
  = Returned (Pieces [Str (Tag "html" [] [])])
  /\ (@get_element_html _ sample_webdriver sample_parse "#ok" 0 "css" true false
        (browsing sample_session)).2
     = Returned (Pieces []).
Proof.
  pose proof (@get_element_html_depths _ sample_webdriver (fun _ => sample_page)
                "html" 1 "css selector" true false (browsing sample_session))
    as Hpage.
  pose proof (@get_element_html_depths _ sample_webdriver sample_parse
                "#ok" 0 "css" true false (browsing sample_session))
    as Hlost.
  vm_compute in Hpage, Hlost.
  destruct Hpage as (_ & r & Hout & _ & _ & _ & Hone & _).
  destruct Hlost as (_ & r0 & Hout0 & _ & Hzero & _).
  split.
  - transitivity (Returned r); [vm_compute; exact Hout|].
    f_equal. exact (Hone eq_refl _ _ _ eq_refl).
  - transitivity (Returned r0); [vm_compute; exact Hout0|].
    f_equal. exact (Hzero eq_refl).
Defined.

End HtmlWitness.

(** * The tools the server offers *)

Section RegistryFacts.
Import Py Registry.

Lemma all_tools_NoDup : NoDup (main_tools ++ advanced_tools).
Proof. apply (bool_decide_unpack _). vm_compute. exact I. Qed.

Lemma enable_times_enabled (n : nat) (r : registry) :
  advanced_tools_enabled r = true ->
  enable_times n r = (r, replicate n "Advanced tools already enabled").
Proof.
  intros Hon. induction n as [|n IH]; [done|].
  cbn [enable_times]. unfold enable_advanced_tools. rewrite Hon.
  by rewrite IH.
Qed.

(** X24.  However often [enable_advanced_tools] is called, the advanced
    tools are registered once: the first call registers them after the
    main tools and says so, every later call changes nothing and answers
    that they are enabled already, and no tool is ever registered twice.
    The same holds when the server was started with the advanced tools:
    then every call is answered that way.  A transport that [run] does not
    know raises, but only after the tools are registered and the undetected
    switch is set. *)
Theorem enable_advanced_tools_once (n : nat) (transport : string)
    (undetected_bot : bool) :
  enable_times (S n) init
  = ({| registered := main_tools ++ advanced_tools;
        advanced_tools_enabled := true;
        undetected := false |},
     "Advanced tools enabled" :: replicate n "Advanced tools already enabled")
  /\ NoDup (registered (enable_times n init).1)
  /\ (let started := (run transport true undetected_bot init).1 in
      started = {| registered := main_tools ++ advanced_tools;
                   advanced_tools_enabled := true;
                   undetected := undetected_bot |}
      /\ enable_times n started
         = (started, replicate n "Advanced tools already enabled"))
  /\ (transport <> "stdio" -> transport <> "sse" ->
      (run transport true undetected_bot init).2
      = Raised (ValueError ("Unknown transport: " +:+ transport))).
Proof.
  split; [|split; [|split]].
  - change (enable_times (S n) init)
      with (let (r, texts) :=
              enable_times n {| registered := main_tools ++ advanced_tools;
                                advanced_tools_enabled := true;
                                undetected := false |} in
            (r, "Advanced tools enabled" :: texts)).
    by rewrite enable_times_enabled.
  - destruct n as [|n]; [apply (bool_decide_unpack _); vm_compute; exact I|].
    change (enable_times (S n) init)
      with (let (r, texts) :=
              enable_times n {| registered := main_tools ++ advanced_tools;
                                advanced_tools_enabled := true;
                                undetected := false |} in
            (r, "Advanced tools enabled" :: texts)).
    rewrite enable_times_enabled by done. apply all_tools_NoDup.
  - cbn zeta.
    assert ((run transport true undetected_bot init).1
            = {| registered := main_tools ++ advanced_tools;
                 advanced_tools_enabled := true;
                 undetected := undetected_bot |}) as ->.
    { unfold run. by repeat destruct (decide _). }
    split; [done|]. by apply enable_times_enabled.
  - intros Hstdio Hsse. unfold run. by rewrite !decide_False.
Qed.

End RegistryFacts.

(** * The one-round client *)

Section SimpleClientFacts.
Import Py SimpleClient.
Context {world : Type} `{Endpoint world}.

Lemma model_calls_dispatch (events : list event) (c : tool_call) :
  length (filter (fun e => is_model_call e = true) (events ++ [dispatch c]))
  = length (filter (fun e => is_model_call e = true) events).
Proof.
  rewrite filter_app, length_app, filter_cons_False by done. cbn. lia.
Qed.

Lemma model_calls_model (events : list event) choice messages :
  length (filter (fun e => is_model_call e = true)
            (events ++ [ModelCall choice messages]))
  = S (length (filter (fun e => is_model_call e = true) events)).
Proof.
  rewrite filter_app, length_app, filter_cons_True by done. cbn. lia.
Qed.

Lemma model_calls_one choice messages :
  length (filter (fun e => is_model_call e = true) [ModelCall choice messages]) = 1.
Proof. by rewrite filter_cons_True. Qed.

Lemma call_tools_shape (calls : list tool_call) :
  forall messages w events w' events' out,
    call_tools calls messages w events = (w', events', out) ->
    length (filter (fun e => is_model_call e = true) events')
    = length (filter (fun e => is_model_call e = true) events)
    /\ forall messages',
         out = Returned messages' ->
         exists results,
           messages' = messages ++ results
           /\ omap result_id results = id <$> calls
           /\ length results = length calls
           /\ events' = events ++ (dispatch <$> calls).
Proof.
  induction calls as [|c calls IH]; intros messages w events w' events' out;
    cbn [call_tools].
  - intros [= <- <- <-]. split; [done|]. intros messages' [= <-].
    exists []. by rewrite !app_nil_r.
  - destruct (call_tool _ _ w) as [w1 [texts|e]].
    + intros Hrest. apply IH in Hrest as [Hcount Hrest]. split.
      { by rewrite Hcount, model_calls_dispatch. }
      intros messages' Hout. destruct (Hrest _ Hout) as (results & -> & Hids & Hlen & ->).
      exists (ToolResult (id c) texts :: results).
      rewrite <- !app_assoc. cbn. by rewrite Hids, Hlen.
    + intros [= <- <- <-]. split; [|done]. apply model_calls_dispatch.
Qed.

(** X25.  [SimpleMCPOpenAIClient.process_query] calls the model at most
    twice, whatever the model and the tools do.  When it returns, the
    tools were listed, the model was asked the query with these tools, and
    the conversation returned starts with the query and the reply of the
    model to it.  If that reply asks for no tool, the conversation ends
    there and the answer is the text of that reply.  If it asks for tools,
    each is called once, in order, and answered by one tool turn with the
    id of the call; the model is then called a second time on the whole
    conversation with the choice of tools switched off, the answer is the
    text of the reply to that second call, and nothing is called after it:
    tool calls in the second reply are never carried out. *)
Theorem simple_process_query_shape (query : string) (w : world) :
  let '(w', events, out) := process_query query w in
  length (filter (fun e => is_model_call e = true) events) <= 2
  /\ forall answer messages,
       out = Returned (answer, messages) ->
       exists w0 tools w1 first,
         get_mcp_tools w = (w0, Returned tools)
         /\ create [User query] tools auto w0 = (w1, Returned first)
         /\ match tool_calls first with
            | [] =>
                messages = [User query; Reply first]
                /\ answer = content first
                /\ events = [ModelCall auto [User query]]
                /\ w' = w1
            | calls =>
                exists results w2 final,
                  call_tools calls [User query; Reply first] w1
                    [ModelCall auto [User query]]
                  = (w2, [ModelCall auto [User query]] ++ (dispatch <$> calls),
                     Returned ([User query; Reply first] ++ results))
                  /\ create ([User query; Reply first] ++ results) tools none w2
                     = (w', Returned final)
                  /\ messages = [User query; Reply first] ++ results ++ [Reply final]
                  /\ answer = content final
                  /\ omap result_id results = id <$> calls
                  /\ length results = length calls
                  /\ events
                     = [ModelCall auto [User query]] ++ (dispatch <$> calls)
                       ++ [ModelCall none ([User query; Reply first] ++ results)]
            end.
Proof.
  unfold process_query.
  destruct (get_mcp_tools w) as [w0 [tools|e]] eqn:Htools_listed;
    [|split; [cbn; lia|done]].
  destruct (create [User query] tools auto w0) as [w1 [first|e]] eqn:Hfirst;
    [|split; [rewrite model_calls_one; lia|done]].
  destruct (tool_calls first) as [|c calls] eqn:Hcalls.
  { split; [rewrite model_calls_one; lia|]. intros answer messages [= <- <-].
    exists w0, tools, w1, first. by rewrite Hcalls. }
  destruct (call_tools (c :: calls) _ w1 _) as [[w2 events] [messages|e]] eqn:Htools;
    pose proof Htools as Hrun;
    apply call_tools_shape in Htools as [Hcount Hshape].
  all: rewrite model_calls_one in Hcount.
  2: { split; [lia|done]. }
  destruct (Hshape _ eq_refl) as (results & -> & Hids & Hlen & ->).
  destruct (create _ tools none w2) as [w3 [final|e]] eqn:Hfinal.
  - split.
    { rewrite model_calls_model, Hcount. lia. }
    intros answer messages [= <- <-]. exists w0, tools, w1, first.
    rewrite Hcalls. do 2 (split; [done|]).
    exists results, w2, final. by rewrite <- !app_assoc.
  - split; [|done]. rewrite model_calls_model, Hcount. lia.
Qed.

End SimpleClientFacts.

Section SimpleClientExample.
Import Py SimpleClient.

(** With a model that always asks for tools, the tools of the first reply
    are called and those of the second are not. *)
Example eager_second_reply_is_not_carried_out :
  (@process_query _ eager "open the page" tt).1.2
  = [ModelCall auto [User "open the page"];
     ToolCall "go_to" "{}"; ToolCall "click" "{}";
     ModelCall none
       [User "open the page";
        Reply {| content := Some "on it";
                 tool_calls := [{| id := "a"; function_name := "go_to";
                                   function_arguments := "{}" |};
                                {| id := "b"; function_name := "click";
                                   function_arguments := "{}" |}] |};
        ToolResult "a" ["go_to"]; ToolResult "b" ["click"]]].
Proof. reflexivity. Qed.

End SimpleClientExample.

(** * Passwords in recordings *)

Section Passwords.
Import Py Dom Server.
Context {driver : Type} `{WebDriver driver} `{Show}.



End Passwords.

(** * Waiting for the page *)

Section WaitFacts.
Import Py Dom Server Waits.
Context {driver : Type} `{WebDriver driver} `{Waiter driver}.

Lemma ensure_started_with_timeout (seconds : Z) (s : server driver) :
  _ensure_browser_started (set_timeout_field seconds s)
  = (set_timeout_field seconds (_ensure_browser_started s).1,
     (_ensure_browser_started s).2).
Proof.
  unfold _ensure_browser_started, start_browser.
  destruct s as [b [d|] u t a q l rd r e]; cbn; [done|].
  destruct (decide _); [|done].
  destruct (launch _ _) as [d|e']; [|done]. by destruct (maximize_window d).
Qed.

(** X27.  The time the two waits wait is the [timeout] argument whenever
    it is not 0, and the timeout of the server only when it is 0.  So with
    the default [-1] the wait is made with [-1], and the timeout chosen with
    [set_timeout] has no part in it: the outcome is the same whatever that
    timeout is.  The strategy is not checked by [wait_for_element], and
    without a session (a browser type that cannot be started) both waits
    raise instead of answering, as they do when the start of the browser
    raises. *)
Theorem wait_uses_its_own_timeout (locator by_ text : string) (timeout_ : Z)
    (s : server driver) :
  (forall d,
     driver_ (_ensure_browser_started s).1 = Some d ->
     (wait_for_element locator by_ timeout_ s).2
     = match (_ensure_browser_started s).2 with
       | Some e => Raised e
       | None =>
           (until_present (if (timeout_ =? 0)%Z then timeout s else timeout_)
              by_ locator d).2
       end
     /\ (wait_for_text text timeout_ s).2
        = match (_ensure_browser_started s).2 with
          | Some e => Raised e
          | None =>
              (until_text (if (timeout_ =? 0)%Z then timeout s else timeout_)
                 text d).2
          end)
  /\ (timeout_ <> 0%Z ->
      forall seconds,
        (wait_for_element locator by_ timeout_ (set_timeout_field seconds s)).2
        = (wait_for_element locator by_ timeout_ s).2
        /\ (wait_for_text text timeout_ (set_timeout_field seconds s)).2
           = (wait_for_text text timeout_ s).2)
  /\ (driver_ s = None -> browser s ∉ BROWSER_OPTIONS ->
      (wait_for_element locator by_ timeout_ s).2
      = Raised (AttributeError (none_msg "find_element"))
      /\ (wait_for_text text timeout_ s).2
         = Raised (AttributeError (none_msg "find_element"))).
Proof.
  assert (Htimeout : forall t : server driver,
            timeout (_ensure_browser_started t).1 = timeout t).
  { intros t. by destruct (ensure_started_same_settings t) as (_ & _ & -> & _). }
  assert (Hdriver : forall a (t : server driver),
            driver_ (_ensure_browser_started (set_last_action a t)).1
            = driver_ (_ensure_browser_started t).1).
  { intros a t. unfold _ensure_browser_started, start_browser.
    destruct t as [b [d|] u t a' q l r e]; cbn; [done|].
    destruct (decide _); [|done].
    destruct (launch _ _) as [d|e']; [|done]. by destruct (maximize_window d). }
  split; [|split].
  - intros d Hd.
    unfold wait_for_element, wait_for_text, started, effective_timeout, wait.
    cbn zeta. rewrite !ensure_started_remember.
    destruct ((_ensure_browser_started s).2); [done|].
    unfold _remember_action. cbn [driver_ timeout set_last_action].
    rewrite Htimeout, Hd.
    split.
    + by destruct (until_present _ by_ locator d).
    + by destruct (until_text _ text d).
  - intros Hne seconds.
    unfold wait_for_element, wait_for_text, started, effective_timeout, wait.
    cbn zeta. rewrite !ensure_started_remember, ensure_started_with_timeout.
    destruct (Z.eqb_spec timeout_ 0); [done|].
    destruct (_ensure_browser_started s) as [s1 [e|]]; cbn [fst snd]; [done|].
    unfold _remember_action. cbn [driver_ set_last_action set_timeout_field].
    destruct (driver_ s1) as [d|]; [|done].
    split.
    + by destruct (until_present timeout_ by_ locator d).
    + by destruct (until_text timeout_ text d).
  - intros Hnone Hbrowser.
    unfold wait_for_element, wait_for_text, started, wait. cbn zeta.
    rewrite !ensure_started_remember.
    assert (_ensure_browser_started s = (s, None)) as ->.
    { unfold _ensure_browser_started, start_browser. rewrite Hnone.
      by rewrite decide_False. }
    unfold _remember_action. cbn [fst snd driver_ set_last_action].
    by rewrite Hnone.
Qed.

End WaitFacts.

Section WaitWitness.
Import Py Dom Server Waits Examples.

(** With the timeout of the server at ten seconds, the default wait does
    not find what a wait of ten seconds would. *)
Lemma wait_uses_its_own_timeout_witness :
  (@wait_for_element _ sample_webdriver sample_waiter "#ok" "css selector" (-1)
     (browsing sample_session)).2
  = Returned false
  /\ (@wait_for_element _ sample_webdriver sample_waiter "#ok" "css selector" 0
        (browsing sample_session)).2
     = Returned true.
Proof.
  split.
  - exact (proj1 (proj1 (@wait_uses_its_own_timeout _ sample_webdriver
                           sample_waiter "#ok" "css selector" "" (-1)
                           (browsing sample_session))
                    sample_session eq_refl)).
  - exact (proj1 (proj1 (@wait_uses_its_own_timeout _ sample_webdriver
                           sample_waiter "#ok" "css selector" "" 0
                           (browsing sample_session))
                    sample_session eq_refl)).
Defined.

End WaitWitness.

(** * Starting the server script *)

Section ConnectionFacts.
Import Py Connection.

Lemma endswith_spec (s suffix : string) :
  endswith s suffix = true <-> exists stem, s = stem +:+ suffix.
Proof.
  induction s as [|c s IH]; cbn [endswith].
  - rewrite orb_false_r. split.
    + intros ->%String.eqb_eq. by exists "".
    + intros [[|c stem] Hs]; [|done]. apply String.eqb_eq. exact Hs.
  - rewrite orb_true_iff, IH, String.eqb_eq. split.
    + intros [->|[stem ->]]; [by exists ""|by exists (String c stem)].
    + intros [[|c' stem] Hs]; [by left|].
      right. exists stem. by injection Hs.
Qed.

(** X28.  The server script is started only for a path that ends in .py
    or .js, with python for the first and node otherwise, and with the path
    followed by the script arguments; any other path raises a [ValueError]
    before anything is started.  A call that hands the script arguments
    over one by one can hand over one at most: so [main], which does that,
    starts the server with no flag or with one, and with both flags,
    advanced tools and undetected bot, it ends in a [TypeError] before the
    server is started. *)
Theorem connect_to_server_parameters (path : string) (rest : list string) :
  (forall params,
     connect_positional path rest = Returned params <->
     length rest <= 1
     /\ ((exists stem, path = stem +:+ ".py") \/ (exists stem, path = stem +:+ ".js"))
     /\ params = {| command := if endswith path ".py" then "python" else "node";
                    args := path :: rest |})
  /\ (forall advanced_tools undetected_bot,
        main advanced_tools undetected_bot
        = if advanced_tools && undetected_bot
          then Raised (TypeError
                 ("MCPOpenAIClient.connect_to_server() takes from 1 to 3 "
                  +:+ "positional arguments but 4 were given"))
          else Returned
                 {| command := "python";
                    args := "server.py"
                            :: (if advanced_tools then ["--advanced-tools"] else [])
                            ++ (if undetected_bot then ["--undetected-bot"] else []) |}).
Proof.
  split; [|by intros [] []].
  intros params.
  rewrite <- !endswith_spec.
  unfold connect_positional, server_parameters.
  destruct rest as [|a [|b rest]]; cbn [length];
    destruct (endswith path ".py"), (endswith path ".js"); cbn;
    split;
    try (intros [= <-]; split; [lia|]; split; [by auto|done]);
    try (intros (_ & _ & ->); done);
    try (intros (? & _); lia);
    try done;
    intros (_ & [?|?] & _); done.
Qed.

End ConnectionFacts.

Section ConnectionWitness.
Import Py Connection.

(** The server of the repository with one flag. *)
Lemma connect_to_server_parameters_witness :
  connect_positional "server.py" ["--undetected-bot"]
  = Returned {| command := "python"; args := ["server.py"; "--undetected-bot"] |}.
Proof.
  apply (proj1 (connect_to_server_parameters "server.py" ["--undetected-bot"])).
  split; [cbn; lia|]. split; [|reflexivity]. left. by exists "server".
Defined.

End ConnectionWitness.

(** * A server for a browser type that is not supported *)

Section UnstartedFacts.
Import Py Dom Server Unstarted.
Context {driver : Type} `{WebDriver driver}.

Lemma run_without_session (c : call) (s : server driver) :
  driver_ s = None ->
  browser s ∉ BROWSER_OPTIONS ->
  keeps_type c ->
  driver_ (run_call c s).1 = None
  /\ browser (run_call c s).1 = browser s
  /\ (exists added,
        effects (run_call c s).1 = effects s ++ added
        /\ Forall (fun e => e = RandomSleep) added)
  /\ without_session c (run_call c s).2.
Proof.
  destruct s as [b [d|] u t a q l rd r e]; cbn [driver_ browser]; [done|].
  intros _ Hb Hc.
  destruct c as [op|b'].
  - clear Hc.
    destruct op;
      unfold run_call, run, go_to, back, forward, set_timeout, click, type_text,
        clear_text, get_element_text, get_element_attribute, find_elements,
        count_elements, element_exists, started, returned, attempt, call_driver,
        _wait_if_undetected, _ensure_browser_started, start_browser,
        _remember_action, without_session;
      cbn; rewrite ?(decide_False (P := b ∈ BROWSER_OPTIONS)) by done;
      destruct u; cbn; repeat case_decide; try (exfalso; tauto); cbn;
      (split; [done|]); (split; [done|]);
      (split;
       [first [ by exists []; rewrite app_nil_r
              | by exists [RandomSleep]; split; [|repeat constructor] ]
       |]);
      try done; try (by eexists);
      eexists; (split; [done|]);
      first [ by exists "clicking element" | by exists "typing text"
            | by exists "clearing text" | by exists "getting text"
            | by exists "getting attribute" ].
  - cbn in Hc. unfold run_call, change_browser, without_session.
    rewrite decide_False by done. cbn.
    do 2 (split; [done|]). split; [|done]. exists []. by rewrite app_nil_r.
Qed.

(** X29.  The constructor takes any browser type.  With one that is not
    supported and no session, no sequence of calls of the twelve
    operations and of [change_browser] starts a browser, as long as
    [change_browser] is not asked for a supported type: the server stays
    without a session and with its type, and all it does to the outside is
    sleep.  Every call then fails in its own way: the navigation raises an
    [AttributeError], and so does [element_exists]; the element operations
    answer with the text of an error; [count_elements] answers 0, as for a
    page where nothing matches.  ([change_browser] with a supported type
    ends this: the next operation starts that browser.) *)
Theorem no_session_without_supported_browser (calls : list call)
    (s : server driver) :
  driver_ s = None ->
  browser s ∉ BROWSER_OPTIONS ->
  Forall keeps_type calls ->
  driver_ (run_all calls s).1 = None
  /\ browser (run_all calls s).1 = browser s
  /\ (exists added,
        effects (run_all calls s).1 = effects s ++ added
        /\ Forall (fun e => e = RandomSleep) added)
  /\ Forall2 without_session calls (run_all calls s).2.
Proof.
  intros Hd Hb Hcalls. revert s Hd Hb.
  induction Hcalls as [|c calls Hc _ IH]; intros s Hd Hb; cbn [run_all].
  - split; [done|]. split; [done|].
    split; [by exists []; rewrite app_nil_r|constructor].
  - destruct (run_without_session c s Hd Hb Hc)
      as (Hd1 & Hb1 & (added1 & He1 & Hsleep1) & Hr).
    destruct (run_call c s) as [s1 r]. cbn [fst snd] in *.
    rewrite <- Hb1 in Hb.
    destruct (IH s1 Hd1 Hb) as (Hd2 & Hb2 & (added2 & He2 & Hsleep2) & Hrs).
    destruct (run_all calls s1) as [s2 rs]. cbn [fst snd] in *.
    split; [done|]. split; [congruence|]. split; [|by constructor].
    exists (added1 ++ added2). rewrite He2, He1, app_assoc. split; [done|].
    by apply Forall_app.
Qed.

End UnstartedFacts.

Section UnstartedWitness.
Import Py Dom Server Unstarted Examples.

(** A server made for a browser that is not supported, and what ends the
    property: [change_browser] to a supported type, after which [go_to]
    starts a browser. *)
Lemma no_session_without_supported_browser_witness :
  (@run_all _ sample_webdriver
     [Tool (CountElements "a" "css selector"); ChangeBrowser "opera";
      Tool (Click "#ok" "css selector"); Tool (GoTo "example.org")]
     (init "/srv" "netscape" 10)).2
  = [Returned (PyInt 0);
     Returned (PyStr "Invalid browser: opera. Must be one of: chrome, edge, firefox, ie, safari");
     Returned (PyStr "Error clicking element: 'NoneType' object has no attribute 'find_element'");
     Raised (AttributeError "'NoneType' object has no attribute 'get'")]
  /\ driver_ (@run_all _ sample_webdriver
                [Tool (CountElements "a" "css selector"); ChangeBrowser "opera";
                 Tool (Click "#ok" "css selector"); Tool (GoTo "example.org")]
                (init "/srv" "netscape" 10)).1
     = None
  /\ driver_ (@run_all _ sample_webdriver
                [ChangeBrowser "chrome"; Tool (GoTo "example.org")]
                (init "/srv" "netscape" 10)).1
     <> None.
Proof.
  split; [vm_compute; reflexivity|]. split; [|by vm_compute].
  refine (proj1 (@no_session_without_supported_browser _ sample_webdriver
                   [Tool (CountElements "a" "css selector"); ChangeBrowser "opera";
                    Tool (Click "#ok" "css selector"); Tool (GoTo "example.org")]
                   (init "/srv" "netscape" 10) eq_refl _ _)).
  - apply (bool_decide_unpack _). vm_compute. exact I.
  - repeat constructor. apply (bool_decide_unpack _). vm_compute. exact I.
Defined.

End UnstartedWitness.
